(** * cosmo_utils.utils.stats_funcs: binning helpers and per-bin statistics

    A shallow embedding of [src/cosmo_utils/utils/stats_funcs.py]
    ([myceil], [myfloor], [Bins_array_create], [sigma_calcs],
    [Stats_one_arr]) and the properties of it that the specification
    states, followed by further properties read off the code.

    Numbers.  A Python/numpy double is modelled by [float]: not-a-number,
    the two infinities, or a finite value given by the rational it denotes.
    Arithmetic on finite values is exact: rounding, overflow and the sign
    of zero are outside this model.  Python integers are [Z].  The two
    rounding functions are given a second time on IEEE binary64 values
    ([Binary64]), where they can be evaluated with rounding.

    Errors.  A call either returns ([Ok]) or raises ([Raise]) one of the
    exceptions of [exn]; sequencing is the bind of that monad, so the
    first exception raised is the result of the call. *)

From Stdlib Require Import QArith Qround Qabs Lqa ZArith List Bool Sorted.
From Stdlib Require Import Floats.SpecFloat.
From stdpp Require Import gmap strings list pretty.

Local Open Scope string_scope.

(** ** Exceptions and results *)

Inductive exn : Type :=
| LSSUtils_Error (msg : string)   (* cosmo_utils.custom_exceptions *)
| NameError (name : string)
| TypeError (msg : string)
| AttributeError (msg : string)
| ValueError (msg : string)
| IndexError (msg : string)
| KeyError (key : string)
| AxisError (msg : string)        (* numpy.AxisError *)
| ZeroDivisionError
| OverflowError.

Inductive result (A : Type) : Type :=
| Ok (a : A)
| Raise (e : exn).
Arguments Ok {A} a.
Arguments Raise {A} e.

#[global] Instance result_ret : MRet result := @Ok.
#[global] Instance result_bind : MBind result :=
  fun A B f m => match m with Ok a => f a | Raise e => Raise e end.
#[global] Instance result_fmap : FMap result :=
  fun A B f m => match m with Ok a => Ok (f a) | Raise e => Raise e end.

(** [mapM f l]: a list comprehension [[f(v) for v in l]]; the elements
    are evaluated left to right and the first exception stops it. *)
Fixpoint mapM_result {A B : Type} (f : A -> result B) (l : list A)
  : result (list B) :=
  match l with
  | [] => Ok []
  | a :: l' => b ← f a; bs ← mapM_result f l'; Ok (b :: bs)
  end.

(** ** Floating-point values *)

Inductive float : Type :=
| NaN
| Inf (neg : bool)      (* [Inf false] is +inf, [Inf true] is -inf *)
| Fin (q : Q).

Definition Qnegative (q : Q) : bool := (Qnum q <? 0)%Z.

Definition float_of_int (k : Z) : float := Fin (inject_Z k).

Definition is_nan (a : float) : bool :=
  match a with NaN => true | _ => false end.

Definition is_finite (a : float) : bool :=
  match a with Fin _ => true | _ => false end.

Definition fneg (a : float) : float :=
  match a with
  | NaN => NaN
  | Inf s => Inf (negb s)
  | Fin x => Fin (- x)
  end.

Definition fadd (a b : float) : float :=
  match a, b with
  | NaN, _ | _, NaN => NaN
  | Inf s, Inf t => if Bool.eqb s t then Inf s else NaN
  | Inf s, Fin _ => Inf s
  | Fin _, Inf t => Inf t
  | Fin x, Fin y => Fin (x + y)
  end.

Definition fsub (a b : float) : float := fadd a (fneg b).

Definition fmul (a b : float) : float :=
  match a, b with
  | NaN, _ | _, NaN => NaN
  | Inf s, Inf t => Inf (xorb s t)
  | Inf s, Fin y => if Qeq_bool y 0 then NaN else Inf (xorb s (Qnegative y))
  | Fin x, Inf t => if Qeq_bool x 0 then NaN else Inf (xorb (Qnegative x) t)
  | Fin x, Fin y => Fin (x * y)
  end.

(** numpy's division: a zero divisor gives an infinity or not-a-number
    (with a warning), never an exception. *)
Definition np_divide (a b : float) : float :=
  match a, b with
  | NaN, _ | _, NaN => NaN
  | Inf _, Inf _ => NaN
  | Inf s, Fin y => Inf (xorb s (Qnegative y))
  | Fin _, Inf _ => Fin 0
  | Fin x, Fin y =>
      if Qeq_bool y 0
      then (if Qeq_bool x 0 then NaN else Inf (Qnegative x))
      else Fin (x / y)
  end.

(** Python's [/] on two floats: a zero divisor raises. *)
Definition py_truediv (a b : float) : result float :=
  match b with
  | Fin y => if Qeq_bool y 0 then Raise ZeroDivisionError
             else Ok (np_divide a b)
  | _ => Ok (np_divide a b)
  end.

(** Comparisons; every comparison with not-a-number is false, except
    [!=], which is true. *)
Definition fleb (a b : float) : bool :=
  match a, b with
  | NaN, _ | _, NaN => false
  | Inf true, _ => true
  | Inf false, Inf false => true
  | Inf false, _ => false
  | Fin _, Inf t => negb t
  | Fin x, Fin y => Qle_bool x y
  end.

Definition feqb (a b : float) : bool :=
  match a, b with
  | Inf s, Inf t => Bool.eqb s t
  | Fin x, Fin y => Qeq_bool x y
  | _, _ => false
  end.

Definition fltb (a b : float) : bool := fleb a b && negb (feqb a b).
Definition fneb (a b : float) : bool := negb (feqb a b).

(** The canonical form of a value (the fraction reduced). *)
Definition fnorm (a : float) : float :=
  match a with Fin x => Fin (Qred x) | _ => a end.

(** ** The parts of [math] and [numpy] the module calls *)

(** [math.ceil] and [math.floor] return an integer; they raise on
    not-a-number and on the infinities. *)
Definition math_ceil (a : float) : result Z :=
  match a with
  | NaN => Raise (ValueError "cannot convert float NaN to integer")
  | Inf _ => Raise OverflowError
  | Fin x => Ok (Qceiling x)
  end.

Definition math_floor (a : float) : result Z :=
  match a with
  | NaN => Raise (ValueError "cannot convert float NaN to integer")
  | Inf _ => Raise OverflowError
  | Fin x => Ok (Qfloor x)
  end.

(** [int(v)] of a float: truncation towards zero. *)
Definition int_of_float (a : float) : result Z :=
  match a with
  | NaN => Raise (ValueError "cannot convert float NaN to integer")
  | Inf _ => Raise OverflowError
  | Fin x => Ok (if Qnegative x then Qceiling x else Qfloor x)
  end.

(** An array: its shape and its elements in row-major order. *)
Record ndarray : Type := mk_ndarray { shape : list nat; data : list float }.

Definition ndim (a : ndarray) : nat := length (shape a).

Definition array1 (l : list float) : ndarray := mk_ndarray [length l] l.
Definition array0 (v : float) : ndarray := mk_ndarray [] [v].

(** Well-formed: as many elements as the shape says. *)
Definition prod_shape (s : list nat) : nat := foldr Nat.mul 1%nat s.

Definition wf_ndarray (a : ndarray) : Prop :=
  length (data a) = prod_shape (shape a).

(** [a.min()] and [a.max()]: not-a-number propagates; an empty array
    raises. *)
Definition fmin2 (a b : float) : float :=
  if is_nan a then a else if is_nan b then b
  else if fleb a b then a else b.

Definition fmax2 (a b : float) : float :=
  if is_nan a then a else if is_nan b then b
  else if fleb b a then a else b.

Definition np_min (l : list float) : result float :=
  match l with
  | [] => Raise (ValueError "zero-size array to reduction operation minimum which has no identity")
  | v :: l' => Ok (fold_left fmin2 l' v)
  end.

Definition np_max (l : list float) : result float :=
  match l with
  | [] => Raise (ValueError "zero-size array to reduction operation maximum which has no identity")
  | v :: l' => Ok (fold_left fmax2 l' v)
  end.

(** [np.arange(start, stop, step)] on floats: [ceil((stop - start)/step)]
    values [start + i*step]; none when that count is not positive. *)
Definition arange_len (start stop step : Q) : nat :=
  Z.to_nat (Qceiling ((stop - start) / step)).

Definition np_arange (start stop step : float) : result (list float) :=
  match start, stop, step with
  | Fin a, Fin b, Fin s =>
      if Qeq_bool s 0 then Raise ZeroDivisionError
      else Ok (map (fun i : nat => Fin (a + inject_Z (Z.of_nat i) * s))
                   (seq 0 (arange_len a b s)))
  | _, _, _ => Raise (ValueError "arange: cannot compute length")
  end.

(** ** RoundingOps: [myceil] and [myfloor] *)

(** [y = float(base * math.ceil(float(x)/base))] *)
Definition myceil (x base : float) : result float :=
  q ← py_truediv x base;
  k ← math_ceil q;
  Ok (fmul base (float_of_int k)).

(** [y = float(base * math.floor(float(x)/base))] *)
Definition myfloor (x base : float) : result float :=
  q ← py_truediv x base;
  k ← math_floor q;
  Ok (fmul base (float_of_int k)).

(** ** numpy reductions that skip not-a-number *)

Definition drop_nan (l : list float) : list float :=
  List.filter (fun v => negb (is_nan v)) l.

Definition fsum (l : list float) : float := fold_left fadd l (Fin 0).

Definition count_of (l : list float) : float :=
  float_of_int (Z.of_nat (length l)).

(** [np.nanmean]: the mean of the entries that are numbers;
    not-a-number (and a warning) when there is none. *)
Definition nanmean (l : list float) : float :=
  match drop_nan l with
  | [] => NaN
  | vs => np_divide (fsum vs) (count_of vs)
  end.

(** Insertion sort of values that are numbers, used by the median and
    the percentiles. *)
Fixpoint insert_sorted (v : float) (l : list float) : list float :=
  match l with
  | [] => [v]
  | w :: l' => if fleb v w then v :: l else w :: insert_sorted v l'
  end.

Definition sort_floats (l : list float) : list float :=
  foldr insert_sorted [] l.

(** [np.nanmedian]: the middle of the sorted numbers, the mean of the two
    middle ones when their count is even. *)
Definition nanmedian (l : list float) : float :=
  let vs := sort_floats (drop_nan l) in
  let n := length vs in
  match vs with
  | [] => NaN
  | _ =>
      if Nat.even n
      then np_divide (fadd (nth (n / 2 - 1) vs NaN) (nth (n / 2) vs NaN))
                     (Fin 2)
      else nth (n / 2) vs NaN
  end.

(** [np.nanpercentile] on a one-dimensional array, linear interpolation
    between the two nearest ranks. *)
Definition percentile_in_range (q : float) : bool :=
  fleb (Fin 0) q && fleb q (Fin 100).

Definition nanpercentile (q : Q) (l : list float) : float :=
  let vs := sort_floats (drop_nan l) in
  match vs with
  | [] => NaN
  | _ =>
      let pos := ((q / 100) * inject_Z (Z.of_nat (length vs - 1)))%Q in
      let below := Z.to_nat (Qfloor pos) in
      let above := Nat.min (S below) (length vs - 1) in
      let w := (pos - inject_Z (Qfloor pos))%Q in
      fadd (fmul (nth below vs NaN) (Fin (1 - w)))
           (fmul (nth above vs NaN) (Fin w))
  end.

(** A reduction along one axis: [f] is applied to every line of the array
    that runs along [axis]; the result has the shape without that axis.
    An axis the array does not have raises [AxisError]. *)
Definition axis_line (a : ndarray) (axis outer_i inner_j : nat) : list float :=
  let n := nth axis (shape a) 0%nat in
  let inner := prod_shape (skipn (S axis) (shape a)) in
  map (fun k : nat => nth (outer_i * n * inner + k * inner + inner_j)%nat
                          (data a) NaN)
      (seq 0 n).

Definition reduce_axis (f : list float -> float) (a : ndarray) (axis : nat)
  : result ndarray :=
  if (axis <? ndim a)%nat then
    let outer := prod_shape (firstn axis (shape a)) in
    let inner := prod_shape (skipn (S axis) (shape a)) in
    Ok (mk_ndarray
          (firstn axis (shape a) ++ skipn (S axis) (shape a))
          (flat_map (fun o : nat =>
                       map (fun j : nat => f (axis_line a axis o j))
                           (seq 0 inner))
                    (seq 0 outer)))
  else
    Raise (AxisError ("axis " +:+ pretty axis +:+
                      " is out of bounds for array of dimension " +:+
                      pretty (ndim a))).

(** Element-wise arithmetic of arrays of one shape, and of a Python
    number with an array. *)
Definition ew2 (op : float -> float -> float) (a b : ndarray) : ndarray :=
  mk_ndarray (shape a) (zip_with op (data a) (data b)).

Definition scalar_mul (k : Z) (a : ndarray) : ndarray :=
  mk_ndarray (shape a) (map (fmul (float_of_int k)) (data a)).

(** [np.nanpercentile(a, q, axis=axis)]: the percentage is checked
    first. *)
Definition percentile_axis (a : ndarray) (q : float) (axis : nat)
  : result ndarray :=
  match q with
  | Fin qv =>
      if percentile_in_range q then reduce_axis (nanpercentile qv) a axis
      else Raise (ValueError "Percentiles must be in the range [0, 100]")
  | _ => Raise (ValueError "Percentiles must be in the range [0, 100]")
  end.

(** A rational stand-in for the square root, for evaluating the model on
    concrete inputs: the integer root of the value scaled by [10^12]. *)
Definition sqrt_approx (x : Q) : Q :=
  (Z.sqrt (Qfloor (x * inject_Z (10 ^ 12))) # (10 ^ 6))%Q.

(** A stand-in for [fd.Program_Msg] on concrete inputs. *)
Definition sample_Program_Msg (path : string) : string := path +:+ " >>> ".
Definition sample_file : string := "stats_funcs.py".

Section Source.
(** [fd.Program_Msg(__file__)] comes from [cosmo_utils.utils.file_utils],
    which is not part of this file: the function and the module's path
    are parameters. *)
Variable Program_Msg : string -> string.
Variable module_file : string.

(** [math.sqrt] and numpy's square root on a finite value that is not
    negative: the rounded root, which is a rational. *)
Variable sqrt : Q -> Q.

Definition fsqrt (a : float) : float :=
  match a with
  | NaN => NaN
  | Inf s => if s then NaN else Inf false
  | Fin x => if Qnegative x then NaN else Fin (sqrt x)
  end.

(** [np.nanstd] (ddof = 0). *)
Definition nanstd (l : list float) : float :=
  match drop_nan l with
  | [] => NaN
  | vs =>
      let avg := np_divide (fsum vs) (count_of vs) in
      let sqr := map (fun v => fmul (fsub v avg) (fsub v avg)) vs in
      fsqrt (np_divide (fsum sqr) (count_of vs))
  end.

(** *** BinEdgeBuilder: [Bins_array_create] *)

Definition dimension_msg (file_msg : string) (n : nat) : string :=
  file_msg +:+ " The input array is not of dimension 1, but of `"
           +:+ pretty n +:+ "`".

Definition Bins_array_create (arr : ndarray) (base : float)
  : result (list float) :=
  let file_msg := Program_Msg module_file in
  if negb (ndim arr =? 1)%nat then
    Raise (LSSUtils_Error (dimension_msg file_msg (ndim arr)))
  else
    lo ← np_min (data arr);
    arr_min ← myfloor lo base;
    hi ← np_max (data arr);
    arr_max ← myceil hi base;
    np_arange arr_min (fadd arr_max (fmul (Fin (1 # 2)) base)) base.

(** *** SigmaEstimator: [sigma_calcs] *)

(** What [sigma_dict] holds under a key: the empty Python list it is
    initialised with, the array [np.column_stack((lower, upper)).T]
    (kept as its two operands: its first row is [lower], its second
    [upper]), or that array flattened. *)
Inductive band : Type :=
| EmptyList
| Stacked (lower upper : ndarray)
| Flattened (l : list float).

(** [b.flatten()]; a Python list has no such method.  [sigma_calcs]
    flattens only for one-dimensional data, where both operands are
    scalars: the result is then [[lower, upper]]. *)
Definition flatten (b : band) : result band :=
  match b with
  | EmptyList =>
      Raise (AttributeError "'list' object has no attribute 'flatten'")
  | Stacked lower upper => Ok (Flattened (data lower ++ data upper))
  | Flattened l => Ok (Flattened l)
  end.

Inductive sigma_result : Type :=
| SigmaDict (sigma_dict : gmap nat band)
| SigmaDictMeanStd (sigma_dict : gmap nat band) (mark_mean mark_std : ndarray).

Definition sigma_dict_of (r : sigma_result) : gmap nat band :=
  match r with
  | SigmaDict d => d
  | SigmaDictMeanStd d _ _ => d
  end.

(** [for ii in range(len(perc_arr)): sigma_dict[ii] = []] *)
Definition init_sigma_dict (n : nat) : gmap nat band :=
  foldl (fun d ii => <[ii := EmptyList]> d) ∅ (seq 0 n).

(** The [type_sigma == 'perc'] loop. *)
Definition perc_bands (data_arr : ndarray) (axis : nat)
    (perc_arr : list float) (d0 : gmap nat band) : result (gmap nat band) :=
  foldl (fun (acc : result (gmap nat band)) (p : nat * float) =>
           d ← acc;
           let '(ii, perc_ii) := p in
           let q_lo := fsub (Fin 50) (np_divide perc_ii (Fin 2)) in
           let q_hi := fadd (Fin 50) (np_divide perc_ii (Fin 2)) in
           mark_lower ← percentile_axis data_arr q_lo axis;
           mark_upper ← percentile_axis data_arr q_hi axis;
           Ok (<[ii := Stacked mark_lower mark_upper]> d))
        (Ok d0) (zip (seq 0 (length perc_arr)) perc_arr).

(** The body of the [type_sigma == 'std'] loop:
    [mark_lower = mean_val - ((ii+1) * std_val)],
    [mark_upper = mean_val + ((ii+1) * std_val)] and
    [np.column_stack((mark_lower, mark_upper)).T]. *)
Definition std_band (mean_val std_val : ndarray) (ii : nat) : band :=
  let mark_lower :=
    ew2 fsub mean_val (scalar_mul (Z.of_nat ii + 1) std_val) in
  let mark_upper :=
    ew2 fadd mean_val (scalar_mul (Z.of_nat ii + 1) std_val) in
  Stacked mark_lower mark_upper.

(** The [type_sigma == 'std'] loop. *)
Definition std_bands (mean_val std_val : ndarray) (n : nat)
    (d0 : gmap nat band) : gmap nat band :=
  foldl (fun d ii => <[ii := std_band mean_val std_val ii]> d) d0 (seq 0 n).

(** [for ii in range(len(sigma_dict.keys())):
       sigma_dict[ii] = sigma_dict[ii].flatten()] *)
Definition flatten_all (d0 : gmap nat band) : result (gmap nat band) :=
  foldl (fun (acc : result (gmap nat band)) ii =>
           d ← acc;
           match d !! ii with
           | Some b => b' ← flatten b; Ok (<[ii := b']> d)
           | None => Raise (KeyError (pretty ii))
           end)
        (Ok d0) (seq 0 (size d0)).

Definition sigma_calcs (data_arr : ndarray) (type_sigma : string)
    (perc_arr : list float) (return_mean_std : bool) : result sigma_result :=
  let axis := if (ndim data_arr =? 1)%nat then 0%nat else 1%nat in
  let sigma_dict := init_sigma_dict (length perc_arr) in
  sigma_dict ←
    (if String.eqb type_sigma "perc"
     then perc_bands data_arr axis perc_arr sigma_dict
     else Ok sigma_dict);
  sigma_dict ←
    (if String.eqb type_sigma "std"
     then
       mean_val ← reduce_axis nanmean data_arr axis;
       std_val ← reduce_axis nanstd data_arr axis;
       Ok (std_bands mean_val std_val (length perc_arr) sigma_dict)
     else Ok sigma_dict);
  mark_mean ← reduce_axis nanmean data_arr axis;
  mark_std ← reduce_axis nanstd data_arr axis;
  sigma_dict ←
    (if (ndim data_arr =? 1)%nat then flatten_all sigma_dict
     else Ok sigma_dict);
  if return_mean_std
  then Ok (SigmaDictMeanStd sigma_dict mark_mean mark_std)
  else Ok (SigmaDict sigma_dict).

(** The defaults of [sigma_calcs]. *)
Definition default_perc_arr : list float :=
  [Fin 68; Fin 95; Fin (997 # 10)].

(** *** BinnedStatistics: [Stats_one_arr] *)

(** A value a global name can be bound to, as far as the body of
    [Stats_one_arr] looks at it. *)
Inductive pyval : Type :=
| VArray (a : ndarray)
| VBool (b : bool)
| VObject (descr : string).

(** The names the module binds at its top level: the attributes every
    module has, the imports and the five functions. *)
Definition module_globals : gmap string pyval :=
  list_to_map
    [("__name__", VObject "str"); ("__doc__", VObject "NoneType");
     ("__file__", VObject "str"); ("__package__", VObject "str");
     ("__loader__", VObject "loader"); ("__spec__", VObject "spec");
     ("__builtins__", VObject "module");
     ("print_function", VObject "feature");
     ("division", VObject "feature");
     ("absolute_import", VObject "feature");
     ("__author__", VObject "list"); ("__copyright__", VObject "list");
     ("__email__", VObject "list"); ("__maintainer__", VObject "list");
     ("__all__", VObject "list");
     ("math", VObject "module"); ("np", VObject "module");
     ("fd", VObject "module"); ("LSSUtils_Error", VObject "class");
     ("myceil", VObject "function"); ("myfloor", VObject "function");
     ("Bins_array_create", VObject "function");
     ("sigma_calcs", VObject "function");
     ("Stats_one_arr", VObject "function")].

(** The functions and constants of Python's [builtins] module. *)
Definition builtin_names : list string :=
  ["abs"; "all"; "any"; "ascii"; "bin"; "bool"; "breakpoint";
   "bytearray"; "bytes"; "callable"; "chr"; "classmethod"; "compile";
   "complex"; "delattr"; "dict"; "dir"; "divmod"; "enumerate"; "eval";
   "exec"; "filter"; "float"; "format"; "frozenset"; "getattr";
   "globals"; "hasattr"; "hash"; "help"; "hex"; "id"; "input"; "int";
   "isinstance"; "issubclass"; "iter"; "len"; "list"; "locals"; "map";
   "max"; "memoryview"; "min"; "next"; "object"; "oct"; "open"; "ord";
   "pow"; "print"; "property"; "range"; "repr"; "reversed"; "round";
   "set"; "setattr"; "slice"; "sorted"; "staticmethod"; "str"; "sum";
   "super"; "tuple"; "type"; "vars"; "zip"; "__import__";
   "True"; "False"; "None"; "Ellipsis"; "NotImplemented"; "__debug__";
   "copyright"; "credits"; "license"; "exit"; "quit"].

(** A name the function never assigns is read from the module's globals
    and then from the builtins; a name in neither raises [NameError]. *)
Definition load_global (G : gmap string pyval) (name : string)
  : result pyval :=
  match G !! name with
  | Some v => Ok v
  | None =>
      if existsb (String.eqb name) builtin_names
      then Ok (VObject "builtin")
      else Raise (NameError name)
  end.

(** [len(v)] *)
Definition py_len (v : pyval) : result nat :=
  match v with
  | VArray a =>
      match shape a with
      | [] => Raise (TypeError "len() of unsized object")
      | n :: _ => Ok n
      end
  | VBool _ => Raise (TypeError "object of type 'bool' has no len()")
  | VObject d =>
      Raise (TypeError ("object of type '" +:+ d +:+ "' has no len()"))
  end.

(** [np.asarray(v)]; what is not an array becomes a 0-d array. *)
Definition np_asarray (v : pyval) : ndarray :=
  match v with
  | VArray a => a
  | VBool b => array0 (if b then Fin 1 else Fin 0)
  | VObject _ => array0 NaN
  end.

(** [if v:] *)
Definition truthy (v : pyval) : result bool :=
  match v with
  | VBool b => Ok b
  | VObject _ => Ok true
  | VArray a =>
      match data a with
      | [] => Ok false
      | [e] => Ok (fneb e (Fin 0))
      | _ => Raise (ValueError "The truth value of an array with more than one element is ambiguous. Use a.any() or a.all()")
      end
  end.

(** [statfunc]: one of numpy's two reducers, or another function. *)
Inductive reducer : Type :=
| NanMean
| NanMedian
| OtherFunc (f : list float -> float).

Definition apply_reducer (statfunc : reducer) (l : list float) : float :=
  match statfunc with
  | NanMean => nanmean l
  | NanMedian => nanmedian l
  | OtherFunc f => f l
  end.

(** [statfunc == np.nanmedian] *)
Definition is_nanmedian (statfunc : reducer) : bool :=
  match statfunc with NanMedian => true | _ => false end.

(** [np.digitize(x, bins)]: for increasing [bins] the number of edges
    that are [<= v], for decreasing [bins] the number that are [> v];
    not-a-number sorts after every edge. *)
Definition nondecreasing (l : list float) : bool :=
  forallb (fun p => fleb (fst p) (snd p)) (zip l (tail l)).

Definition nonincreasing (l : list float) : bool :=
  forallb (fun p => fleb (snd p) (fst p)) (zip l (tail l)).

Definition count_le (bins : list float) (v : float) : nat :=
  if is_nan v then length bins
  else length (List.filter (fun e => fleb e v) bins).

Definition np_digitize (x bins : list float) : result (list nat) :=
  if nondecreasing bins then Ok (map (count_le bins) x)
  else if nonincreasing bins
  then Ok (map (fun v => (length bins - count_le (rev bins) v)%nat) x)
  else Raise (ValueError "bins must be monotonically increasing or decreasing").

(** The text of numpy's [IndexError] for a boolean index of the wrong
    length, in the wording of the numpy versions before 1.24. *)
Definition mask_length_msg (n m : nat) : string :=
  "boolean index did not match indexed array along dimension 0; dimension is "
    +:+ pretty n +:+ " but corresponding boolean dimension is " +:+ pretty m.

(** [v[mask]] for a boolean [mask]. *)
Definition select_mask (v : list float) (mask : list bool)
  : result (list float) :=
  if (length v =? length mask)%nat
  then Ok (map fst (List.filter snd (zip v mask)))
  else Raise (IndexError (mask_length_msg (length v) (length mask))).

(** What a bin holds: its values, or [failval].  [failval] is the Python
    float the caller passed ([BinFail]); as an element of a float64 array
    it is a [numpy.float64] scalar ([BinFloat64]). *)
Inductive bin_entry : Type :=
| BinArr (values : list float)
| BinFail (failval : float)
| BinFloat64 (failval : float).

(** The number of values of [v] that fall in bin [ii]. *)
Definition occupancy (digits : list nat) (ii : nat) : nat :=
  length (List.filter (Nat.eqb ii) digits).

(** [v[x_digits == ii] if len(v[x_digits == ii]) > arr_len else failval] *)
Definition bin_entry_at (v : list float) (x_digits : list nat)
    (arr_len : Z) (failval : float) (ii : nat) : result bin_entry :=
  sel ← select_mask v (map (Nat.eqb ii) x_digits);
  if (Z.of_nat (length sel) >? arr_len)%Z then Ok (BinArr sel)
  else Ok (BinFail failval).

(** [np.array(entries)] of the list of the bins' entries.  A list that
    holds nothing but [failval] becomes a float64 array, whose elements
    are [numpy.float64] scalars.  A list that holds an array stays the
    array of its entries: the rows of a two-dimensional array when the
    bins have one size, and otherwise (before numpy 1.24) an object array
    that holds the arrays and the Python floats themselves. *)
Definition is_failval (e : bin_entry) : bool :=
  match e with BinFail _ => true | _ => false end.

Definition np_array_entries (entries : list bin_entry) : list bin_entry :=
  if forallb is_failval entries
  then map (fun e => match e with BinFail v => BinFloat64 v | _ => e end)
           entries
  else entries.

(** [np.array([... for ii in range(1, len(x_bins))])] *)
Definition bins_data (v : list float) (x_digits : list nat)
    (len_x_bins : nat) (arr_len : Z) (failval : float)
  : result (list bin_entry) :=
  entries ← mapM_result (bin_entry_at v x_digits arr_len failval)
                        (seq 1 (len_x_bins - 1));
  Ok (np_array_entries entries).

(** [len(ii)] of an entry: [failval] is a number and has no length; the
    message names the type of the element. *)
Definition len_entry (ii : bin_entry) : result nat :=
  match ii with
  | BinArr l => Ok (length l)
  | BinFail _ => Raise (TypeError "object of type 'float' has no len()")
  | BinFloat64 _ =>
      Raise (TypeError "object of type 'numpy.float64' has no len()")
  end.

(** [f(ii) if len(ii) > arr_len else failval]: the condition is evaluated
    first, and [len] raises on an entry that is [failval]. *)
Definition stat_of_entry (f : list float -> float) (arr_len : Z)
    (failval : float) (ii : bin_entry) : result float :=
  match ii with
  | BinArr l =>
      if (Z.of_nat (length l) >? arr_len)%Z then Ok (f l) else Ok failval
  | BinFail _ | BinFloat64 _ => len_entry ii;; Ok failval
  end.

(** [edges[ii] if len(x_bins_data[ii]) > arr_len else failval
     for ii in range(len(x_bins_data))] *)
Definition edge_stat (edges : list float) (x_bins_data : list bin_entry)
    (arr_len : Z) (failval : float) : result (list float) :=
  mapM_result
    (fun ii : nat =>
       match x_bins_data !! ii with
       | None => Raise (IndexError "index out of bounds")
       | Some e =>
           n ← len_entry e;
           if (Z.of_nat n >? arr_len)%Z
           then match edges !! ii with
                | Some v => Ok v
                | None => Raise (IndexError "index out of bounds")
                end
           else Ok failval
       end)
    (seq 0 (length x_bins_data)).

(** [np.nanstd(ii)/math.sqrt(len(ii))] *)
Definition std_err (l : list float) : float :=
  np_divide (nanstd l) (fsqrt (count_of l)).

(** [a[idx]] for an array of indices. *)
Definition take_idx {A : Type} (a : list A) (idx : list nat)
  : result (list A) :=
  mapM_result
    (fun i : nat =>
       match a !! i with
       | Some v => Ok v
       | None => Raise (IndexError "index out of bounds")
       end)
    idx.

(** [np.where(x_stat != failval)[0]] *)
Definition where_ne (x_stat : list float) (failval : float) : list nat :=
  map fst (List.filter (fun p => fneb (snd p) failval)
                       (zip (seq 0 (length x_stat)) x_stat)).

(** The objects [Stats_one_arr] puts in the list it returns. *)
Inductive pyobj : Type :=
| RArray (l : list float)
    (* a one-dimensional array of numbers *)
| RBins (l : list bin_entry)
    (* the array of the bins' entries *)
| RGenerator0d (pending : list bin_entry)
    (* [np.array(<generator>)]: a 0-d array holding the generator of
       line 342, which has not run; it would run over [pending] *)
| RSigma (r : sigma_result).

(** [len(o)] of a returned object. *)
Definition len_pyobj (o : pyobj) : option nat :=
  match o with
  | RArray l => Some (length l)
  | RBins l => Some (length l)
  | RGenerator0d _ => None
  | RSigma r => Some (size (sigma_dict_of r))
  end.

Definition arr_digit_msg (file_msg arr_digit : string) : string :=
  file_msg +:+ " `arr_digit` (" +:+ arr_digit
           +:+ ") is not a valid input. Exiting".

Definition length_msg (file_msg : string) : string :=
  file_msg +:+ " The arrays `x1` and `y2` must have at least one value".

Definition arr_len_msg (file_msg : string) (arr_len : Z) : string :=
  file_msg +:+ " `arr_len` (" +:+ pretty arr_len
           +:+ ") must be greated than zero!".

Definition bin_statval_msg (file_msg bin_statval : string) : string :=
  file_msg +:+ " `bin_statval` (" +:+ bin_statval
           +:+ ") is not a valid input! Exiting".

(** [if not cond: raise LSSUtils_Error(msg)] *)
Definition raise_unless (cond : bool) (msg : string) : result unit :=
  if cond then Ok tt else Raise (LSSUtils_Error msg).

(** [int(arr_len - 1.) if arr_len != 0 else int(arr_len)] *)
Definition decrement_arr_len (arr_len : Z) : result Z :=
  if negb (arr_len =? 0)%Z
  then int_of_float (fsub (float_of_int arr_len) (Fin 1))
  else Ok arr_len.

(** Lines 302 to 383: the body after the checks.  [G] is the module's
    global namespace at the time of the call: the body reads the names
    [x1] and [return_perc], which the function never binds. *)
Definition Stats_body (G : gmap string pyval) (x y : list float)
    (base : float) (arr_len : Z) (arr_digit : string)
    (statfunc : reducer) (bin_statval : string) (failval : float)
  : result (list pyobj) :=
  x1 ← load_global G "x1";
  nelem ← py_len x1;
  arr_len ← decrement_arr_len arr_len;
  x1 ← load_global G "x1";
  x_bins ← Bins_array_create (np_asarray x1) base;
  x_digits ← np_digitize x x_bins;
  x_bins_data ← bins_data x x_digits (length x_bins) arr_len failval;
  y_bins_data ← bins_data y x_digits (length x_bins) arr_len failval;
  x_stat_average ←
    (if String.eqb bin_statval "average"
     then Some <$> mapM_result
            (stat_of_entry (apply_reducer statfunc) arr_len failval)
            x_bins_data
     else Ok (@None (list float)));
  x_stat_left ←
    (if String.eqb bin_statval "left"
     then Some <$> edge_stat (removelast x_bins) x_bins_data arr_len failval
     else Ok x_stat_average);
  x_stat_right ←
    (if String.eqb bin_statval "right"
     then Some <$> edge_stat (tail x_bins) x_bins_data arr_len failval
     else Ok x_stat_left);
  y_stat ← mapM_result
             (stat_of_entry (apply_reducer statfunc) arr_len failval)
             y_bins_data;
  let y_std := RGenerator0d y_bins_data in
  y_std_err ← mapM_result (stat_of_entry std_err arr_len failval)
                          y_bins_data;
  x_stat ← (match x_stat_right with
            | Some v => Ok v
            | None => Raise (NameError "x_stat")
            end);
  let x_fail_idx := where_ne x_stat failval in
  x_stat ← take_idx x_stat x_fail_idx;
  y_stat ← take_idx y_stat x_fail_idx;
  y_std_err ← take_idx y_std_err x_fail_idx;
  x_bins_data ← take_idx x_bins_data x_fail_idx;
  y_bins_data ← take_idx y_bins_data x_fail_idx;
  let y_std_err :=
    if is_nanmedian statfunc
    then map (fun v => fmul v (Fin (1253 # 1000))) y_std_err
    else y_std_err in
  return_perc ← load_global G "return_perc";
  return_perc ← truthy return_perc;
  perc_arr_lims ←
    (if (return_perc : bool)
     then Some <$> sigma_calcs (array1 y_stat) "std" default_perc_arr false
     else Ok (@None sigma_result));
  match perc_arr_lims with
  | Some perc_arr_lims =>
      if String.eqb arr_digit "o"
      then Ok [RBins x_bins_data; RBins y_bins_data; RSigma perc_arr_lims]
      else if String.eqb arr_digit "y"
      then Ok [RArray x_stat; RArray y_stat; y_std; RArray y_std_err;
               RBins x_bins_data; RBins y_bins_data; RSigma perc_arr_lims]
      else if String.eqb arr_digit "n"
      then Ok [RArray x_stat; RArray y_stat; y_std; RArray y_std_err;
               RSigma perc_arr_lims]
      else Raise (NameError "return_val")
  | None =>
      if String.eqb arr_digit "o"
      then Ok [RBins x_bins_data; RBins y_bins_data]
      else if String.eqb arr_digit "y"
      then Ok [RArray x_stat; RArray y_stat; y_std; RArray y_std_err;
               RBins x_bins_data; RBins y_bins_data]
      else if String.eqb arr_digit "n"
      then Ok [RArray x_stat; RArray y_stat; y_std; RArray y_std_err]
      else Raise (NameError "return_val")
  end.

(** Lines 278 to 299: the checks, then the body.  The parameter
    [weights] is never read and is left out. *)
Definition Stats_one_arr (G : gmap string pyval) (x y : list float)
    (base : float) (arr_len : Z) (arr_digit : string)
    (statfunc : reducer) (bin_statval : string) (failval : float)
  : result (list pyobj) :=
  let file_msg := Program_Msg module_file in
  raise_unless (String.eqb arr_digit "y" || String.eqb arr_digit "n"
                || String.eqb arr_digit "o")
               (arr_digit_msg file_msg arr_digit);;
  raise_unless ((0 <? length x)%nat && (0 <? length y)%nat)
               (length_msg file_msg);;
  raise_unless (0 <? arr_len)%Z (arr_len_msg file_msg arr_len);;
  raise_unless (existsb (String.eqb bin_statval) ["average"; "left"; "right"])
               (bin_statval_msg file_msg bin_statval);;
  Stats_body G x y base arr_len arr_digit statfunc bin_statval failval.
End Source.

(** ** The rounding functions with rounding

    The same two functions on IEEE binary64 values, as Stdlib's
    [SpecFloat] implements them (round to nearest, ties to even), to
    evaluate them with the rounding the exact model leaves out. *)

Module Binary64.

Definition prec : Z := 53.
Definition emax : Z := 1024.

(** [float(k)] of an integer: the nearest double. *)
Definition of_int (k : Z) : spec_float := binary_normalize prec emax k 0 false.

(** The double a decimal literal [n/d] denotes: the quotient of the two
    integers (both exact here), correctly rounded. *)
Definition literal (n d : Z) : spec_float :=
  SFdiv prec emax (of_int n) (of_int d).

Definition is_zero (a : spec_float) : bool :=
  match a with S754_zero _ => true | _ => false end.

Definition py_truediv (a b : spec_float) : result spec_float :=
  if is_zero b then Raise ZeroDivisionError else Ok (SFdiv prec emax a b).

(** [math.floor] and [math.ceil] of the value [m * 2^e]. *)
Definition math_floor (a : spec_float) : result Z :=
  match a with
  | S754_nan => Raise (ValueError "cannot convert float NaN to integer")
  | S754_infinity _ => Raise OverflowError
  | S754_zero _ => Ok 0%Z
  | S754_finite s m e =>
      let v := if s then Z.neg m else Z.pos m in
      Ok (if (0 <=? e)%Z then v * 2 ^ e else v / 2 ^ (- e))%Z
  end.

Definition math_ceil (a : spec_float) : result Z :=
  match a with
  | S754_nan => Raise (ValueError "cannot convert float NaN to integer")
  | S754_infinity _ => Raise OverflowError
  | S754_zero _ => Ok 0%Z
  | S754_finite s m e =>
      let v := if s then Z.neg m else Z.pos m in
      Ok (if (0 <=? e)%Z then v * 2 ^ e else - ((- v) / 2 ^ (- e)))%Z
  end.

Definition myceil (x base : spec_float) : result spec_float :=
  q ← py_truediv x base;
  k ← math_ceil q;
  Ok (SFmul prec emax base (of_int k)).

Definition myfloor (x base : spec_float) : result spec_float :=
  q ← py_truediv x base;
  k ← math_floor q;
  Ok (SFmul prec emax base (of_int k)).

(** The number of edges [Bins_array_create] returns for a one-dimensional
    array whose minimum is [lo_val] and maximum [hi_val]: the length of
    [np.arange(arr_min, arr_max + 0.5*base, base)]. *)
Definition edge_count (lo_val hi_val base : spec_float) : result Z :=
  arr_min ← myfloor lo_val base;
  arr_max ← myceil hi_val base;
  let stop := SFadd prec emax arr_max (SFmul prec emax (literal 1 2) base) in
  n ← math_ceil (SFdiv prec emax (SFsub prec emax stop arr_min) base);
  Ok (Z.max 0 n).

End Binary64.

(** ** Notions the properties are stated with *)

(** Every element is a finite value. *)
Definition all_finite (l : list float) : Prop :=
  Forall (fun e => is_finite e = true) l.

(** Row [i] of a two-dimensional array with [c] columns. *)
Definition row (a : ndarray) (c i : nat) : list float :=
  firstn c (skipn (i * c) (data a)).

(** The band of level [k] around a mean: [mean - k*std] and
    [mean + k*std]. *)
Definition lower_bound (mean std : float) (k : Z) : float :=
  fsub mean (fmul (float_of_int k) std).
Definition upper_bound (mean std : float) (k : Z) : float :=
  fadd mean (fmul (float_of_int k) std).

Definition is_inf (a : float) : bool :=
  match a with Inf _ => true | _ => false end.

(** A line of data the estimator can summarise: no infinite entry and at
    least one entry that is a number. *)
Definition summarisable (l : list float) : Prop :=
  Forall (fun e => is_inf e = false) l /\
  Exists (fun e => is_finite e = true) l.

(** The parameters [Stats_one_arr] accepts. *)
Definition valid_arr_digit (s : string) : Prop :=
  s = "n" \/ s = "y" \/ s = "o".
Definition valid_bin_statval (s : string) : Prop :=
  s = "average" \/ s = "left" \/ s = "right".
Definition checks_pass (x y : list float) (arr_len : Z)
    (arr_digit bin_statval : string) : Prop :=
  valid_arr_digit arr_digit /\ x <> [] /\ y <> [] /\ (0 < arr_len)%Z /\
  valid_bin_statval bin_statval.

(** The module's namespace after a caller has bound the two names the
    body of [Stats_one_arr] reads. *)
Definition bound_globals (x1 : list float) (return_perc : bool)
  : gmap string pyval :=
  <["x1" := VArray (array1 x1)]>
    (<["return_perc" := VBool return_perc]> module_globals).

(** A base that compares equal to zero ([0.0] or [-0.0]). *)
Definition is_zero_float (a : float) : bool := feqb a (Fin 0).

(** The rational a finite value holds. *)
Definition Qval (a : float) : Q :=
  match a with Fin q => q | _ => 0%Q end.

(** A level [perc_ii] of [perc_arr] for which [50 - perc_ii/2] and
    [50 + perc_ii/2] are both percentages: it lies in [-100, 100]. *)
Definition level_in_range (p : float) : bool :=
  fleb (Fin (-100)) p && fleb p (Fin 100).

(** [v[x_digits == ii]]: the values of [v] whose digit is [ii]. *)
Definition bin_values (v : list float) (x_digits : list nat) (ii : nat)
  : list float :=
  map fst (List.filter snd (zip v (map (Nat.eqb ii) x_digits))).

(** [a[np.where(x_stat != failval)[0]]]: the entries of [a] at the
    positions where [x_stat] differs from [failval]. *)
Definition surviving {A : Type} (x_stat : list float) (failval : float)
    (a : list A) : list A :=
  map snd (List.filter (fun p => fneb (fst p) failval) (zip x_stat a)).

(** The default of [arr_len] in the signature of [Stats_one_arr]. *)
Definition default_arr_len : Z := 0.

(** * Properties *)

(** ** Comparisons and arithmetic on finite values *)

Lemma Qeq_bool_false (x y : Q) : ~ (x == y)%Q -> Qeq_bool x y = false.
Proof.
  intros H. destruct (Qeq_bool x y) eqn:E; [|reflexivity].
  apply Qeq_bool_iff in E. contradiction.
Qed.

Lemma fleb_Fin (x y : Q) : fleb (Fin x) (Fin y) = true <-> (x <= y)%Q.
Proof. simpl. apply Qle_bool_iff. Qed.

Lemma py_truediv_Fin (x b : Q) :
  ~ (b == 0)%Q -> py_truediv (Fin x) (Fin b) = Ok (Fin (x / b)).
Proof.
  intros Hb. unfold py_truediv, np_divide.
  now rewrite (Qeq_bool_false _ _ Hb).
Qed.

Lemma myceil_Fin (x b : Q) :
  ~ (b == 0)%Q ->
  myceil (Fin x) (Fin b) = Ok (Fin (b * inject_Z (Qceiling (x / b)))).
Proof. intros Hb. unfold myceil. now rewrite py_truediv_Fin. Qed.

Lemma myfloor_Fin (x b : Q) :
  ~ (b == 0)%Q ->
  myfloor (Fin x) (Fin b) = Ok (Fin (b * inject_Z (Qfloor (x / b)))).
Proof. intros Hb. unfold myfloor. now rewrite py_truediv_Fin. Qed.

(** Division by a positive base, then multiplication, brackets [x]. *)
Lemma ceil_multiple_ge (x b : Q) :
  (0 < b)%Q -> (x <= b * inject_Z (Qceiling (x / b)))%Q.
Proof.
  intros Hb. pose proof (Qle_ceiling (x / b)) as H.
  apply (Qmult_le_l _ _ b Hb) in H.
  rewrite Qmult_div_r in H by lra. exact H.
Qed.

Lemma floor_multiple_le (x b : Q) :
  (0 < b)%Q -> (b * inject_Z (Qfloor (x / b)) <= x)%Q.
Proof.
  intros Hb. pose proof (Qfloor_le (x / b)) as H.
  apply (Qmult_le_l _ _ b Hb) in H.
  rewrite Qmult_div_r in H by lra. exact H.
Qed.

Lemma ceil_multiple_least (x b : Q) (k : Z) :
  (0 < b)%Q -> (x <= b * inject_Z k)%Q ->
  (b * inject_Z (Qceiling (x / b)) <= b * inject_Z k)%Q.
Proof.
  intros Hb Hk. apply Qmult_le_l; [exact Hb|].
  rewrite <- Zle_Qle.
  pose proof (Qceiling_resp_le (x / b) (inject_Z k)) as H.
  rewrite Qceiling_Z in H. apply H.
  apply Qle_shift_div_r; [exact Hb|]. lra.
Qed.

Lemma floor_multiple_greatest (x b : Q) (k : Z) :
  (0 < b)%Q -> (b * inject_Z k <= x)%Q ->
  (b * inject_Z k <= b * inject_Z (Qfloor (x / b)))%Q.
Proof.
  intros Hb Hk. apply Qmult_le_l; [exact Hb|].
  rewrite <- Zle_Qle.
  pose proof (Qfloor_resp_le (inject_Z k) (x / b)) as H.
  rewrite Qfloor_Z in H. apply H.
  apply Qle_shift_div_l; [exact Hb|]. lra.
Qed.

(** ** Minimum and maximum of finite values *)

Lemma fold_fmin2_finite (l : list float) :
  all_finite l -> forall v : Q,
  exists m : Q, fold_left fmin2 l (Fin v) = Fin m /\ (m <= v)%Q /\
                Forall (fun e => fleb (Fin m) e = true) l.
Proof.
  induction 1 as [|e l He Hl IH]; intros v.
  - exists v. simpl. repeat split; [lra | constructor].
  - destruct e as [| |q]; try discriminate. simpl.
    unfold fmin2 at 2. simpl.
    destruct (Qle_bool v q) eqn:E.
    + destruct (IH v) as (m & Hm & Hle & Hall). exists m.
      repeat split; trivial. constructor; trivial.
      apply Qle_bool_iff in E. apply fleb_Fin. lra.
    + destruct (IH q) as (m & Hm & Hle & Hall). exists m.
      assert (q < v)%Q.
      { destruct (Qlt_le_dec q v) as [?|Hc]; trivial.
        apply Qle_bool_iff in Hc. congruence. }
      repeat split; trivial; [lra|]. constructor; trivial.
      now apply fleb_Fin.
Qed.

Lemma fold_fmax2_finite (l : list float) :
  all_finite l -> forall v : Q,
  exists m : Q, fold_left fmax2 l (Fin v) = Fin m /\ (v <= m)%Q /\
                Forall (fun e => fleb e (Fin m) = true) l.
Proof.
  induction 1 as [|e l He Hl IH]; intros v.
  - exists v. simpl. repeat split; [lra | constructor].
  - destruct e as [| |q]; try discriminate. simpl.
    unfold fmax2 at 2. simpl.
    destruct (Qle_bool q v) eqn:E.
    + destruct (IH v) as (m & Hm & Hle & Hall). exists m.
      repeat split; trivial. constructor; trivial.
      apply Qle_bool_iff in E. apply fleb_Fin. lra.
    + destruct (IH q) as (m & Hm & Hle & Hall). exists m.
      assert (v < q)%Q.
      { destruct (Qlt_le_dec v q) as [?|Hc]; trivial.
        apply Qle_bool_iff in Hc. congruence. }
      repeat split; trivial; [lra|]. constructor; trivial.
      now apply fleb_Fin.
Qed.

(** The minimum and the maximum of a non-empty array of finite values are
    finite, bound every element, and are ordered. *)
Lemma np_min_max_finite (l : list float) :
  l <> [] -> all_finite l ->
  exists mn mx : Q,
    np_min l = Ok (Fin mn) /\ np_max l = Ok (Fin mx) /\ (mn <= mx)%Q /\
    Forall (fun e => fleb (Fin mn) e = true /\ fleb e (Fin mx) = true) l.
Proof.
  intros Hne Hfin. destruct l as [|e l]; [congruence|].
  inversion Hfin as [|? ? He Hl]; subst.
  destruct e as [| |v]; try discriminate.
  destruct (fold_fmin2_finite l Hl v) as (mn & Hmn & Hle & Hall).
  destruct (fold_fmax2_finite l Hl v) as (mx & Hmx & Hge & Hall').
  exists mn, mx. simpl. rewrite Hmn, Hmx.
  split; [reflexivity|]. split; [reflexivity|]. split; [lra|].
  constructor.
  - split; apply fleb_Fin; trivial.
  - rewrite Forall_forall in *. intros e He'.
    split; [apply Hall | apply Hall']; exact He'.
Qed.

(** ** RoundingOps *)

(** C5 (amended): for every finite [x] and every finite base other than
    zero, [myceil] returns [base * ceiling(x / base)] and [myfloor] returns
    [base * floor(x / base)].  When the base is positive, the first is the
    smallest multiple of the base that is [>= x] and the second the largest
    multiple that is [<= x], and for every non-empty array [a] of finite
    values [myfloor(min(a)) <= min(a) <= max(a) <= myceil(max(a))]. *)
Theorem myceil_myfloor_multiples (x b : Q) :
  ~ (b == 0)%Q ->
  myceil (Fin x) (Fin b) = Ok (Fin (b * inject_Z (Qceiling (x / b)))) /\
  myfloor (Fin x) (Fin b) = Ok (Fin (b * inject_Z (Qfloor (x / b)))) /\
  ((0 < b)%Q ->
   (x <= b * inject_Z (Qceiling (x / b)))%Q /\
   (forall k : Z, (x <= b * inject_Z k)%Q ->
                  (b * inject_Z (Qceiling (x / b)) <= b * inject_Z k)%Q) /\
   (b * inject_Z (Qfloor (x / b)) <= x)%Q /\
   (forall k : Z, (b * inject_Z k <= x)%Q ->
                  (b * inject_Z k <= b * inject_Z (Qfloor (x / b)))%Q) /\
   (forall a : list float, a <> [] -> all_finite a ->
      exists mn mx lo hi : Q,
        np_min a = Ok (Fin mn) /\ np_max a = Ok (Fin mx) /\
        myfloor (Fin mn) (Fin b) = Ok (Fin lo) /\
        myceil (Fin mx) (Fin b) = Ok (Fin hi) /\
        (lo <= mn)%Q /\ (mn <= mx)%Q /\ (mx <= hi)%Q)).
Proof.
  intros Hb. split; [now apply myceil_Fin|]. split; [now apply myfloor_Fin|].
  intros Hpos.
  split; [now apply ceil_multiple_ge|].
  split; [intros k; now apply ceil_multiple_least|].
  split; [now apply floor_multiple_le|].
  split; [intros k; now apply floor_multiple_greatest|].
  intros a Hne Hfin.
  destruct (np_min_max_finite a Hne Hfin) as (mn & mx & Hmn & Hmx & Hle & _).
  exists mn, mx, (b * inject_Z (Qfloor (mn / b)))%Q,
         (b * inject_Z (Qceiling (mx / b)))%Q.
  split; [exact Hmn|]. split; [exact Hmx|].
  split; [now apply myfloor_Fin|]. split; [now apply myceil_Fin|].
  split; [now apply floor_multiple_le|]. split; [exact Hle|].
  now apply ceil_multiple_ge.
Qed.

Lemma myceil_myfloor_multiples_witness :
  ~ (1 # 2 == 0)%Q /\
  myceil (Fin (1205 # 100)) (Fin (1 # 2))
  = Ok (Fin ((1 # 2) * inject_Z (Qceiling ((1205 # 100) / (1 # 2))))).
Proof.
  assert (H : ~ (1 # 2 == 0)%Q) by (intros E; discriminate E).
  split; [exact H|].
  exact (proj1 (myceil_myfloor_multiples (1205 # 100) (1 # 2) H)).
Defined.

(** The examples of the docstrings hold on binary64 values as well. *)
Example rounding_docstrings_binary64 :
  Binary64.myceil (Binary64.of_int 12) (Binary64.of_int 10)
  = Ok (Binary64.of_int 20) /\
  Binary64.myceil (Binary64.literal 1205 100) (Binary64.of_int 1)
  = Ok (Binary64.of_int 13) /\
  Binary64.myceil (Binary64.literal 1205 100) (Binary64.literal 1 2)
  = Ok (Binary64.literal 125 10) /\
  Binary64.myfloor (Binary64.of_int 12) (Binary64.of_int 10)
  = Ok (Binary64.of_int 10) /\
  Binary64.myfloor (Binary64.literal 1205 100) (Binary64.of_int 1)
  = Ok (Binary64.of_int 12) /\
  Binary64.myfloor (Binary64.literal 1205 100) (Binary64.literal 2 10)
  = Ok (Binary64.of_int 12).
Proof. repeat split; vm_compute; reflexivity. Qed.

(** C5 as stated fails for a negative base: [myceil(12, -10)] is [10], a
    multiple of the base below [x].  It also fails by rounding: on
    binary64 values [myfloor(1.7, 0.1)] is [0.1 * 17], the double above
    [1.7], so [myfloor(min(a), base) <= min(a)] is false for [a = [1.7]]
    and [base = 0.1]. *)
Lemma myceil_myfloor_counterexample :
  (~ (-10 == 0)%Q /\
   myceil (Fin 12) (Fin (-10)) = Ok (Fin 10) /\
   fleb (Fin 12) (Fin 10) = false) /\
  (exists y : spec_float,
     Binary64.myfloor (Binary64.literal 17 10) (Binary64.literal 1 10)
     = Ok y /\
     SFltb (Binary64.literal 17 10) y = true).
Proof.
  split.
  - split; [intros E; discriminate E|]. split; reflexivity.
  - eexists. split; vm_compute; reflexivity.
Qed.

(** ** BinEdgeBuilder *)

Lemma Qceiling_unique (x : Q) (z : Z) :
  (inject_Z (z - 1) < x)%Q -> (x <= inject_Z z)%Q -> Qceiling x = z.
Proof.
  intros Hlo Hhi.
  pose proof (Qle_ceiling x) as Hc. pose proof (Qceiling_lt x) as Hc'.
  assert (Qceiling x - 1 < z)%Z by (rewrite Zlt_Qlt; lra).
  assert (z - 1 < Qceiling x)%Z by (rewrite Zlt_Qlt; lra).
  lia.
Qed.

(** The number of edges [np.arange] makes between two multiples of the
    base when the stop is half a base past the upper one. *)
Lemma arange_len_edges (b : Q) (f c : Z) :
  (0 < b)%Q ->
  arange_len (b * inject_Z f) (b * inject_Z c + (1 # 2) * b) b
  = Z.to_nat (c - f + 1).
Proof.
  intros Hb. unfold arange_len. f_equal.
  apply Qceiling_unique.
  - replace (c - f + 1 - 1)%Z with (c + - f)%Z by lia.
    rewrite inject_Z_plus, inject_Z_opp.
    apply Qlt_shift_div_l; [exact Hb|]. nra.
  - replace (c - f + 1)%Z with (c + - f + 1)%Z by lia.
    rewrite !inject_Z_plus, inject_Z_opp.
    apply Qle_shift_div_r; [exact Hb|].
    change (inject_Z 1) with 1%Q. nra.
Qed.

Lemma lookup_arange (a s : Q) (n i : nat) :
  (i < n)%nat ->
  map (fun i : nat => Fin (a + inject_Z (Z.of_nat i) * s)) (seq 0 n) !! i
  = Some (Fin (a + inject_Z (Z.of_nat i) * s)).
Proof.
  intros Hi.
  change (map ?g ?l) with (g <$> l).
  rewrite list_lookup_fmap, lookup_seq_lt by exact Hi. reflexivity.
Qed.

Section BinEdgesProperties.
Variable Program_Msg : string -> string.
Variable module_file : string.

Lemma Bins_array_create_finite (arr : ndarray) (b mn mx : Q) :
  ndim arr = 1%nat -> ~ (b == 0)%Q ->
  np_min (data arr) = Ok (Fin mn) -> np_max (data arr) = Ok (Fin mx) ->
  Bins_array_create Program_Msg module_file arr (Fin b)
  = Ok (map (fun i : nat =>
               Fin (b * inject_Z (Qfloor (mn / b))
                    + inject_Z (Z.of_nat i) * b))
            (seq 0 (arange_len
                      (b * inject_Z (Qfloor (mn / b)))
                      (b * inject_Z (Qceiling (mx / b)) + (1 # 2) * b)
                      b))).
Proof.
  intros Hdim Hb Hmn Hmx. unfold Bins_array_create.
  rewrite Hdim, Hmn, Hmx. cbn [Nat.eqb negb mbind result_bind].
  rewrite (myfloor_Fin mn b Hb), (myceil_Fin mx b Hb).
  cbn [mbind result_bind]. unfold np_arange, fadd, fmul.
  now rewrite (Qeq_bool_false _ _ Hb).
Qed.

(** C4 (amended): for every non-empty one-dimensional array of finite
    values and every finite base [> 0], [Bins_array_create] returns the
    edges [lo, lo + base, lo + 2*base, ...], with
    [lo = myfloor(min(values), base)], as many of them as [np.arange]
    makes up to [hi + base/2], with [hi = myceil(max(values), base)].
    The edges are strictly increasing and spaced by the base, the first
    is [lo] and the last is [hi].  On [[1,2,3,4]] with base 2 the edges
    are [[0, 2, 4]] and on [[5,7,13,12]] with base 5 they are
    [[5, 10, 15]]. *)
Theorem Bins_array_create_edges :
  (forall (arr : ndarray) (b : Q),
     ndim arr = 1%nat -> data arr <> [] -> all_finite (data arr) ->
     (0 < b)%Q ->
     exists (mn mx lo hi : Q) (edges : list float),
       np_min (data arr) = Ok (Fin mn) /\
       np_max (data arr) = Ok (Fin mx) /\
       myfloor (Fin mn) (Fin b) = Ok (Fin lo) /\
       myceil (Fin mx) (Fin b) = Ok (Fin hi) /\
       Bins_array_create Program_Msg module_file arr (Fin b) = Ok edges /\
       edges = map (fun i : nat => Fin (lo + inject_Z (Z.of_nat i) * b))
                   (seq 0 (arange_len lo (hi + (1 # 2) * b) b)) /\
       (1 <= length edges)%nat /\
       (exists v : Q, head edges = Some (Fin v) /\ (v == lo)%Q) /\
       (exists v : Q, last edges = Some (Fin v) /\ (v == hi)%Q) /\
       (forall i : nat, (S i < length edges)%nat ->
          exists u w : Q,
            edges !! i = Some (Fin u) /\ edges !! S i = Some (Fin w) /\
            (u < w)%Q /\ (w - u == b)%Q)) /\
  map fnorm <$> Bins_array_create Program_Msg module_file
                  (array1 [Fin 1; Fin 2; Fin 3; Fin 4]) (Fin 2)
  = Ok [Fin 0; Fin 2; Fin 4] /\
  map fnorm <$> Bins_array_create Program_Msg module_file
                  (array1 [Fin 5; Fin 7; Fin 13; Fin 12]) (Fin 5)
  = Ok [Fin 5; Fin 10; Fin 15].
Proof.
  split; [|split; reflexivity].
  intros arr b Hdim Hne Hfin Hb.
  destruct (np_min_max_finite _ Hne Hfin) as (mn & mx & Hmn & Hmx & Hle & _).
  assert (Hb0 : ~ (b == 0)%Q) by lra.
  set (f := Qfloor (mn / b)). set (c := Qceiling (mx / b)).
  assert (Hfc : (f <= c)%Z).
  { apply Z.le_trans with (Qceiling (mn / b)).
    - rewrite Zle_Qle. apply Qle_floor_ceiling.
    - apply Qceiling_resp_le. apply Qmult_le_compat_r; [exact Hle|].
      apply Qlt_le_weak, Qinv_lt_0_compat, Hb. }
  pose proof (arange_len_edges b f c Hb) as Hlen.
  exists mn, mx, (b * inject_Z f)%Q, (b * inject_Z c)%Q.
  eexists. split; [exact Hmn|]. split; [exact Hmx|].
  split; [now apply myfloor_Fin|]. split; [now apply myceil_Fin|].
  split; [exact (Bins_array_create_finite arr b mn mx Hdim Hb0 Hmn Hmx)|].
  split; [reflexivity|]. fold f c.
  rewrite length_map, length_seq, Hlen.
  split; [lia|].
  split.
  { exists (b * inject_Z f + inject_Z (Z.of_nat 0) * b)%Q.
    rewrite head_lookup, lookup_arange by lia.
    split; [reflexivity|]. change (inject_Z (Z.of_nat 0)) with 0%Q. lra. }
  split.
  { exists (b * inject_Z f + inject_Z (Z.of_nat (Z.to_nat (c - f))) * b)%Q.
    rewrite last_lookup, length_map, length_seq.
    replace (Init.Nat.pred (Z.to_nat (c - f + 1))) with (Z.to_nat (c - f))
      by lia.
    rewrite lookup_arange by lia. split; [reflexivity|].
    rewrite Z2Nat.id by lia.
    replace (c - f)%Z with (c + - f)%Z by lia.
    rewrite inject_Z_plus, inject_Z_opp. lra. }
  intros i Hi.
  exists (b * inject_Z f + inject_Z (Z.of_nat i) * b)%Q,
         (b * inject_Z f + inject_Z (Z.of_nat (S i)) * b)%Q.
  rewrite !lookup_arange by lia.
  split; [reflexivity|]. split; [reflexivity|].
  rewrite Nat2Z.inj_succ. unfold Z.succ. rewrite inject_Z_plus.
  change (inject_Z 1) with 1%Q. split; lra.
Qed.

End BinEdgesProperties.

Lemma Bins_array_create_edges_witness :
  exists edges : list float,
    Bins_array_create sample_Program_Msg sample_file
      (array1 [Fin 1; Fin 2; Fin 3; Fin 4]) (Fin 2) = Ok edges /\
    (1 <= length edges)%nat.
Proof.
  assert (H1 : ndim (array1 [Fin 1; Fin 2; Fin 3; Fin 4]) = 1%nat)
    by reflexivity.
  assert (H2 : data (array1 [Fin 1; Fin 2; Fin 3; Fin 4]) <> [])
    by discriminate.
  assert (H3 : all_finite (data (array1 [Fin 1; Fin 2; Fin 3; Fin 4])))
    by (repeat constructor).
  assert (H4 : (0 < 2)%Q) by reflexivity.
  destruct (proj1 (Bins_array_create_edges sample_Program_Msg sample_file)
              _ _ H1 H2 H3 H4)
    as (mn & mx & lo & hi & edges & _ & _ & _ & _ & He & _ & Hlen & _).
  exists edges. split; [exact He | exact Hlen].
Defined.

(** C4 as stated fails on an array that holds a not-a-number: the minimum
    is then not-a-number and [math.floor] raises.  It also fails by
    rounding: on binary64 values, for the array [[1e16]] and base 1 the
    stop [1e16 + 0.5] rounds to [1e16], so [np.arange] makes no edge at
    all. *)
Lemma Bins_array_create_counterexample :
  (ndim (array1 [Fin 1; NaN]) = 1%nat /\
   data (array1 [Fin 1; NaN]) <> [] /\
   fltb (Fin 0) (Fin 2) = true /\
   Bins_array_create sample_Program_Msg sample_file
     (array1 [Fin 1; NaN]) (Fin 2)
   = Raise (ValueError "cannot convert float NaN to integer")) /\
  Binary64.edge_count (Binary64.of_int (10 ^ 16)) (Binary64.of_int (10 ^ 16))
                      (Binary64.of_int 1)
  = Ok 0%Z.
Proof.
  split; [repeat split; discriminate | vm_compute; reflexivity].
Qed.

Section BinEdgesErrors.
Variable Program_Msg : string -> string.
Variable module_file : string.

(** C9 (amended): for every array whose dimensionality is not 1,
    [Bins_array_create] raises [LSSUtils_Error] with a message that ends
    in that dimensionality; for every non-empty one-dimensional array of
    finite values and every finite base other than zero it returns. *)
Theorem Bins_array_create_shape_error :
  (forall (arr : ndarray) (base : float),
     ndim arr <> 1%nat ->
     Bins_array_create Program_Msg module_file arr base
     = Raise (LSSUtils_Error
                (Program_Msg module_file
                 +:+ " The input array is not of dimension 1, but of `"
                 +:+ pretty (ndim arr) +:+ "`"))) /\
  (forall (arr : ndarray) (b : Q),
     ndim arr = 1%nat -> data arr <> [] -> all_finite (data arr) ->
     ~ (b == 0)%Q ->
     exists edges : list float,
       Bins_array_create Program_Msg module_file arr (Fin b) = Ok edges).
Proof.
  split.
  - intros arr base Hdim. unfold Bins_array_create.
    apply Nat.eqb_neq in Hdim. rewrite Hdim. reflexivity.
  - intros arr b Hdim Hne Hfin Hb.
    destruct (np_min_max_finite _ Hne Hfin) as (mn & mx & Hmn & Hmx & _).
    eexists. exact (Bins_array_create_finite _ _ arr b mn mx Hdim Hb Hmn Hmx).
Qed.

End BinEdgesErrors.

Lemma Bins_array_create_shape_error_witness :
  ndim (mk_ndarray [2; 2]%nat [Fin 1; Fin 2; Fin 3; Fin 4]) <> 1%nat /\
  Bins_array_create sample_Program_Msg sample_file
    (mk_ndarray [2; 2]%nat [Fin 1; Fin 2; Fin 3; Fin 4]) (Fin 10)
  = Raise (LSSUtils_Error
             "stats_funcs.py >>>  The input array is not of dimension 1, but of `2`").
Proof.
  assert (H : ndim (mk_ndarray [2; 2]%nat [Fin 1; Fin 2; Fin 3; Fin 4])
              <> 1%nat) by discriminate.
  split; [exact H|].
  exact (proj1 (Bins_array_create_shape_error sample_Program_Msg sample_file)
           _ (Fin 10) H).
Defined.

(** C9 as stated fails on a one-dimensional array that holds only a
    not-a-number: the call raises [ValueError]. *)
Lemma Bins_array_create_raises_counterexample :
  ndim (array1 [NaN]) = 1%nat /\
  data (array1 [NaN]) <> [] /\
  Bins_array_create sample_Program_Msg sample_file (array1 [NaN]) (Fin 10)
  = Raise (ValueError "cannot convert float NaN to integer").
Proof. repeat split. discriminate. Qed.

(** ** SigmaEstimator *)

(** A loop [for ii in range(n): d[ii] = g(ii)] on a dictionary. *)
Lemma foldl_insert_seq_lookup {V : Type} (g : nat -> V) (d0 : gmap nat V)
    (n i : nat) :
  foldl (fun d ii => <[ii := g ii]> d) d0 (seq 0 n) !! i
  = if decide (i < n)%nat then Some (g i) else d0 !! i.
Proof.
  induction n as [|n IH].
  - simpl. destruct (decide (i < 0)%nat); [lia | reflexivity].
  - rewrite seq_S, foldl_app. simpl. rewrite lookup_insert.
    destruct (decide (n = i)) as [->|Hne].
    + destruct (decide (i < S i)%nat); [reflexivity | lia].
    + rewrite IH.
      destruct (decide (i < n)%nat), (decide (i < S n)%nat);
        try reflexivity; lia.
Qed.

Lemma foldl_insert_seq_dom {V : Type} (g : nat -> V) (d0 : gmap nat V)
    (n : nat) :
  dom (foldl (fun d ii => <[ii := g ii]> d) d0 (seq 0 n))
  = set_seq 0 n ∪ dom d0.
Proof.
  apply set_eq. intros i.
  rewrite elem_of_dom, foldl_insert_seq_lookup, elem_of_union,
    elem_of_set_seq, elem_of_dom.
  destruct (decide (i < n)%nat) as [Hi|Hi].
  - split; [intros _; left; lia | intros _; eauto].
  - split; [tauto | intros [?|?]; [lia | assumption]].
Qed.

Lemma init_sigma_dict_lookup (n i : nat) :
  init_sigma_dict n !! i
  = if decide (i < n)%nat then Some EmptyList else None.
Proof.
  unfold init_sigma_dict.
  rewrite (foldl_insert_seq_lookup (fun _ => EmptyList)).
  destruct (decide (i < n)%nat); [reflexivity | apply lookup_empty].
Qed.

Lemma init_sigma_dict_size (n : nat) : size (init_sigma_dict n) = n.
Proof.
  rewrite <- size_dom. unfold init_sigma_dict.
  rewrite (foldl_insert_seq_dom (fun _ => EmptyList)), dom_empty_L,
    union_empty_r_L.
  apply size_set_seq.
Qed.

Lemma std_bands_lookup (m s : ndarray) (n i : nat) :
  std_bands m s n (init_sigma_dict n) !! i
  = if decide (i < n)%nat then Some (std_band m s i) else None.
Proof.
  unfold std_bands.
  rewrite (foldl_insert_seq_lookup (std_band m s)), init_sigma_dict_lookup.
  destruct (decide (i < n)%nat); reflexivity.
Qed.

Lemma std_bands_size (m s : ndarray) (n : nat) :
  size (std_bands m s n (init_sigma_dict n)) = n.
Proof.
  rewrite <- size_dom. unfold std_bands.
  rewrite (foldl_insert_seq_dom (std_band m s)).
  unfold init_sigma_dict.
  rewrite (foldl_insert_seq_dom (fun _ => EmptyList)), dom_empty_L,
    union_empty_r_L, union_idemp_L.
  apply size_set_seq.
Qed.

(** The flattening loop on a dictionary whose first [n] keys hold values
    that can be flattened. *)
Lemma flatten_prefix (d0 : gmap nat band) (flat : nat -> band) (n : nat) :
  (forall i, (i < n)%nat ->
     exists b, d0 !! i = Some b /\ flatten b = Ok (flat i)) ->
  exists d,
    foldl (fun (acc : result (gmap nat band)) ii =>
             d ← acc;
             match d !! ii with
             | Some b => b' ← flatten b; Ok (<[ii := b']> d)
             | None => Raise (KeyError (pretty ii))
             end)
          (Ok d0) (seq 0 n) = Ok d /\
    forall i, d !! i = if decide (i < n)%nat then Some (flat i) else d0 !! i.
Proof.
  induction n as [|n IH]; intros H.
  - exists d0. split; [reflexivity|]. intros i.
    destruct (decide (i < 0)%nat); [lia | reflexivity].
  - destruct IH as (d & Hd & Hlook); [intros i Hi; apply H; lia|].
    destruct (H n) as (b & Hb & Hflat); [lia|].
    exists (<[n := flat n]> d). rewrite seq_S, foldl_app, Hd. simpl.
    rewrite Hlook. destruct (decide (n < n)%nat); [lia|].
    rewrite Hb. simpl. rewrite Hflat. simpl. split; [reflexivity|].
    intros i. rewrite lookup_insert.
    destruct (decide (n = i)) as [->|Hne].
    + destruct (decide (i < S i)%nat); [reflexivity | lia].
    + rewrite Hlook.
      destruct (decide (i < n)%nat), (decide (i < S n)%nat);
        try reflexivity; lia.
Qed.

Lemma map_nth_seq_all (l : list float) :
  map (fun k : nat => nth k l NaN) (seq 0 (length l)) = l.
Proof.
  apply list_eq. intros i. change (map ?g ?k) with (g <$> k).
  rewrite list_lookup_fmap.
  destruct (decide (i < length l)%nat) as [Hi|Hi].
  - rewrite lookup_seq_lt by exact Hi. simpl.
    destruct (lookup_lt_is_Some_2 l i Hi) as [x Hx].
    now rewrite (nth_lookup_Some _ _ _ _ Hx).
  - rewrite lookup_seq_ge, lookup_ge_None_2 by lia. reflexivity.
Qed.

Lemma reduce_axis_1d (f : list float -> float) (a : ndarray) (n : nat) :
  shape a = [n] -> length (data a) = n ->
  reduce_axis f a 0 = Ok (array0 (f (data a))).
Proof.
  intros Hs Hl. unfold reduce_axis, ndim, axis_line. rewrite Hs. simpl.
  unfold array0. do 3 f_equal. f_equal.
  etransitivity; [|apply (map_nth_seq_all (data a))]. rewrite Hl.
  apply map_ext. intros k. f_equal. lia.
Qed.

Lemma axis_line_row (a : ndarray) (r c i : nat) :
  shape a = [r; c] -> length (data a) = (r * c)%nat -> (i < r)%nat ->
  axis_line a 1 i 0 = row a c i.
Proof.
  intros Hs Hl Hi. unfold axis_line, row. rewrite Hs. simpl.
  apply list_eq. intros k. change (map ?g ?l) with (g <$> l).
  rewrite list_lookup_fmap, lookup_take, lookup_drop.
  destruct (decide (k < c)%nat) as [Hk|Hk].
  - rewrite lookup_seq_lt by exact Hk. simpl.
    assert (Hlt : (i * c + k < length (data a))%nat) by nia.
    destruct (lookup_lt_is_Some_2 _ _ Hlt) as [x Hx].
    rewrite Hx. f_equal. apply nth_lookup_Some.
    rewrite <- Hx. f_equal. lia.
  - rewrite lookup_seq_ge by lia. reflexivity.
Qed.

Lemma reduce_axis_2d (f : list float -> float) (a : ndarray) (r c : nat) :
  shape a = [r; c] -> length (data a) = (r * c)%nat ->
  reduce_axis f a 1
  = Ok (mk_ndarray [r] (map (fun i => f (row a c i)) (seq 0 r))).
Proof.
  intros Hs Hl. unfold reduce_axis, ndim. rewrite Hs. simpl.
  do 2 f_equal. rewrite Nat.mul_1_r.
  assert (H : forall l : list nat, Forall (fun i => i < r)%nat l ->
            flat_map (fun o => [f (axis_line a 1 o 0)]) l
            = map (fun i => f (row a c i)) l).
  { induction 1 as [|i l Hi _ IH]; [reflexivity|]. simpl.
    rewrite IH, (axis_line_row a r c i Hs Hl Hi). reflexivity. }
  apply H. apply Forall_forall. intros i Hi. apply elem_of_seq in Hi. lia.
Qed.

Lemma zip_with_map_same {A : Type} (op : float -> float -> float)
    (g h : A -> float) (l : list A) :
  zip_with op (map g l) (map h l) = map (fun i => op (g i) (h i)) l.
Proof. induction l as [|x l IH]; simpl; [reflexivity | now rewrite IH]. Qed.

Section SigmaProperties.
Variable sqrt : Q -> Q.

Lemma sigma_calcs_std_1d (a : ndarray) (n : nat) (perc_arr : list float)
    (return_mean_std : bool) :
  shape a = [n] -> length (data a) = n ->
  let m := nanmean (data a) in
  let s := nanstd sqrt (data a) in
  exists d : gmap nat band,
    sigma_calcs sqrt a "std" perc_arr return_mean_std
    = Ok (if return_mean_std
          then SigmaDictMeanStd d (array0 m) (array0 s)
          else SigmaDict d) /\
    forall i : nat,
      d !! i = if decide (i < length perc_arr)%nat
               then Some (Flattened [lower_bound m s (Z.of_nat i + 1);
                                     upper_bound m s (Z.of_nat i + 1)])
               else None.
Proof.
  intros Hs Hl m s. unfold sigma_calcs, ndim. rewrite Hs.
  cbn [length Nat.eqb String.eqb Ascii.eqb Bool.eqb mbind result_bind].
  rewrite !(reduce_axis_1d _ a n Hs Hl).
  cbn [mbind result_bind]. fold m s.
  unfold flatten_all. rewrite std_bands_size.
  destruct (flatten_prefix
              (std_bands (array0 m) (array0 s) (length perc_arr)
                         (init_sigma_dict (length perc_arr)))
              (fun i => Flattened [lower_bound m s (Z.of_nat i + 1);
                                   upper_bound m s (Z.of_nat i + 1)])
              (length perc_arr)) as (d & Hd & Hlook).
  { intros i Hi. eexists. rewrite std_bands_lookup.
    destruct (decide (i < length perc_arr)%nat); [|lia].
    split; reflexivity. }
  exists d. rewrite Hd. cbn [mbind result_bind].
  split; [destruct return_mean_std; reflexivity|].
  intros i. rewrite Hlook, std_bands_lookup.
  destruct (decide (i < length perc_arr)%nat); reflexivity.
Qed.

Lemma sigma_calcs_std_2d (a : ndarray) (r c : nat) (perc_arr : list float)
    (return_mean_std : bool) :
  shape a = [r; c] -> length (data a) = (r * c)%nat ->
  let m := fun i : nat => nanmean (row a c i) in
  let s := fun i : nat => nanstd sqrt (row a c i) in
  exists d : gmap nat band,
    sigma_calcs sqrt a "std" perc_arr return_mean_std
    = Ok (if return_mean_std
          then SigmaDictMeanStd d (mk_ndarray [r] (map m (seq 0 r)))
                                  (mk_ndarray [r] (map s (seq 0 r)))
          else SigmaDict d) /\
    forall i : nat,
      d !! i
      = if decide (i < length perc_arr)%nat
        then Some (Stacked
                     (mk_ndarray [r]
                        (map (fun j => lower_bound (m j) (s j) (Z.of_nat i + 1))
                             (seq 0 r)))
                     (mk_ndarray [r]
                        (map (fun j => upper_bound (m j) (s j) (Z.of_nat i + 1))
                             (seq 0 r))))
        else None.
Proof.
  intros Hs Hl m s. unfold sigma_calcs, ndim. rewrite Hs.
  cbn [length Nat.eqb String.eqb Ascii.eqb Bool.eqb mbind result_bind].
  rewrite !(reduce_axis_2d _ a r c Hs Hl).
  cbn [mbind result_bind]. fold m s.
  eexists. split; [destruct return_mean_std; reflexivity|].
  intros i. rewrite std_bands_lookup.
  destruct (decide (i < length perc_arr)%nat); [|reflexivity].
  unfold std_band, ew2, scalar_mul. cbn [shape data].
  rewrite map_map, !zip_with_map_same. reflexivity.
Qed.

End SigmaProperties.

Lemma drop_nan_summarisable (l : list float) :
  summarisable l -> drop_nan l <> [] /\ all_finite (drop_nan l).
Proof.
  intros [Hni Hex]. split.
  - induction Hex as [e l He|e l _ IH].
    + destruct e; [discriminate He | discriminate He | discriminate].
    + inversion Hni; subst. simpl.
      destruct (negb (is_nan e)); [discriminate | now apply IH].
  - clear Hex. induction Hni as [|e l He _ IH]; [constructor|].
    simpl. destruct e; simpl; try discriminate; [exact IH|].
    constructor; [reflexivity | exact IH].
Qed.

Lemma fsum_from_finite (l : list float) :
  all_finite l -> forall a : Q,
  exists q : Q, fold_left fadd l (Fin a) = Fin q.
Proof.
  induction 1 as [|e l He _ IH]; intros a; [now exists a|].
  destruct e; try discriminate. simpl. apply IH.
Qed.

Lemma fsum_from_nonneg (l : list float) :
  Forall (fun e => exists q : Q, e = Fin q /\ (0 <= q)%Q) l ->
  forall a : Q, (0 <= a)%Q ->
  exists q : Q, fold_left fadd l (Fin a) = Fin q /\ (0 <= q)%Q.
Proof.
  induction 1 as [|e l (x & -> & Hx) _ IH]; intros a Ha; [now exists a|].
  simpl. apply IH. lra.
Qed.

Lemma count_of_nonzero (l : list float) :
  l <> [] ->
  exists n : Q, count_of l = Fin n /\ (0 < n)%Q.
Proof.
  intros Hne. exists (inject_Z (Z.of_nat (length l))).
  split; [reflexivity|].
  destruct l; [congruence|]. simpl length.
  change 0%Q with (inject_Z 0). rewrite <- Zlt_Qlt. lia.
Qed.

Lemma np_divide_Fin (x y : Q) :
  ~ (y == 0)%Q -> np_divide (Fin x) (Fin y) = Fin (x / y).
Proof. intros H. unfold np_divide. now rewrite (Qeq_bool_false _ _ H). Qed.

Lemma Qnegative_false (x : Q) : (0 <= x)%Q -> Qnegative x = false.
Proof.
  unfold Qle, Qnegative. simpl. intros H. apply Z.ltb_ge. lia.
Qed.

Section SigmaOrder.
Variable sqrt : Q -> Q.
Hypothesis sqrt_nonneg : forall q : Q, (0 <= q)%Q -> (0 <= sqrt q)%Q.

Lemma mean_std_summarisable (l : list float) :
  summarisable l ->
  exists m s : Q,
    nanmean l = Fin m /\ nanstd sqrt l = Fin s /\ (0 <= s)%Q.
Proof.
  intros H. destruct (drop_nan_summarisable l H) as [Hne Hfin].
  unfold nanmean, nanstd.
  destruct (drop_nan l) as [|v vs] eqn:E; [congruence|].
  destruct (fsum_from_finite _ Hfin 0) as (t & Ht).
  destruct (count_of_nonzero (v :: vs) Hne) as (n & Hn & Hpos).
  unfold fsum. rewrite Ht, Hn.
  assert (Hn0 : ~ (n == 0)%Q) by lra.
  rewrite (np_divide_Fin _ _ Hn0).
  exists (t / n)%Q.
  destruct (fsum_from_nonneg
              (map (fun v0 => fmul (fsub v0 (Fin (t / n))) (fsub v0 (Fin (t / n))))
                   (v :: vs))) with (a := 0%Q) as (q & Hq & Hq0).
  { unfold all_finite in Hfin. rewrite Forall_forall in Hfin.
    apply Forall_forall. intros e He.
    apply list_elem_of_In, in_map_iff in He. destruct He as (w & <- & Hw).
    apply list_elem_of_In in Hw.
    specialize (Hfin w Hw). destruct w as [| |wq]; try discriminate.
    eexists. split; [reflexivity|].
    generalize (wq + - (t / n))%Q. intros z. nra. }
  { lra. }
  rewrite Hq, (np_divide_Fin _ _ Hn0).
  assert (Hvar : (0 <= q / n)%Q).
  { apply Qle_shift_div_l; [exact Hpos | lra]. }
  exists (sqrt (q / n)). split; [reflexivity|].
  unfold fsqrt. rewrite (Qnegative_false _ Hvar).
  split; [reflexivity | now apply sqrt_nonneg].
Qed.

Lemma band_order (m s : Q) (k : Z) :
  (0 <= s)%Q -> (0 <= k)%Z ->
  fleb (lower_bound (Fin m) (Fin s) k) (upper_bound (Fin m) (Fin s) k) = true /\
  fleb (lower_bound (Fin m) (Fin s) (k + 1)) (lower_bound (Fin m) (Fin s) k)
  = true /\
  fleb (upper_bound (Fin m) (Fin s) k) (upper_bound (Fin m) (Fin s) (k + 1))
  = true.
Proof.
  intros Hs Hk. unfold lower_bound, upper_bound, float_of_int. simpl.
  assert (0 <= inject_Z k)%Q
    by (change 0%Q with (inject_Z 0); now rewrite <- Zle_Qle).
  rewrite inject_Z_plus. change (inject_Z 1) with 1%Q.
  repeat split; apply Qle_bool_iff; nra.
Qed.

End SigmaOrder.

Lemma sqrt_approx_nonneg (q : Q) : (0 <= q)%Q -> (0 <= sqrt_approx q)%Q.
Proof.
  intros _. unfold sqrt_approx, Qle. cbn [Qnum Qden].
  rewrite Z.mul_0_l, Z.mul_1_r. apply Z.sqrt_nonneg.
Qed.

Lemma wf_ndarray_1d (a : ndarray) (n : nat) :
  shape a = [n] -> wf_ndarray a -> length (data a) = n.
Proof.
  unfold wf_ndarray. intros -> H. rewrite H. simpl. lia.
Qed.

Lemma wf_ndarray_2d (a : ndarray) (r c : nat) :
  shape a = [r; c] -> wf_ndarray a -> length (data a) = (r * c)%nat.
Proof.
  unfold wf_ndarray. intros -> H. rewrite H. simpl. lia.
Qed.

Section SigmaBands.
Variable sqrt : Q -> Q.

(** C6: with [type_sigma = 'std'], on every one-dimensional array the
    entry of [sigma_dict] for the k-th level (k counted from 1) is
    [[mean - k*std, mean + k*std]], with the mean and the standard
    deviation of the entries that are numbers (axis 0); on every
    two-dimensional array it is the two-row array whose first row holds
    [mean - k*std] and whose second row holds [mean + k*std] of each row
    of the data (axis 1). *)
Theorem sigma_calcs_std_levels (perc_arr : list float)
    (return_mean_std : bool) :
  (forall (a : ndarray) (n : nat),
     shape a = [n] -> wf_ndarray a ->
     exists res : sigma_result,
       sigma_calcs sqrt a "std" perc_arr return_mean_std = Ok res /\
       forall k : nat, (1 <= k <= length perc_arr)%nat ->
         sigma_dict_of res !! (k - 1)%nat
         = Some (Flattened
                   [lower_bound (nanmean (data a)) (nanstd sqrt (data a))
                                (Z.of_nat k);
                    upper_bound (nanmean (data a)) (nanstd sqrt (data a))
                                (Z.of_nat k)])) /\
  (forall (a : ndarray) (r c : nat),
     shape a = [r; c] -> wf_ndarray a ->
     exists res : sigma_result,
       sigma_calcs sqrt a "std" perc_arr return_mean_std = Ok res /\
       forall k : nat, (1 <= k <= length perc_arr)%nat ->
         sigma_dict_of res !! (k - 1)%nat
         = Some (Stacked
                   (mk_ndarray [r]
                      (map (fun j => lower_bound (nanmean (row a c j))
                                                 (nanstd sqrt (row a c j))
                                                 (Z.of_nat k))
                           (seq 0 r)))
                   (mk_ndarray [r]
                      (map (fun j => upper_bound (nanmean (row a c j))
                                                 (nanstd sqrt (row a c j))
                                                 (Z.of_nat k))
                           (seq 0 r))))).
Proof.
  split.
  - intros a n Hs Hwf. pose proof (wf_ndarray_1d a n Hs Hwf) as Hl.
    destruct (sigma_calcs_std_1d sqrt a n perc_arr return_mean_std Hs Hl)
      as (d & Hd & Hlook).
    eexists. split; [exact Hd|]. intros k Hk.
    replace (sigma_dict_of _) with d by (destruct return_mean_std; reflexivity).
    rewrite Hlook. destruct (decide (k - 1 < length perc_arr)%nat); [|lia].
    replace (Z.of_nat (k - 1) + 1)%Z with (Z.of_nat k) by lia. reflexivity.
  - intros a r c Hs Hwf. pose proof (wf_ndarray_2d a r c Hs Hwf) as Hl.
    destruct (sigma_calcs_std_2d sqrt a r c perc_arr return_mean_std Hs Hl)
      as (d & Hd & Hlook).
    eexists. split; [exact Hd|]. intros k Hk.
    replace (sigma_dict_of _) with d by (destruct return_mean_std; reflexivity).
    rewrite Hlook. destruct (decide (k - 1 < length perc_arr)%nat); [|lia].
    replace (Z.of_nat (k - 1) + 1)%Z with (Z.of_nat k) by lia. reflexivity.
Qed.

Hypothesis sqrt_nonneg : forall q : Q, (0 <= q)%Q -> (0 <= sqrt q)%Q.

(** C7 (amended): with [type_sigma = 'std'], for every line of the data
    (the whole of a one-dimensional array, each row of a two-dimensional
    one) that has no infinite entry and at least one entry that is a
    number, [lower <= upper] at every level and the band of a level lies
    within the band of the next level. *)
Theorem sigma_calcs_std_nested (perc_arr : list float)
    (return_mean_std : bool) :
  (forall (a : ndarray) (n : nat),
     shape a = [n] -> wf_ndarray a -> summarisable (data a) ->
     exists res : sigma_result,
       sigma_calcs sqrt a "std" perc_arr return_mean_std = Ok res /\
       forall i : nat, (i < length perc_arr)%nat ->
         exists lo up : float,
           sigma_dict_of res !! i = Some (Flattened [lo; up]) /\
           fleb lo up = true /\
           ((S i < length perc_arr)%nat ->
            exists lo' up' : float,
              sigma_dict_of res !! S i = Some (Flattened [lo'; up']) /\
              fleb lo' lo = true /\ fleb up up' = true)) /\
  (forall (a : ndarray) (r c : nat),
     shape a = [r; c] -> wf_ndarray a ->
     exists res : sigma_result,
       sigma_calcs sqrt a "std" perc_arr return_mean_std = Ok res /\
       forall i : nat, (i < length perc_arr)%nat ->
         exists lower upper : ndarray,
           sigma_dict_of res !! i = Some (Stacked lower upper) /\
           (forall j : nat, (j < r)%nat -> summarisable (row a c j) ->
              exists lo up : float,
                data lower !! j = Some lo /\ data upper !! j = Some up /\
                fleb lo up = true) /\
           ((S i < length perc_arr)%nat ->
            exists lower' upper' : ndarray,
              sigma_dict_of res !! S i = Some (Stacked lower' upper') /\
              forall j : nat, (j < r)%nat -> summarisable (row a c j) ->
                exists lo up lo' up' : float,
                  data lower !! j = Some lo /\ data upper !! j = Some up /\
                  data lower' !! j = Some lo' /\
                  data upper' !! j = Some up' /\
                  fleb lo' lo = true /\ fleb up up' = true)).
Proof.
  split.
  - intros a n Hs Hwf Hsum. pose proof (wf_ndarray_1d a n Hs Hwf) as Hl.
    destruct (sigma_calcs_std_1d sqrt a n perc_arr return_mean_std Hs Hl)
      as (d & Hd & Hlook).
    destruct (mean_std_summarisable sqrt sqrt_nonneg _ Hsum)
      as (m & s & Hm & Hsd & Hs0).
    rewrite Hm, Hsd in Hd, Hlook.
    eexists. split; [exact Hd|]. intros i Hi.
    replace (sigma_dict_of _) with d by (destruct return_mean_std; reflexivity).
    destruct (band_order m s (Z.of_nat i + 1) Hs0) as (H1 & H2 & H3); [lia|].
    do 2 eexists. rewrite Hlook.
    destruct (decide (i < length perc_arr)%nat); [|lia].
    split; [reflexivity|]. split; [exact H1|]. intros Hi'.
    do 2 eexists. rewrite Hlook.
    destruct (decide (S i < length perc_arr)%nat); [|lia].
    split; [reflexivity|].
    replace (Z.of_nat (S i) + 1)%Z with (Z.of_nat i + 1 + 1)%Z by lia.
    split; assumption.
  - intros a r c Hs Hwf. pose proof (wf_ndarray_2d a r c Hs Hwf) as Hl.
    destruct (sigma_calcs_std_2d sqrt a r c perc_arr return_mean_std Hs Hl)
      as (d & Hd & Hlook).
    eexists. split; [exact Hd|]. intros i Hi.
    replace (sigma_dict_of _) with d by (destruct return_mean_std; reflexivity).
    do 2 eexists. rewrite Hlook.
    destruct (decide (i < length perc_arr)%nat); [|lia].
    split; [reflexivity|]. cbn [data]. split.
    + intros j Hj Hsum.
      destruct (mean_std_summarisable sqrt sqrt_nonneg _ Hsum)
        as (m & s & Hm & Hsd & Hs0).
      destruct (band_order m s (Z.of_nat i + 1) Hs0) as (H1 & _); [lia|].
      do 2 eexists. change (map ?g ?l) with (g <$> l).
      rewrite !list_lookup_fmap, lookup_seq_lt by exact Hj.
      cbn [fmap option_fmap option_map Nat.add]. rewrite Hm, Hsd.
      split; [reflexivity|]. split; [reflexivity | exact H1].
    + intros Hi'. do 2 eexists. rewrite Hlook.
      destruct (decide (S i < length perc_arr)%nat); [|lia].
      split; [reflexivity|]. cbn [data]. intros j Hj Hsum.
      destruct (mean_std_summarisable sqrt sqrt_nonneg _ Hsum)
        as (m & s & Hm & Hsd & Hs0).
      destruct (band_order m s (Z.of_nat i + 1) Hs0) as (_ & H2 & H3); [lia|].
      do 4 eexists. change (map ?g ?l) with (g <$> l).
      rewrite !list_lookup_fmap, lookup_seq_lt by exact Hj.
      cbn [fmap option_fmap option_map Nat.add]. rewrite Hm, Hsd.
      replace (Z.of_nat (S i) + 1)%Z with (Z.of_nat i + 1 + 1)%Z by lia.
      repeat (split; [reflexivity|]). split; assumption.
Qed.

(** C10 (amended): for every array of two or more dimensions, every
    [type_sigma] other than ['perc'] and ['std'] and every [perc_arr],
    [sigma_calcs] returns, and its dictionary maps every level index to
    the empty list it was initialised with. *)
Theorem sigma_calcs_unknown_type (a : ndarray) (type_sigma : string)
    (perc_arr : list float) (return_mean_std : bool) :
  type_sigma <> "perc" -> type_sigma <> "std" -> (2 <= ndim a)%nat ->
  exists res : sigma_result,
    sigma_calcs sqrt a type_sigma perc_arr return_mean_std = Ok res /\
    forall i : nat,
      sigma_dict_of res !! i
      = if decide (i < length perc_arr)%nat then Some EmptyList else None.
Proof.
  intros Hp Hs Hdim. unfold sigma_calcs.
  apply String.eqb_neq in Hp, Hs. rewrite Hp, Hs.
  assert (Hne : (ndim a =? 1)%nat = false) by (apply Nat.eqb_neq; lia).
  rewrite Hne. cbn [mbind result_bind]. unfold reduce_axis.
  assert (Hlt : (1 <? ndim a)%nat = true) by (apply Nat.ltb_lt; lia).
  rewrite Hlt. cbn [mbind result_bind].
  destruct return_mean_std; (eexists; split; [reflexivity|]);
    intros i; apply init_sigma_dict_lookup.
Qed.

End SigmaBands.

Lemma sigma_calcs_std_levels_witness :
  exists res : sigma_result,
    sigma_calcs sqrt_approx (array1 [Fin 1; Fin 2; Fin 3; NaN]) "std"
                default_perc_arr false = Ok res /\
    sigma_dict_of res !! 1%nat
    = Some (Flattened
              [lower_bound (nanmean [Fin 1; Fin 2; Fin 3; NaN])
                           (nanstd sqrt_approx [Fin 1; Fin 2; Fin 3; NaN]) 2;
               upper_bound (nanmean [Fin 1; Fin 2; Fin 3; NaN])
                           (nanstd sqrt_approx [Fin 1; Fin 2; Fin 3; NaN]) 2]).
Proof.
  destruct (proj1 (sigma_calcs_std_levels sqrt_approx default_perc_arr false)
              (array1 [Fin 1; Fin 2; Fin 3; NaN]) 4%nat eq_refl eq_refl)
    as (res & Hres & Hk).
  exists res. split; [exact Hres|].
  assert (H : (1 <= 2 <= length default_perc_arr)%nat) by (simpl; lia).
  exact (Hk 2%nat H).
Defined.

Lemma sigma_calcs_std_nested_witness :
  summarisable [Fin 1; Fin 2; Fin 3; NaN] /\
  exists (res : sigma_result) (lo up : float),
    sigma_calcs sqrt_approx (array1 [Fin 1; Fin 2; Fin 3; NaN]) "std"
                default_perc_arr false = Ok res /\
    sigma_dict_of res !! 0%nat = Some (Flattened [lo; up]) /\
    fleb lo up = true.
Proof.
  assert (Hsum : summarisable [Fin 1; Fin 2; Fin 3; NaN]).
  { split; [repeat constructor | apply Exists_cons_hd; reflexivity]. }
  split; [exact Hsum|].
  destruct (proj1 (sigma_calcs_std_nested sqrt_approx sqrt_approx_nonneg
                     default_perc_arr false)
              (array1 [Fin 1; Fin 2; Fin 3; NaN]) 4%nat eq_refl eq_refl Hsum)
    as (res & Hres & Hband).
  assert (H : (0 < length default_perc_arr)%nat) by (simpl; lia).
  destruct (Hband 0%nat H) as (lo & up & Hlook & Hle & _).
  exists res, lo, up. split; [exact Hres|]. split; [exact Hlook | exact Hle].
Defined.

(** C7 as stated fails on data that holds no number: the mean and the
    standard deviation are not-a-number, so are both ends of every band,
    and [lower <= upper] is false. *)
Lemma sigma_calcs_nan_band_counterexample :
  exists d : gmap nat band,
    sigma_calcs sqrt_approx (array1 [NaN]) "std" default_perc_arr false
    = Ok (SigmaDict d) /\
    d !! 0%nat = Some (Flattened [NaN; NaN]) /\
    fleb NaN NaN = false.
Proof.
  eexists. split; [vm_compute; reflexivity|]. split; reflexivity.
Qed.

Lemma sigma_calcs_unknown_type_witness :
  "percentile" <> "perc" /\ "percentile" <> "std" /\
  exists res : sigma_result,
    sigma_calcs sqrt_approx
      (mk_ndarray [2; 2]%nat [Fin 1; Fin 2; Fin 3; NaN]) "percentile"
      default_perc_arr false = Ok res /\
    sigma_dict_of res !! 2%nat = Some EmptyList.
Proof.
  assert (H1 : "percentile" <> "perc") by discriminate.
  assert (H2 : "percentile" <> "std") by discriminate.
  split; [exact H1|]. split; [exact H2|].
  assert (H3 : (2 <= ndim (mk_ndarray [2; 2]%nat [Fin 1; Fin 2; Fin 3; NaN]))%nat)
    by (unfold ndim; simpl; lia).
  destruct (sigma_calcs_unknown_type sqrt_approx _ "percentile"
              default_perc_arr false H1 H2 H3) as (res & Hres & Hlook).
  exists res. split; [exact Hres|]. exact (Hlook 2%nat).
Defined.

(** C10 as stated fails on a one-dimensional array: the final loop calls
    [flatten] on the empty lists the dictionary still holds. *)
Lemma sigma_calcs_unknown_type_counterexample :
  "percentile" <> "perc" /\ "percentile" <> "std" /\
  sigma_calcs sqrt_approx (array1 [Fin 1; Fin 2]) "percentile"
              default_perc_arr false
  = Raise (AttributeError "'list' object has no attribute 'flatten'").
Proof. split; [discriminate|]. split; [discriminate | reflexivity]. Qed.

(** ** BinnedStatistics *)

Lemma decrement_arr_len_pos (m : Z) :
  (0 < m)%Z -> decrement_arr_len m = Ok (m - 1)%Z.
Proof.
  intros H. unfold decrement_arr_len.
  assert (E : (m =? 0)%Z = false) by (apply Z.eqb_neq; lia).
  rewrite E. cbn [negb]. unfold int_of_float, fsub, fadd, fneg, float_of_int.
  unfold Qnegative, Qfloor, Qceiling, Qplus, Qopp, inject_Z. cbn [Qnum Qden].
  replace (m * 1 + - (1) * 1)%Z with (m - 1)%Z by lia.
  assert (E' : (m - 1 <? 0)%Z = false) by (apply Z.ltb_ge; lia).
  rewrite E'. change (Z.pos (1 * 1)) with 1%Z. now rewrite Z.div_1_r.
Qed.

Lemma mapM_result_Ok {A B : Type} (f : A -> result B) (g : A -> B)
    (l : list A) :
  (forall a, a ∈ l -> f a = Ok (g a)) -> mapM_result f l = Ok (map g l).
Proof.
  induction l as [|a l IH]; intros H; [reflexivity|]. simpl.
  rewrite (H a) by apply list_elem_of_here. cbn [mbind result_bind].
  rewrite IH; [reflexivity|]. intros b Hb. apply H. now apply list_elem_of_further.
Qed.

Lemma select_mask_occupancy (v : list float) (x_digits : list nat) (ii : nat) :
  length v = length x_digits ->
  exists sel : list float,
    select_mask v (map (Nat.eqb ii) x_digits) = Ok sel /\
    length sel = occupancy x_digits ii.
Proof.
  intros Hl. unfold select_mask. rewrite length_map, Hl, Nat.eqb_refl.
  eexists. split; [reflexivity|]. unfold occupancy. rewrite length_map.
  revert x_digits Hl. induction v as [|e v IH]; intros [|d ds] Hl;
    try discriminate; [reflexivity|].
  simpl. destruct (ii =? d)%nat; simpl; rewrite IH by (simpl in Hl; lia);
    reflexivity.
Qed.

Lemma arr_digit_check_iff (d : string) :
  (String.eqb d "y" || String.eqb d "n" || String.eqb d "o") = true
  <-> valid_arr_digit d.
Proof.
  unfold valid_arr_digit. rewrite !orb_true_iff, !String.eqb_eq. tauto.
Qed.

Lemma bin_statval_check_iff (b : string) :
  existsb (String.eqb b) ["average"; "left"; "right"] = true
  <-> valid_bin_statval b.
Proof.
  unfold valid_bin_statval. cbn [existsb].
  rewrite !orb_true_iff, !String.eqb_eq. intuition discriminate.
Qed.

Lemma length_check_iff (x y : list float) :
  ((0 <? length x)%nat && (0 <? length y)%nat) = true <-> x <> [] /\ y <> [].
Proof.
  destruct x, y; simpl; split; try discriminate; try tauto;
    intros _; split; discriminate.
Qed.

Lemma not_true_false (b : bool) (P : Prop) :
  (b = true <-> P) -> ~ P -> b = false.
Proof. destruct b; intuition. Qed.

Section StatsProperties.
Variable Program_Msg : string -> string.
Variable module_file : string.
Variable sqrt : Q -> Q.

Lemma Stats_body_module_globals (x y : list float) (base : float)
    (arr_len : Z) (arr_digit : string) (statfunc : reducer)
    (bin_statval : string) (failval : float) :
  Stats_body Program_Msg module_file sqrt module_globals x y base arr_len
             arr_digit statfunc bin_statval failval
  = Raise (NameError "x1").
Proof. reflexivity. Qed.

Lemma Stats_one_arr_checked (G : gmap string pyval) (x y : list float)
    (base : float) (arr_len : Z) (arr_digit : string) (statfunc : reducer)
    (bin_statval : string) (failval : float) :
  checks_pass x y arr_len arr_digit bin_statval ->
  Stats_one_arr Program_Msg module_file sqrt G x y base arr_len
                arr_digit statfunc bin_statval failval
  = Stats_body Program_Msg module_file sqrt G x y base arr_len
               arr_digit statfunc bin_statval failval.
Proof.
  intros (Hd & Hx & Hy & Hl & Hb). unfold Stats_one_arr.
  rewrite (proj2 (arr_digit_check_iff _) Hd),
    (proj2 (length_check_iff _ _) (conj Hx Hy)),
    (proj2 (Z.ltb_lt _ _) Hl), (proj2 (bin_statval_check_iff _) Hb).
  reflexivity.
Qed.

(** C1: every call of [Stats_one_arr] that passes the checks on its
    parameters raises [NameError] for [x1] and so never returns: the body
    reads the names [x1] and [return_perc], which neither the function
    nor the module binds. *)
Theorem Stats_one_arr_undefined_names (x y : list float) (base : float)
    (arr_len : Z) (arr_digit : string) (statfunc : reducer)
    (bin_statval : string) (failval : float) :
  checks_pass x y arr_len arr_digit bin_statval ->
  Stats_one_arr Program_Msg module_file sqrt module_globals x y base arr_len
                arr_digit statfunc bin_statval failval
  = Raise (NameError "x1") /\
  load_global module_globals "x1" = Raise (NameError "x1") /\
  load_global module_globals "return_perc" = Raise (NameError "return_perc").
Proof.
  intros H. rewrite (Stats_one_arr_checked _ _ _ _ _ _ _ _ _ H).
  split; [apply Stats_body_module_globals|]. split; reflexivity.
Qed.

(** C8: [Stats_one_arr] checks its parameters first, in this order, and
    raises [LSSUtils_Error] with the message of the first check that
    fails: [arr_digit] not one of ['n'], ['y'], ['o']; [x] or [y] of
    length zero; [arr_len] not greater than zero; [bin_statval] not one
    of ['average'], ['left'], ['right'].  The error does not depend on
    the globals or on the data, and the body runs only when the four
    checks pass; a call raises [LSSUtils_Error] exactly when a check
    fails. *)
Theorem Stats_one_arr_eager_checks (G : gmap string pyval)
    (x y : list float) (base : float) (arr_len : Z) (arr_digit : string)
    (statfunc : reducer) (bin_statval : string) (failval : float) :
  let call := fun G' =>
    Stats_one_arr Program_Msg module_file sqrt G' x y base arr_len
                  arr_digit statfunc bin_statval failval in
  let file_msg := Program_Msg module_file in
  (~ valid_arr_digit arr_digit ->
   call G = Raise (LSSUtils_Error
                     (file_msg +:+ " `arr_digit` (" +:+ arr_digit
                      +:+ ") is not a valid input. Exiting"))) /\
  (valid_arr_digit arr_digit -> x = [] \/ y = [] ->
   call G = Raise (LSSUtils_Error
                     (file_msg +:+ " The arrays `x1` and `y2` must have at least one value"))) /\
  (valid_arr_digit arr_digit -> x <> [] -> y <> [] -> ~ (0 < arr_len)%Z ->
   call G = Raise (LSSUtils_Error
                     (file_msg +:+ " `arr_len` (" +:+ pretty arr_len
                      +:+ ") must be greated than zero!"))) /\
  (valid_arr_digit arr_digit -> x <> [] -> y <> [] -> (0 < arr_len)%Z ->
   ~ valid_bin_statval bin_statval ->
   call G = Raise (LSSUtils_Error
                     (file_msg +:+ " `bin_statval` (" +:+ bin_statval
                      +:+ ") is not a valid input! Exiting"))) /\
  (checks_pass x y arr_len arr_digit bin_statval ->
   call G = Stats_body Program_Msg module_file sqrt G x y base arr_len
                       arr_digit statfunc bin_statval failval) /\
  ((exists msg : string, call module_globals = Raise (LSSUtils_Error msg))
   <-> ~ checks_pass x y arr_len arr_digit bin_statval).
Proof.
  intros call file_msg. unfold call, Stats_one_arr.
  split.
  { intros Hd. now rewrite (not_true_false _ _ (arr_digit_check_iff _) Hd). }
  split.
  { intros Hd Hxy. rewrite (proj2 (arr_digit_check_iff _) Hd).
    rewrite (not_true_false _ _ (length_check_iff x y)); [reflexivity|].
    intros [Hx Hy]. destruct Hxy; contradiction. }
  split.
  { intros Hd Hx Hy Hl. rewrite (proj2 (arr_digit_check_iff _) Hd),
      (proj2 (length_check_iff _ _) (conj Hx Hy)).
    now rewrite (not_true_false _ _ (Z.ltb_lt 0 arr_len) Hl). }
  split.
  { intros Hd Hx Hy Hl Hb. rewrite (proj2 (arr_digit_check_iff _) Hd),
      (proj2 (length_check_iff _ _) (conj Hx Hy)), (proj2 (Z.ltb_lt _ _) Hl).
    now rewrite (not_true_false _ _ (bin_statval_check_iff _) Hb). }
  split.
  { apply Stats_one_arr_checked. }
  split.
  - intros [msg Hmsg] Hpass.
    fold (Stats_one_arr Program_Msg module_file sqrt module_globals x y base
            arr_len arr_digit statfunc bin_statval failval) in Hmsg.
    rewrite (Stats_one_arr_checked _ _ _ _ _ _ _ _ _ Hpass),
      Stats_body_module_globals in Hmsg.
    discriminate Hmsg.
  - intros Hfail.
    destruct (String.eqb arr_digit "y" || String.eqb arr_digit "n"
              || String.eqb arr_digit "o") eqn:E1; [|eexists; reflexivity].
    destruct ((0 <? length x)%nat && (0 <? length y)%nat) eqn:E2;
      [|eexists; reflexivity].
    destruct (0 <? arr_len)%Z eqn:E3; [|eexists; reflexivity].
    destruct (existsb (String.eqb bin_statval) ["average"; "left"; "right"])
      eqn:E4; [|eexists; reflexivity].
    exfalso. apply Hfail.
    apply arr_digit_check_iff in E1. apply length_check_iff in E2.
    apply Z.ltb_lt in E3. apply bin_statval_check_iff in E4.
    unfold checks_pass. tauto.
Qed.

(** The threshold of lines 305 and 313 to 319: for [arr_len > 0] the bins
    are compared with [arr_len - 1], and the entry of a bin is its values
    exactly when its occupancy is greater than that; otherwise it is
    [failval]. *)
Lemma bin_entry_threshold (minCount : Z) (v : list float)
    (x_digits : list nat) (failval : float) (f : list float -> float) :
  (0 < minCount)%Z -> length v = length x_digits ->
  exists thr : Z,
    decrement_arr_len minCount = Ok thr /\ thr = (minCount - 1)%Z /\
    forall ii : nat,
      exists sel : list float,
        select_mask v (map (Nat.eqb ii) x_digits) = Ok sel /\
        length sel = occupancy x_digits ii /\
        (bin_entry_at v x_digits thr failval ii = Ok (BinArr sel)
         <-> (Z.of_nat (occupancy x_digits ii) > minCount - 1)%Z) /\
        (Z.of_nat (occupancy x_digits ii) = minCount ->
         bin_entry_at v x_digits thr failval ii = Ok (BinArr sel) /\
         stat_of_entry f thr failval (BinArr sel) = Ok (f sel)) /\
        (Z.of_nat (occupancy x_digits ii) = (minCount - 1)%Z ->
         bin_entry_at v x_digits thr failval ii = Ok (BinFail failval)).
Proof.
  intros Hpos Hlen. exists (minCount - 1)%Z.
  split; [now apply decrement_arr_len_pos|]. split; [reflexivity|].
  intros ii.
  destruct (select_mask_occupancy v x_digits ii Hlen) as (sel & Hsel & Hocc).
  exists sel. split; [exact Hsel|]. split; [exact Hocc|].
  unfold bin_entry_at. rewrite Hsel. cbn [mbind result_bind]. rewrite Hocc.
  split.
  { destruct (Z.gtb_spec (Z.of_nat (occupancy x_digits ii)) (minCount - 1))
      as [Hc|Hc]; split; intros Hx; try reflexivity; try lia;
      discriminate Hx. }
  split.
  { intros E. rewrite E.
    assert (Hgt : (minCount >? minCount - 1)%Z = true)
      by (apply Z.gtb_lt; lia).
    rewrite Hgt. split; [reflexivity|].
    unfold stat_of_entry. now rewrite Hocc, E, Hgt. }
  intros E. rewrite E, Z.gtb_ltb, Z.ltb_irrefl. reflexivity.
Qed.

End StatsProperties.

Lemma Stats_one_arr_undefined_names_witness :
  checks_pass [Fin 1; Fin 2] [Fin 3; Fin 4] 1 "n" "average" /\
  Stats_one_arr sample_Program_Msg sample_file sqrt_approx module_globals
                [Fin 1; Fin 2] [Fin 3; Fin 4] (Fin 1) 1 "n" NanMean
                "average" NaN
  = Raise (NameError "x1").
Proof.
  assert (H : checks_pass [Fin 1; Fin 2] [Fin 3; Fin 4] 1 "n" "average").
  { unfold checks_pass, valid_arr_digit, valid_bin_statval.
    split; [left; reflexivity|]. split; [discriminate|].
    split; [discriminate|]. split; [reflexivity | left; reflexivity]. }
  split; [exact H|].
  exact (proj1 (Stats_one_arr_undefined_names
                  sample_Program_Msg sample_file sqrt_approx
                  [Fin 1; Fin 2] [Fin 3; Fin 4] (Fin 1) 1 "n" NanMean
                  "average" NaN H)).
Defined.

Lemma Stats_one_arr_eager_checks_witness :
  ~ (0 < 0)%Z /\
  Stats_one_arr sample_Program_Msg sample_file sqrt_approx module_globals
                [Fin 1; Fin 2] [Fin 3; Fin 4] (Fin 1) 0 "n" NanMean
                "average" NaN
  = Raise (LSSUtils_Error
             "stats_funcs.py >>>  `arr_len` (0) must be greated than zero!").
Proof.
  assert (H0 : ~ (0 < 0)%Z) by (intros H; discriminate H).
  split; [exact H0|].
  refine (proj1 (proj2 (proj2 (Stats_one_arr_eager_checks
                  sample_Program_Msg sample_file sqrt_approx module_globals
                  [Fin 1; Fin 2] [Fin 3; Fin 4] (Fin 1) 0 "n" NanMean
                  "average" NaN))) _ _ _ H0).
  - left; reflexivity.
  - discriminate.
  - discriminate.
Defined.

(** C2: the code does not exclude a bin that holds [arr_len - 1] values.
    With [x1] and [return_perc] bound, on [x = [0.25, 0.75, 1.5]],
    [y = [1, 2, 3]], [base = 1] and [arr_len = 2] the threshold is 1, the
    edges are [[0, 1, 2]] and the digits [[1, 1, 2]]: the first bin holds
    [arr_len] values and keeps them, the second holds [arr_len - 1] and
    its entry is [failval].  The call then raises [TypeError] when the
    comprehension of line 324 takes [len] of that entry, instead of
    returning the statistic of the first bin alone; on the module as it
    is, the call raises [NameError] before any bin is made.  On
    [x = [0.5, 1.5]] with the same [arr_len] both bins hold [arr_len - 1]
    values, the array of the bins is a float64 array, and the call
    raises [TypeError] as well, naming [numpy.float64]. *)
Theorem Stats_one_arr_threshold_bin_raises :
  exists (edges : list float) (digits : list nat),
    checks_pass [Fin (1 # 4); Fin (3 # 4); Fin (3 # 2)]
                [Fin 1; Fin 2; Fin 3] 2 "n" "average" /\
    decrement_arr_len 2 = Ok 1%Z /\
    Bins_array_create sample_Program_Msg sample_file
      (array1 [Fin (1 # 4); Fin (3 # 4); Fin (3 # 2)]) (Fin 1) = Ok edges /\
    edges = [Fin 0; Fin 1; Fin 2] /\
    np_digitize [Fin (1 # 4); Fin (3 # 4); Fin (3 # 2)] edges = Ok digits /\
    occupancy digits 1 = 2%nat /\ occupancy digits 2 = 1%nat /\
    bins_data [Fin (1 # 4); Fin (3 # 4); Fin (3 # 2)] digits (length edges)
              1 NaN
    = Ok [BinArr [Fin (1 # 4); Fin (3 # 4)]; BinFail NaN] /\
    Stats_one_arr sample_Program_Msg sample_file sqrt_approx
      (bound_globals [Fin (1 # 4); Fin (3 # 4); Fin (3 # 2)] false)
      [Fin (1 # 4); Fin (3 # 4); Fin (3 # 2)] [Fin 1; Fin 2; Fin 3]
      (Fin 1) 2 "n" NanMean "average" NaN
    = Raise (TypeError "object of type 'float' has no len()") /\
    Stats_one_arr sample_Program_Msg sample_file sqrt_approx module_globals
      [Fin (1 # 4); Fin (3 # 4); Fin (3 # 2)] [Fin 1; Fin 2; Fin 3]
      (Fin 1) 2 "n" NanMean "average" NaN
    = Raise (NameError "x1") /\
    Stats_one_arr sample_Program_Msg sample_file sqrt_approx
      (bound_globals [Fin (1 # 2); Fin (3 # 2)] false)
      [Fin (1 # 2); Fin (3 # 2)] [Fin 1; Fin 2] (Fin 1) 2 "n" NanMean
      "average" NaN
    = Raise (TypeError "object of type 'numpy.float64' has no len()").
Proof.
  exists [Fin 0; Fin 1; Fin 2], [1; 1; 2]%nat.
  split.
  { unfold checks_pass, valid_arr_digit, valid_bin_statval.
    repeat split; try discriminate; auto. }
  repeat (split; [vm_compute; reflexivity|]).
  vm_compute. reflexivity.
Qed.

(** The removal step, on the arrays it does index: every one of them is
    filtered by the same positions, those where [x_stat != failval], in
    their order. *)
Lemma take_idx_where_ne {A : Type} (xs : list float) (failval : float) :
  forall (pre a : list A),
    length a = length xs ->
    take_idx (pre ++ a)%list
             (map fst (List.filter (fun p => fneb (snd p) failval)
                                   (zip (seq (length pre) (length xs)) xs)))
    = Ok (map snd (List.filter (fun p => fneb (fst p) failval) (zip xs a))).
Proof.
  induction xs as [|x xs IH]; intros pre a Hl.
  - destruct a; [reflexivity | discriminate].
  - destruct a as [|e a]; [discriminate|]. injection Hl as Hl.
    specialize (IH (pre ++ [e])%list a Hl).
    rewrite <- app_assoc, length_app in IH. cbn [length app] in IH.
    rewrite Nat.add_1_r in IH.
    cbn [length seq zip zip_with List.filter fst snd].
    unfold take_idx in *. destruct (fneb x failval).
    + cbn [map mapM_result fst snd].
      rewrite list_lookup_middle by reflexivity. cbn [mbind result_bind].
      rewrite IH. reflexivity.
    + exact IH.
Qed.

Lemma removal_step {A : Type} (x_stat : list float) (failval : float)
    (a : list A) :
  length a = length x_stat ->
  take_idx a (where_ne x_stat failval)
  = Ok (map snd (List.filter (fun p => fneb (fst p) failval) (zip x_stat a))).
Proof. intros Hl. exact (take_idx_where_ne x_stat failval [] a Hl). Qed.

Lemma mapM_result_length {A B : Type} (f : A -> result B) (l : list A)
    (l' : list B) :
  mapM_result f l = Ok l' -> length l' = length l.
Proof.
  revert l'. induction l as [|a l IH]; intros l' H.
  - injection H as <-. reflexivity.
  - simpl in H. destruct (f a) as [b|]; [|discriminate H].
    cbn [mbind result_bind] in H.
    destruct (mapM_result f l) as [bs|]; [|discriminate H].
    injection H as <-. simpl. now rewrite (IH bs).
Qed.

Lemma np_array_entries_length (entries : list bin_entry) :
  length (np_array_entries entries) = length entries.
Proof.
  unfold np_array_entries. destruct (forallb is_failval entries);
    [apply length_map | reflexivity].
Qed.

Lemma bins_data_length (v : list float) (x_digits : list nat) (n : nat)
    (thr : Z) (failval : float) (l : list bin_entry) :
  bins_data v x_digits n thr failval = Ok l -> length l = (n - 1)%nat.
Proof.
  unfold bins_data. intros H.
  destruct (mapM_result _ _) as [entries|] eqn:E; [|discriminate H].
  injection H as <-. rewrite np_array_entries_length.
  apply mapM_result_length in E. now rewrite length_seq in E.
Qed.

Lemma filtered_length {A : Type} (xs : list float) (failval : float) :
  forall a : list A,
    length a = length xs ->
    length (map snd (List.filter (fun p : float * A => fneb (fst p) failval)
                                 (zip xs a)))
    = length (List.filter (fun v => fneb v failval) xs).
Proof.
  induction xs as [|x xs IH]; intros [|e a] Hl; try discriminate;
    [reflexivity|].
  simpl. injection Hl as Hl. destruct (fneb x failval); simpl;
    now rewrite IH.
Qed.

Lemma filtered_survivors (xs : list float) (failval : float) :
  Forall (fun v => fneb v failval = true)
         (map snd (List.filter (fun p : float * float => fneb (fst p) failval)
                               (zip xs xs))).
Proof.
  induction xs as [|x xs IH]; [constructor|].
  simpl. destruct (fneb x failval) eqn:E; simpl; [|exact IH].
  constructor; assumption.
Qed.

Lemma filter_length_le {A : Type} (P : A -> bool) (l : list A) :
  (length (List.filter P l) <= length l)%nat.
Proof.
  induction l as [|a l IH]; simpl; [lia|]. destruct (P a); simpl; lia.
Qed.

Lemma fmap_Some_Ok {A : Type} (m : result A) (o : option A) :
  Some <$> m = Ok o -> exists a, m = Ok a /\ o = Some a.
Proof.
  destruct m as [a|]; [|discriminate]. intros H. injection H as <-. eauto.
Qed.

(** [H : (x ← m; k x) = Ok _]: then [m] returned. *)
Ltac bind_inv H :=
  match type of H with
  | mbind _ ?m = Ok _ =>
      let E := fresh "E" in
      destruct m eqn:E; cbn [mbind result_bind] in H; [|discriminate H]
  end.

Section Returned.
Variable Program_Msg : string -> string.
Variable module_file : string.
Variable sqrt : Q -> Q.

Lemma edge_stat_length (edges : list float) (xb : list bin_entry)
    (arr_len : Z) (failval : float) (l : list float) :
  edge_stat edges xb arr_len failval = Ok l -> length l = length xb.
Proof.
  intros H. apply mapM_result_length in H. now rewrite length_seq in H.
Qed.

(** Whatever a call returns: the arrays the removal step indexes have one
    length and hold the bins whose [x_stat] differs from [failval], while
    [y_std] still stands for every bin. *)
Lemma Stats_body_returned (G : gmap string pyval) (x y : list float)
    (base : float) (arr_len : Z) (arr_digit : string) (statfunc : reducer)
    (bin_statval : string) (failval : float) (out : list pyobj) :
  Stats_body Program_Msg module_file sqrt G x y base arr_len arr_digit
             statfunc bin_statval failval = Ok out ->
  exists (x_stat y_stat y_std_err : list float)
         (x_bins_data y_bins_data pending : list bin_entry)
         (perc : list pyobj),
    (out = [RBins x_bins_data; RBins y_bins_data] ++ perc \/
     out = [RArray x_stat; RArray y_stat; RGenerator0d pending;
            RArray y_std_err; RBins x_bins_data; RBins y_bins_data] ++ perc \/
     out = [RArray x_stat; RArray y_stat; RGenerator0d pending;
            RArray y_std_err] ++ perc)%list /\
    length y_stat = length x_stat /\
    length y_std_err = length x_stat /\
    length x_bins_data = length x_stat /\
    length y_bins_data = length x_stat /\
    Forall (fun v => fneb v failval = true) x_stat /\
    (length x_stat <= length pending)%nat.
Proof.
  intros H. unfold Stats_body in H.
  do 13 bind_inv H.
  rename a2 into x_bins, a4 into xb, a5 into yb, a9 into ys, a10 into es,
    a11 into xs.
  do 8 bind_inv H.
  assert (Lxb : length xb = (length x_bins - 1)%nat)
    by exact (bins_data_length _ _ _ _ _ _ E4).
  assert (Lyb : length yb = (length x_bins - 1)%nat)
    by exact (bins_data_length _ _ _ _ _ _ E5).
  assert (Lys : length ys = length yb) by now apply mapM_result_length in E9.
  assert (Les : length es = length yb) by now apply mapM_result_length in E10.
  assert (Lxs : length xs = length xb).
  { destruct a8 as [l|]; [injection E11 as ->|discriminate E11].
    destruct (bin_statval =? "right").
    { apply fmap_Some_Ok in E8 as (l' & E8 & [= <-]).
      now apply edge_stat_length in E8. }
    injection E8 as ->.
    destruct (bin_statval =? "left").
    { apply fmap_Some_Ok in E7 as (l' & E7 & [= <-]).
      now apply edge_stat_length in E7. }
    injection E7 as ->.
    destruct (bin_statval =? "average"); [|discriminate E6].
    apply fmap_Some_Ok in E6 as (l' & E6 & [= <-]).
    now apply mapM_result_length in E6. }
  rewrite removal_step in E12 by congruence.
  rewrite removal_step in E13 by congruence.
  rewrite removal_step in E14 by congruence.
  rewrite removal_step in E15 by congruence.
  rewrite removal_step in E16 by congruence.
  injection E12 as <-. injection E13 as <-. injection E14 as <-.
  injection E15 as <-. injection E16 as <-.
  set (x_stat := map snd (List.filter _ (zip xs xs))) in *.
  set (y_stat := map snd (List.filter _ (zip xs ys))) in *.
  set (x_bins_data := map snd (List.filter _ (zip xs xb))) in *.
  set (y_bins_data := map snd (List.filter _ (zip xs yb))) in *.
  set (y_std_err := if is_nanmedian statfunc then _ else _) in *.
  assert (Lx : length x_stat = length (List.filter (fun v => fneb v failval) xs))
    by (apply filtered_length; reflexivity).
  assert (L1 : length y_stat = length x_stat)
    by (rewrite Lx; apply filtered_length; congruence).
  assert (L2 : length y_std_err = length x_stat).
  { rewrite Lx. unfold y_std_err.
    destruct (is_nanmedian statfunc); [rewrite length_map|];
      apply filtered_length; congruence. }
  assert (L3 : length x_bins_data = length x_stat)
    by (rewrite Lx; apply filtered_length; congruence).
  assert (L4 : length y_bins_data = length x_stat)
    by (rewrite Lx; apply filtered_length; congruence).
  assert (L5 : (length x_stat <= length yb)%nat).
  { rewrite Lx, Lyb, <- Lxb, <- Lxs. apply filter_length_le. }
  assert (Hsurv : Forall (fun v => fneb v failval = true) x_stat)
    by apply filtered_survivors.
  assert (Hout : exists perc : list pyobj,
             (out = [RBins x_bins_data; RBins y_bins_data] ++ perc \/
              out = [RArray x_stat; RArray y_stat; RGenerator0d yb;
                     RArray y_std_err; RBins x_bins_data; RBins y_bins_data]
                    ++ perc \/
              out = [RArray x_stat; RArray y_stat; RGenerator0d yb;
                     RArray y_std_err] ++ perc)%list).
  { match goal with o : option sigma_result |- _ => destruct o as [sig|] end;
      (destruct (arr_digit =? "o");
       [injection H as <-; eexists; left; reflexivity|]);
      (destruct (arr_digit =? "y");
       [injection H as <-; eexists; right; left; reflexivity|]);
      (destruct (arr_digit =? "n"); [|discriminate H]);
      injection H as <-; eexists; right; right; reflexivity. }
  destruct Hout as [perc Hout].
  exists x_stat, y_stat, y_std_err, x_bins_data, y_bins_data, yb, perc.
  repeat (split; [assumption|]). assumption.
Qed.
End Returned.

(** The comprehensions of lines 324 to 347 take [len] of every entry, so
    an entry that is [failval] stops them. *)
Lemma stat_of_entry_failval (f : list float -> float) (arr_len : Z)
    (failval v : float) :
  stat_of_entry f arr_len failval (BinFail v)
  = Raise (TypeError "object of type 'float' has no len()").
Proof. reflexivity. Qed.

(** With [x1] and [return_perc] bound: the values 0.5 and 2.5 with base 1
    leave the bin from 1 to 2 empty, its entry is [failval], and the call
    raises. *)
Example Stats_one_arr_empty_bin :
  Stats_one_arr sample_Program_Msg sample_file sqrt_approx
    (bound_globals [Fin (1 # 2); Fin (5 # 2)] false)
    [Fin (1 # 2); Fin (5 # 2)] [Fin 1; Fin 2] (Fin 1) 1 "n" NanMean
    "average" NaN
  = Raise (TypeError "object of type 'float' has no len()").
Proof. vm_compute. reflexivity. Qed.

(** C3: the removal step indexes [x_stat], [y_stat], [y_std_err] and the
    two arrays of the bins' values, but not [y_std], which moreover is
    built from a generator and so is a 0-d array without a length.  With
    [x1] and [return_perc] bound, on [x = [-0.5, 0.5]], [y = [1, 2]],
    [base = 2], [arr_len = 1], [bin_statval = 'left'] and [failval = 0]
    the second bin (left edge 0) is removed: the returned [x_stat],
    [y_stat] and [y_std_err] have one element, and [y_std] still stands
    for both bins. *)
Theorem Stats_one_arr_y_std_not_filtered :
  exists (pending : list bin_entry) (y_std_err : list float),
    Stats_one_arr sample_Program_Msg sample_file sqrt_approx
      (bound_globals [Fin (-1 # 2); Fin (1 # 2)] false)
      [Fin (-1 # 2); Fin (1 # 2)] [Fin 1; Fin 2] (Fin 2) 1 "n" NanMean
      "left" (Fin 0)
    = Ok [RArray [Fin (-2)]; RArray [Fin 1]; RGenerator0d pending;
          RArray y_std_err] /\
    length y_std_err = 1%nat /\
    pending = [BinArr [Fin 1]; BinArr [Fin 2]] /\
    len_pyobj (RGenerator0d pending) = None.
Proof.
  do 2 eexists. split; [vm_compute; reflexivity|].
  split; [reflexivity|]. split; reflexivity.
Qed.

(** * Further properties of the code *)

(** ** RoundingOps: when the functions return and what they bracket *)

Lemma Qceiling_floor_gap (x : Q) :
  Qceiling x = Qfloor x \/ Qceiling x = (Qfloor x + 1)%Z.
Proof.
  pose proof (Qfloor_le x) as H1. pose proof (Qlt_floor x) as H2.
  pose proof (Qle_ceiling x) as H3. pose proof (Qceiling_lt x) as H4.
  assert (Qfloor x <= Qceiling x)%Z by (rewrite Zle_Qle; lra).
  assert (Qceiling x - 1 < Qfloor x + 1)%Z by (rewrite Zlt_Qlt; lra).
  lia.
Qed.

Lemma Qdiv_multiple (b : Q) (k : Z) :
  ~ (b == 0)%Q -> (b * inject_Z k / b == inject_Z k)%Q.
Proof. intros Hb. field. exact Hb. Qed.

(** X1: in exact arithmetic (no overflow of the quotient), [myceil] and
    [myfloor] return exactly when [x] is finite and [base] is neither
    not-a-number nor zero.  A zero base raises [ZeroDivisionError]
    whatever [x] is; with a non-zero base a not-a-number [x] raises
    [ValueError] and an infinite [x] with a finite base raises
    [OverflowError]; an infinite base with a finite [x] returns
    not-a-number (the quotient is zero, and zero times infinity is
    not-a-number). *)
Theorem rounding_returns (x base : float) :
  ((exists y : float, myceil x base = Ok y)
   <-> is_finite x = true /\ is_nan base = false /\
       is_zero_float base = false) /\
  ((exists y : float, myfloor x base = Ok y)
   <-> is_finite x = true /\ is_nan base = false /\
       is_zero_float base = false) /\
  (is_zero_float base = true ->
   myceil x base = Raise ZeroDivisionError /\
   myfloor x base = Raise ZeroDivisionError) /\
  (is_zero_float base = false -> is_nan x = true ->
   myceil x base = Raise (ValueError "cannot convert float NaN to integer") /\
   myfloor x base = Raise (ValueError "cannot convert float NaN to integer")) /\
  (is_inf x = true -> is_finite base = true -> is_zero_float base = false ->
   myceil x base = Raise OverflowError /\
   myfloor x base = Raise OverflowError) /\
  (is_finite x = true -> is_inf base = true ->
   myceil x base = Ok NaN /\ myfloor x base = Ok NaN).
Proof.
  unfold myceil, myfloor, py_truediv, is_zero_float.
  destruct base as [| t | b]; destruct x as [| s | q]; simpl;
    try destruct (Qeq_bool b 0) eqn:E; simpl;
    repeat split; intros;
    repeat match goal with
           | H : exists _, _ |- _ => destruct H
           | H : _ /\ _ |- _ => destruct H
           end;
    try discriminate; try reflexivity; eauto.
Qed.

(** X2: for a finite [x] and a base [> 0], in exact arithmetic,
    [myfloor(x) <= x <= myceil(x)], each less than one base away from
    [x]; the two results are equal or exactly one base apart, and they
    are equal exactly when [x] is itself that multiple of the base; and
    both functions leave a result of either of them unchanged. *)
Theorem rounding_bracket (x b : Q) :
  (0 < b)%Q ->
  exists c f : Q,
    myceil (Fin x) (Fin b) = Ok (Fin c) /\
    myfloor (Fin x) (Fin b) = Ok (Fin f) /\
    (f <= x)%Q /\ (x <= c)%Q /\ (c < x + b)%Q /\ (x - b < f)%Q /\
    ((c == f)%Q \/ (c == f + b)%Q) /\
    ((c == f)%Q <-> (x == f)%Q) /\
    (exists c' : Q, myceil (Fin c) (Fin b) = Ok (Fin c') /\ (c' == c)%Q) /\
    (exists c' : Q, myfloor (Fin c) (Fin b) = Ok (Fin c') /\ (c' == c)%Q) /\
    (exists f' : Q, myfloor (Fin f) (Fin b) = Ok (Fin f') /\ (f' == f)%Q) /\
    (exists f' : Q, myceil (Fin f) (Fin b) = Ok (Fin f') /\ (f' == f)%Q).
Proof.
  intros Hb. assert (Hb0 : ~ (b == 0)%Q) by lra.
  exists (b * inject_Z (Qceiling (x / b)))%Q, (b * inject_Z (Qfloor (x / b)))%Q.
  split; [now apply myceil_Fin|]. split; [now apply myfloor_Fin|].
  pose proof (floor_multiple_le x b Hb) as Hf.
  pose proof (ceil_multiple_ge x b Hb) as Hc.
  pose proof (Qlt_floor (x / b)) as Hf'.
  pose proof (Qceiling_lt (x / b)) as Hc'.
  apply (Qmult_lt_l _ _ b Hb) in Hf', Hc'.
  rewrite Qmult_div_r in Hf', Hc' by exact Hb0.
  rewrite inject_Z_plus in Hf'. unfold Z.sub in Hc'.
  rewrite inject_Z_plus, inject_Z_opp in Hc'.
  change (inject_Z 1) with 1%Q in *.
  split; [exact Hf|]. split; [exact Hc|].
  split; [lra|]. split; [lra|].
  assert (Hgap : (b * inject_Z (Qceiling (x / b)) == b * inject_Z (Qfloor (x / b)))%Q
                 \/ (b * inject_Z (Qceiling (x / b))
                     == b * inject_Z (Qfloor (x / b)) + b)%Q).
  { destruct (Qceiling_floor_gap (x / b)) as [E|E]; rewrite E.
    - left. reflexivity.
    - right. rewrite inject_Z_plus. change (inject_Z 1) with 1%Q. lra. }
  split; [exact Hgap|].
  split.
  { split; intros E; [lra|].
    destruct Hgap as [?|Hgap]; [assumption|]. lra. }
  assert (Hidem : forall k : Z,
            (exists v : Q, myceil (Fin (b * inject_Z k)) (Fin b) = Ok (Fin v)
                           /\ (v == b * inject_Z k)%Q) /\
            (exists v : Q, myfloor (Fin (b * inject_Z k)) (Fin b) = Ok (Fin v)
                           /\ (v == b * inject_Z k)%Q)).
  { intros k. split; eexists;
      (split; [now (apply myceil_Fin || apply myfloor_Fin)|]).
    - rewrite (Qceiling_comp _ _ (Qdiv_multiple b k Hb0)), Qceiling_Z.
      reflexivity.
    - rewrite (Qfloor_comp _ _ (Qdiv_multiple b k Hb0)), Qfloor_Z.
      reflexivity. }
  destruct (Hidem (Qceiling (x / b))) as [H1 H2].
  destruct (Hidem (Qfloor (x / b))) as [H3 H4].
  repeat split; assumption.
Qed.

(** X3: for a finite [x] and a finite base that is not zero, in exact
    arithmetic, rounding up with the negated base is rounding down with
    the base, [myceil(x, -base) = myfloor(x, base)], and rounding up the
    negated value is the negation of rounding down,
    [myceil(-x, base) = -myfloor(x, base)]. *)
Theorem rounding_negated (x b : Q) :
  ~ (b == 0)%Q ->
  exists c f cn cx : Q,
    myceil (Fin x) (Fin b) = Ok (Fin c) /\
    myfloor (Fin x) (Fin b) = Ok (Fin f) /\
    myceil (Fin x) (Fin (- b)) = Ok (Fin cn) /\ (cn == f)%Q /\
    myceil (Fin (- x)) (Fin b) = Ok (Fin cx) /\ (cx == - f)%Q.
Proof.
  intros Hb. assert (Hnb : ~ (- b == 0)%Q) by lra.
  do 4 eexists.
  split; [now apply myceil_Fin|]. split; [now apply myfloor_Fin|].
  split; [now apply myceil_Fin|].
  assert (E1 : (x / - b == - (x / b))%Q) by (field; exact Hb).
  assert (E2 : (- x / b == - (x / b))%Q) by (field; exact Hb).
  split.
  - rewrite (Qceiling_comp _ _ E1). unfold Qceiling.
    rewrite (Qfloor_comp (- - (x / b)) (x / b)) by ring.
    rewrite inject_Z_opp. ring.
  - split; [now apply myceil_Fin|].
    rewrite (Qceiling_comp _ _ E2). unfold Qceiling.
    rewrite (Qfloor_comp (- - (x / b)) (x / b)) by ring.
    rewrite inject_Z_opp. ring.
Qed.

Lemma rounding_bracket_witness :
  exists c f : Q,
    myceil (Fin 12) (Fin 10) = Ok (Fin c) /\
    myfloor (Fin 12) (Fin 10) = Ok (Fin f) /\
    (f <= 12)%Q /\ (12 <= c)%Q /\ (c == f + 10)%Q.
Proof.
  destruct (rounding_bracket 12 10 ltac:(reflexivity))
    as (c & f & Hc & Hf & H1 & H2 & _ & _ & [E|E] & Hiff & _).
  - exists c, f. repeat (split; [assumption|]).
    vm_compute in Hc, Hf. injection Hc as <-. injection Hf as <-.
    discriminate E.
  - exists c, f. repeat (split; [assumption|]). exact E.
Defined.

Lemma rounding_negated_witness :
  exists f cn : Q,
    myfloor (Fin 12) (Fin 10) = Ok (Fin f) /\
    myceil (Fin 12) (Fin (- (10))) = Ok (Fin cn) /\ (cn == f)%Q.
Proof.
  destruct (rounding_negated 12 10 ltac:(discriminate))
    as (c & f & cn & cx & _ & Hf & Hcn & E & _).
  exists f, cn. repeat split; assumption.
Defined.

(** ** BinEdgeBuilder: when it returns, how many edges, and the digits *)

Lemma rounding_Ok_inv (x base y : float) :
  myceil x base = Ok y \/ myfloor x base = Ok y ->
  is_finite x = true /\ is_nan base = false /\ is_zero_float base = false /\
  (is_inf base = true -> y = NaN).
Proof.
  unfold myceil, myfloor, py_truediv, is_zero_float.
  destruct base as [| t | b]; destruct x as [| s | q]; simpl;
    try destruct (Qeq_bool b 0) eqn:E; simpl;
    intros [H|H]; try discriminate H;
    repeat split; try discriminate; try (injection H as <-; reflexivity).
Qed.

Lemma fmin2_Fin_inv (a b : float) (m : Q) :
  fmin2 a b = Fin m ->
  (is_nan a = false /\ a <> Inf true) /\ (is_nan b = false /\ b <> Inf true).
Proof.
  destruct a as [|[|]|x], b as [|[|]|y]; unfold fmin2; simpl;
    try destruct (Qle_bool x y); intros H; try discriminate H;
    repeat split; discriminate.
Qed.

Lemma fmax2_Fin_inv (a b : float) (m : Q) :
  fmax2 a b = Fin m ->
  (is_nan a = false /\ a <> Inf false) /\ (is_nan b = false /\ b <> Inf false).
Proof.
  destruct a as [|[|]|x], b as [|[|]|y]; unfold fmax2; simpl;
    try destruct (Qle_bool y x); intros H; try discriminate H;
    repeat split; discriminate.
Qed.

Lemma fold_fmin2_Fin_inv (l : list float) :
  forall (v : float) (m : Q),
    fold_left fmin2 l v = Fin m ->
    Forall (fun e => is_nan e = false /\ e <> Inf true) (v :: l).
Proof.
  induction l as [|e l IH]; intros v m H.
  - simpl in H. subst v. repeat constructor; discriminate.
  - simpl in H. specialize (IH _ _ H). inversion IH as [|? ? [H1 H2] Hl]; subst.
    destruct (fmin2 v e) as [| t | q] eqn:E; try discriminate.
    + destruct t; [congruence|].
      (* fmin2 v e = +inf: both are +inf or one is *)
      destruct v as [|[|]|x], e as [|[|]|y]; unfold fmin2 in E; simpl in E;
        try destruct (Qle_bool x y); try discriminate E;
        repeat constructor; try discriminate; assumption.
    + destruct (fmin2_Fin_inv _ _ _ E) as [Hv He].
      constructor; [exact Hv|]. constructor; [exact He | exact Hl].
Qed.

Lemma fold_fmax2_Fin_inv (l : list float) :
  forall (v : float) (m : Q),
    fold_left fmax2 l v = Fin m ->
    Forall (fun e => is_nan e = false /\ e <> Inf false) (v :: l).
Proof.
  induction l as [|e l IH]; intros v m H.
  - simpl in H. subst v. repeat constructor; discriminate.
  - simpl in H. specialize (IH _ _ H). inversion IH as [|? ? [H1 H2] Hl]; subst.
    destruct (fmax2 v e) as [| t | q] eqn:E; try discriminate.
    + destruct t; [|congruence].
      destruct v as [|[|]|x], e as [|[|]|y]; unfold fmax2 in E; simpl in E;
        try destruct (Qle_bool y x); try discriminate E;
        repeat constructor; try discriminate; assumption.
    + destruct (fmax2_Fin_inv _ _ _ E) as [Hv He].
      constructor; [exact Hv|]. constructor; [exact He | exact Hl].
Qed.

Lemma np_min_max_Fin_inv (l : list float) (mn mx : Q) :
  np_min l = Ok (Fin mn) -> np_max l = Ok (Fin mx) -> all_finite l.
Proof.
  destruct l as [|v l]; [discriminate|]. simpl. intros Hmn Hmx.
  injection Hmn as Hmn. injection Hmx as Hmx.
  apply fold_fmin2_Fin_inv in Hmn. apply fold_fmax2_Fin_inv in Hmx.
  unfold all_finite. rewrite Forall_forall in *. intros e He.
  destruct (Hmn e He) as [H1 H2]. destruct (Hmx e He) as [_ H3].
  destruct e as [|[|]|q]; try discriminate; try reflexivity; congruence.
Qed.

Section BinEdgesMore.
Variable Program_Msg : string -> string.
Variable module_file : string.

(** X4: in exact arithmetic, [Bins_array_create] returns exactly when
    the array is one-dimensional and not empty, every value of it is
    finite, and the base is finite and not zero. *)
Theorem Bins_array_create_returns (arr : ndarray) (base : float) :
  (exists edges : list float,
     Bins_array_create Program_Msg module_file arr base = Ok edges)
  <-> ndim arr = 1%nat /\ data arr <> [] /\ all_finite (data arr) /\
      is_finite base = true /\ is_zero_float base = false.
Proof.
  split.
  - intros [edges H]. unfold Bins_array_create in H.
    destruct (ndim arr =? 1)%nat eqn:Hd; [|discriminate H].
    apply Nat.eqb_eq in Hd. cbn [negb] in H.
    destruct (np_min (data arr)) as [lo|] eqn:Hlo; [|discriminate H].
    cbn [mbind result_bind] in H.
    destruct (myfloor lo base) as [arr_min|] eqn:Hf; [|discriminate H].
    cbn [mbind result_bind] in H.
    destruct (np_max (data arr)) as [hi|] eqn:Hhi; [|discriminate H].
    cbn [mbind result_bind] in H.
    destruct (myceil hi base) as [arr_max|] eqn:Hc; [|discriminate H].
    cbn [mbind result_bind] in H.
    destruct (rounding_Ok_inv lo base arr_min (or_intror Hf))
      as (Flo & Hnan & Hz & Hinf).
    destruct (rounding_Ok_inv hi base arr_max (or_introl Hc))
      as (Fhi & _ & _ & _).
    assert (Hb : is_finite base = true).
    { destruct base as [| t | b]; [discriminate Hnan | | reflexivity].
      rewrite (Hinf eq_refl) in H. discriminate H. }
    destruct lo as [| |mn]; try discriminate Flo.
    destruct hi as [| |mx]; try discriminate Fhi.
    split; [exact Hd|]. split.
    { intros E. rewrite E in Hlo. discriminate Hlo. }
    split; [exact (np_min_max_Fin_inv _ _ _ Hlo Hhi)|].
    split; assumption.
  - intros (Hd & Hne & Hfin & Hb & Hz).
    destruct base as [| |b]; try discriminate Hb.
    assert (Hb0 : ~ (b == 0)%Q).
    { intros E. apply Qeq_bool_iff in E. unfold is_zero_float in Hz.
      simpl in Hz.
      congruence. }
    destruct (np_min_max_finite _ Hne Hfin) as (mn & mx & Hmn & Hmx & _).
    eexists.
    exact (Bins_array_create_finite _ _ arr b mn mx Hd Hb0 Hmn Hmx).
Qed.

End BinEdgesMore.

Lemma Qfloor_ge_Z (q : Q) (k : Z) :
  (inject_Z k <= q)%Q <-> (k <= Qfloor q)%Z.
Proof.
  split; intros H.
  - pose proof (Qfloor_resp_le _ _ H) as H'. now rewrite Qfloor_Z in H'.
  - pose proof (Qfloor_le q). rewrite Zle_Qle in H. lra.
Qed.

Lemma arange_nondecreasing (a s : Q) (n : nat) :
  (0 <= s)%Q ->
  forall k : nat,
    nondecreasing (map (fun i : nat => Fin (a + inject_Z (Z.of_nat i) * s))
                       (seq k n)) = true.
Proof.
  intros Hs. induction n as [|n IH]; intros k; [reflexivity|].
  destruct n as [|n]; [reflexivity|].
  specialize (IH (S k)). unfold nondecreasing in *.
  cbn [seq map tail zip zip_with forallb fst snd] in *.
  rewrite IH, andb_true_r. unfold fleb. apply Qle_bool_iff.
  rewrite Nat2Z.inj_succ. unfold Z.succ. rewrite inject_Z_plus.
  change (inject_Z 1) with 1%Q. nra.
Qed.

Lemma arange_le_iff (a s v : Q) (i : nat) :
  (0 < s)%Q ->
  fleb (Fin (a + inject_Z (Z.of_nat i) * s)) (Fin v) = true
  <-> (Z.of_nat i <= Qfloor ((v - a) / s))%Z.
Proof.
  intros Hs. unfold fleb. rewrite Qle_bool_iff, <- Qfloor_ge_Z.
  split; intros H.
  - apply Qle_shift_div_l; [exact Hs|]. lra.
  - apply (Qmult_le_r _ _ s Hs) in H.
    assert (E : ((v - a) / s * s == v - a)%Q) by (field; lra).
    rewrite E in H. lra.
Qed.

Lemma count_le_arange (a s v : Q) (n : nat) :
  (0 < s)%Q -> (0 <= Qfloor ((v - a) / s))%Z ->
  count_le (map (fun i : nat => Fin (a + inject_Z (Z.of_nat i) * s))
                (seq 0 n)) (Fin v)
  = Nat.min n (Z.to_nat (Qfloor ((v - a) / s)) + 1).
Proof.
  intros Hs Hk. unfold count_le. cbn [is_nan].
  induction n as [|n IH]; [reflexivity|].
  rewrite seq_S, map_app, List.filter_app, length_app, IH.
  cbn [map List.filter Nat.add].
  destruct (fleb _ _) eqn:E.
  - apply arange_le_iff in E; [|exact Hs]. cbn [length]. lia.
  - assert (~ (Z.of_nat n <= Qfloor ((v - a) / s))%Z).
    { intros H. apply (arange_le_iff a s v n Hs) in H. congruence. }
    cbn [length]. lia.
Qed.

Lemma fltb_Fin (x y : Q) : fltb (Fin x) (Fin y) = true <-> (x < y)%Q.
Proof.
  unfold fltb, fleb, feqb.
  rewrite andb_true_iff, negb_true_iff, Qle_bool_iff.
  split.
  - intros [H1 H2]. apply Qle_lteq in H1. destruct H1 as [H1|H1]; [exact H1|].
    apply Qeq_bool_iff in H1. congruence.
  - intros H. split; [lra|]. destruct (Qeq_bool x y) eqn:E; [|reflexivity].
    apply Qeq_bool_iff in E. lra.
Qed.

Lemma feqb_Fin (x y : Q) : feqb (Fin x) (Fin y) = true <-> (x == y)%Q.
Proof. apply Qeq_bool_iff. Qed.

Lemma Qdiv_mult_cancel (a b : Q) : (0 < b)%Q -> (a / b * b == a)%Q.
Proof. intros Hb. field. lra. Qed.

Lemma Qdiv_le_pos (a a' b : Q) :
  (0 < b)%Q -> (a <= a')%Q -> (a / b <= a' / b)%Q.
Proof.
  intros Hb H. apply Qle_shift_div_l; [exact Hb|].
  now rewrite Qdiv_mult_cancel.
Qed.

Lemma Qdiv_le_pos_inv (a a' b : Q) :
  (0 < b)%Q -> (a / b <= a' / b)%Q -> (a <= a')%Q.
Proof.
  intros Hb H. apply (Qmult_le_r _ _ b Hb) in H.
  now rewrite !Qdiv_mult_cancel in H.
Qed.

Section DigitsOnEdges.
Variable Program_Msg : string -> string.
Variable module_file : string.

(** The edges of a finite array for a positive base, with the range of
    the quotient that places a value among them. *)
Lemma Bins_array_create_places (arr : ndarray) (b : Q) :
  ndim arr = 1%nat -> data arr <> [] -> all_finite (data arr) -> (0 < b)%Q ->
  exists (mn mx : Q) (f c : Z),
    np_min (data arr) = Ok (Fin mn) /\ np_max (data arr) = Ok (Fin mx) /\
    f = Qfloor (mn / b) /\ c = Qceiling (mx / b) /\ (f <= c)%Z /\
    Bins_array_create Program_Msg module_file arr (Fin b)
    = Ok (map (fun i : nat => Fin (b * inject_Z f + inject_Z (Z.of_nat i) * b))
              (seq 0 (Z.to_nat (c - f + 1)))) /\
    (forall v : float, v ∈ data arr ->
       exists q : Q, v = Fin q /\ (mn <= q)%Q /\ (q <= mx)%Q /\
         (0 <= Qfloor ((q - b * inject_Z f) / b) <= c - f)%Z /\
         (Qfloor ((q - b * inject_Z f) / b) = c - f
          <-> (q == b * inject_Z c)%Q)%Z).
Proof.
  intros Hdim Hne Hfin Hb.
  destruct (np_min_max_finite _ Hne Hfin) as (mn & mx & Hmn & Hmx & Hle & Hall).
  exists mn, mx, (Qfloor (mn / b)), (Qceiling (mx / b)).
  pose proof (floor_multiple_le mn b Hb) as Hlo.
  pose proof (ceil_multiple_ge mx b Hb) as Hhi.
  set (f := Qfloor (mn / b)) in *. set (c := Qceiling (mx / b)) in *.
  assert (Hfc : (f <= c)%Z).
  { rewrite Zle_Qle. apply (Qmult_le_l _ _ b Hb). lra. }
  repeat (split; [assumption || reflexivity|]).
  split.
  { rewrite (Bins_array_create_finite Program_Msg module_file arr b mn mx Hdim
               ltac:(lra) Hmn Hmx).
    fold f c. now rewrite (arange_len_edges b f c Hb). }
  intros v Hv. rewrite Forall_forall in Hall. destruct (Hall v Hv) as [H1 H2].
  unfold all_finite in Hfin. rewrite Forall_forall in Hfin.
  specialize (Hfin v Hv). destruct v as [| |q]; try discriminate Hfin.
  exists q. unfold fleb in H1, H2. apply Qle_bool_iff in H1, H2.
  repeat (split; [assumption || reflexivity|]).
  assert (E : ((b * inject_Z c - b * inject_Z f) / b == inject_Z (c - f))%Q).
  { unfold Z.sub. rewrite inject_Z_plus, inject_Z_opp. field. lra. }
  assert (Hup : ((q - b * inject_Z f) / b <= inject_Z (c - f))%Q).
  { rewrite <- E. apply Qdiv_le_pos; [exact Hb | lra]. }
  split; [split|].
  - apply Qfloor_ge_Z. change (inject_Z 0) with 0%Q.
    apply Qle_shift_div_l; [exact Hb|]. lra.
  - pose proof (Qfloor_resp_le _ _ Hup) as H. now rewrite Qfloor_Z in H.
  - split; intros H.
    + assert (H' : (c - f <= Qfloor ((q - b * inject_Z f) / b))%Z) by lia.
      apply Qfloor_ge_Z in H'. rewrite <- E in H'.
      apply Qdiv_le_pos_inv in H'; [lra | exact Hb].
    + assert (H' : (c - f <= Qfloor ((q - b * inject_Z f) / b))%Z).
      { apply Qfloor_ge_Z. rewrite <- E. apply Qdiv_le_pos; [exact Hb | lra]. }
      pose proof (Qfloor_resp_le _ _ Hup) as H''. rewrite Qfloor_Z in H''. lia.
Qed.

(** X6: in exact arithmetic, [np.digitize] of the values of an array on
    the edges [Bins_array_create] makes of that array (non-empty,
    one-dimensional, finite values, base [> 0]) returns one digit [d] per
    value [v], with [1 <= d <= len(edges)], [edges[d-1] <= v], and
    [v < edges[d]] when there is such an edge: no value lies below the
    first edge.  The digit is [len(edges)], which is the digit of none of
    the bins [range(1, len(edges))], exactly when [v] equals the last
    edge. *)
Theorem digitize_on_own_edges (arr : ndarray) (b : Q) :
  ndim arr = 1%nat -> data arr <> [] -> all_finite (data arr) -> (0 < b)%Q ->
  exists (edges : list float) (digits : list nat),
    Bins_array_create Program_Msg module_file arr (Fin b) = Ok edges /\
    np_digitize (data arr) edges = Ok digits /\
    length digits = length (data arr) /\
    forall (i : nat) (v : float) (d : nat),
      data arr !! i = Some v -> digits !! i = Some d ->
      (1 <= d <= length edges)%nat /\
      (exists e : float, edges !! (d - 1)%nat = Some e /\ fleb e v = true) /\
      (forall e : float, edges !! d = Some e -> fltb v e = true) /\
      (d = length edges
       <-> exists e : float,
             edges !! (length edges - 1)%nat = Some e /\ feqb v e = true).
Proof.
  intros Hdim Hne Hfin Hb.
  destruct (Bins_array_create_places arr b Hdim Hne Hfin Hb)
    as (mn & mx & f & c & Hmn & Hmx & Hf & Hc & Hfc & Hedges & Hplace).
  clear Hf Hc.
  set (g := fun i : nat => Fin (b * inject_Z f + inject_Z (Z.of_nat i) * b))
    in *.
  set (n := Z.to_nat (c - f + 1)) in *.
  exists (map g (seq 0 n)), (map (count_le (map g (seq 0 n))) (data arr)).
  split; [exact Hedges|]. split.
  { unfold np_digitize.
    pose proof (arange_nondecreasing (b * inject_Z f) b n ltac:(lra) 0%nat)
      as Hnd.
    change (nondecreasing (map g (seq 0 n)) = true) in Hnd.
    now rewrite Hnd. }
  split; [now rewrite length_map|].
  intros i v d Hv Hd.
  change (map ?h ?l) with (h <$> l) in Hd.
  rewrite list_lookup_fmap, Hv in Hd. cbn in Hd. injection Hd as Hd.
  destruct (Hplace v (list_elem_of_lookup_2 _ _ _ Hv))
    as (q & -> & Hq1 & Hq2 & [Hk0 Hk1] & Hlast).
  change (g <$> seq 0 n) with (map g (seq 0 n)) in Hd.
  unfold g in Hd.
  rewrite (count_le_arange (b * inject_Z f) b q n Hb Hk0) in Hd.
  fold g in Hd.
  set (kz := Qfloor ((q - b * inject_Z f) / b)) in *.
  assert (Hdk : d = (Z.to_nat kz + 1)%nat) by lia.
  rewrite length_map, length_seq.
  split; [lia|]. split.
  { exists (g (Z.to_nat kz)). split.
    - replace (d - 1)%nat with (Z.to_nat kz) by lia.
      apply lookup_arange. lia.
    - unfold g. apply arange_le_iff; [exact Hb|]. fold kz. lia. }
  split.
  { intros e He.
    destruct (Nat.lt_ge_cases d n) as [Hlt|Hge].
    - unfold g in He. rewrite (lookup_arange _ _ _ _ Hlt) in He.
      injection He as <-. apply fltb_Fin.
      pose proof (Qlt_floor ((q - b * inject_Z f) / b)) as H. fold kz in H.
      apply (Qmult_lt_r _ _ b Hb) in H.
      rewrite Qdiv_mult_cancel in H by exact Hb.
      replace (Z.of_nat d) with (kz + 1)%Z by lia. lra.
    - apply lookup_lt_Some in He. rewrite length_map, length_seq in He. lia. }
  split.
  - intros Hdn. exists (g (n - 1)%nat). split; [apply lookup_arange; lia|].
    unfold g. apply feqb_Fin.
    assert (Hkz : kz = (c - f)%Z) by lia.
    apply Hlast in Hkz. rewrite Hkz.
    replace (Z.of_nat (n - 1)) with (c - f)%Z by lia.
    unfold Z.sub. rewrite inject_Z_plus, inject_Z_opp. ring.
  - intros (e & He & Heq).
    unfold g in He. rewrite lookup_arange in He by lia.
    injection He as <-. apply feqb_Fin in Heq.
    assert (Hq : (q == b * inject_Z c)%Q).
    { rewrite Heq. replace (Z.of_nat (n - 1)) with (c - f)%Z by lia.
      unfold Z.sub. rewrite inject_Z_plus, inject_Z_opp. ring. }
    apply Hlast in Hq. lia.
Qed.

End DigitsOnEdges.

Lemma fold_fmin2_elem (l : list float) :
  forall v : float, fold_left fmin2 l v ∈ v :: l.
Proof.
  induction l as [|e l IH]; intros v; [left|].
  cbn [fold_left]. specialize (IH (fmin2 v e)).
  apply elem_of_cons in IH. destruct IH as [->|IH].
  - unfold fmin2. destruct (is_nan v); [left|].
    destruct (is_nan e); [right; left|].
    destruct (fleb v e); [left | right; left].
  - right. right. exact IH.
Qed.

Lemma fold_fmax2_elem (l : list float) :
  forall v : float, fold_left fmax2 l v ∈ v :: l.
Proof.
  induction l as [|e l IH]; intros v; [left|].
  cbn [fold_left]. specialize (IH (fmax2 v e)).
  apply elem_of_cons in IH. destruct IH as [->|IH].
  - unfold fmax2. destruct (is_nan v); [left|].
    destruct (is_nan e); [right; left|].
    destruct (fleb e v); [left | right; left].
  - right. right. exact IH.
Qed.

Lemma np_min_elem (l : list float) (m : float) : np_min l = Ok m -> m ∈ l.
Proof.
  destruct l as [|v l]; [discriminate|]. intros [= <-]. apply fold_fmin2_elem.
Qed.

Lemma np_max_elem (l : list float) (m : float) : np_max l = Ok m -> m ∈ l.
Proof.
  destruct l as [|v l]; [discriminate|]. intros [= <-]. apply fold_fmax2_elem.
Qed.

Lemma arange_len_multiples (b : Q) (f c : Z) :
  ~ (b == 0)%Q ->
  arange_len (b * inject_Z f) (b * inject_Z c + (1 # 2) * b) b
  = Z.to_nat (c - f + 1).
Proof.
  intros Hb. unfold arange_len. f_equal.
  assert (E : ((b * inject_Z c + (1 # 2) * b - b * inject_Z f) / b
               == inject_Z (c - f) + (1 # 2))%Q).
  { unfold Z.sub. rewrite inject_Z_plus, inject_Z_opp. field. exact Hb. }
  rewrite (Qceiling_comp _ _ E).
  apply Qceiling_unique.
  - replace (c - f + 1 - 1)%Z with (c - f)%Z by lia. lra.
  - rewrite inject_Z_plus. change (inject_Z 1) with 1%Q. lra.
Qed.

Section EdgeCount.
Variable Program_Msg : string -> string.
Variable module_file : string.

(** X5: in exact arithmetic, for a non-empty one-dimensional array of
    finite values and a finite base [> 0], with [lo = myfloor(min)] and
    [hi = myceil(max)], [Bins_array_create] returns at least one edge and
    [(len(edges) - 1) * base = hi - lo]; it returns a single edge, and so
    no bin at all, exactly when every value equals one and the same
    multiple of the base. *)
Theorem Bins_array_create_count (arr : ndarray) (b : Q) :
  ndim arr = 1%nat -> data arr <> [] -> all_finite (data arr) -> (0 < b)%Q ->
  exists (edges : list float) (lo hi : Q),
    Bins_array_create Program_Msg module_file arr (Fin b) = Ok edges /\
    (m ← np_min (data arr); myfloor m (Fin b)) = Ok (Fin lo) /\
    (m ← np_max (data arr); myceil m (Fin b)) = Ok (Fin hi) /\
    (1 <= length edges)%nat /\
    (inject_Z (Z.of_nat (length edges - 1)) * b == hi - lo)%Q /\
    (length edges = 1%nat
     <-> exists k : Z,
           Forall (fun v => feqb v (Fin (b * inject_Z k)) = true) (data arr)).
Proof.
  intros Hdim Hne Hfin Hb.
  destruct (Bins_array_create_places Program_Msg module_file arr b
              Hdim Hne Hfin Hb)
    as (mn & mx & f & c & Hmn & Hmx & Hf & Hc & Hfc & Hedges & Hplace).
  eexists _, (b * inject_Z f)%Q, (b * inject_Z c)%Q.
  split; [exact Hedges|].
  rewrite Hmn, Hmx. cbn [mbind result_bind].
  rewrite myfloor_Fin, myceil_Fin by lra. subst f c.
  split; [reflexivity|]. split; [reflexivity|].
  set (f := Qfloor (mn / b)) in *. set (c := Qceiling (mx / b)) in *.
  rewrite length_map, length_seq.
  split; [lia|]. split.
  { replace (Z.of_nat (Z.to_nat (c - f + 1) - 1)) with (c - f)%Z by lia.
    unfold Z.sub. rewrite inject_Z_plus, inject_Z_opp. ring. }
  split.
  - intros Hn. assert (Hcf : c = f) by lia. exists f.
    apply Forall_forall. intros v Hv.
    destruct (Hplace v Hv) as (q & -> & _ & _ & [Hk0 Hk1] & Hlast).
    apply feqb_Fin. rewrite <- Hcf. apply Hlast. lia.
  - intros [k Hk]. rewrite Forall_forall in Hk.
    pose proof (Hk _ (np_min_elem _ _ Hmn)) as H1.
    pose proof (Hk _ (np_max_elem _ _ Hmx)) as H2.
    apply feqb_Fin in H1, H2.
    pose proof (floor_multiple_greatest mn b k Hb ltac:(lra)) as H3.
    pose proof (ceil_multiple_least mx b k Hb ltac:(lra)) as H4.
    fold f in H3. fold c in H4.
    apply Qmult_le_l in H3, H4; try exact Hb.
    rewrite <- Zle_Qle in H3, H4. lia.
Qed.

(** X7: in exact arithmetic, with a finite base [< 0], on a non-empty
    one-dimensional array of finite values, [Bins_array_create] does not
    raise: it returns at most two edges, in non-increasing order,
    whatever the range of the values is. *)
Theorem Bins_array_create_negative_base (arr : ndarray) (b : Q) :
  ndim arr = 1%nat -> data arr <> [] -> all_finite (data arr) -> (b < 0)%Q ->
  exists edges : list float,
    Bins_array_create Program_Msg module_file arr (Fin b) = Ok edges /\
    (length edges <= 2)%nat /\
    nonincreasing edges = true.
Proof.
  intros Hdim Hne Hfin Hb.
  destruct (np_min_max_finite _ Hne Hfin) as (mn & mx & Hmn & Hmx & Hle & _).
  eexists. split.
  { exact (Bins_array_create_finite Program_Msg module_file arr b mn mx Hdim
             ltac:(lra) Hmn Hmx). }
  rewrite arange_len_multiples by lra.
  set (f := Qfloor (mn / b)). set (c := Qceiling (mx / b)).
  assert (Hcf : (c <= f + 1)%Z).
  { assert (H : (mx / b <= mn / b)%Q).
    { assert (E1 : (mx / b == (- mx) / (- b))%Q) by (field; lra).
      assert (E2 : (mn / b == (- mn) / (- b))%Q) by (field; lra).
      rewrite E1, E2. apply Qdiv_le_pos; lra. }
    pose proof (Qceiling_resp_le _ _ H) as H1. fold c in H1.
    destruct (Qceiling_floor_gap (mn / b)) as [E|E]; fold f in E; lia. }
  rewrite length_map, length_seq. split; [lia|].
  assert (Hn : (Z.to_nat (c - f + 1) <= 2)%nat) by lia.
  destruct (Z.to_nat (c - f + 1)) as [|[|[|n]]]; try reflexivity; [|lia].
  unfold nonincreasing. cbn [seq map tail zip zip_with forallb fst snd].
  rewrite andb_true_r. unfold fleb. apply Qle_bool_iff.
  change (inject_Z (Z.of_nat 1)) with 1%Q.
  change (inject_Z (Z.of_nat 0)) with 0%Q. lra.
Qed.

End EdgeCount.

Lemma fold_fmin2_nan (l : list float) (v : float) :
  is_nan v = true \/ Exists (fun e => is_nan e = true) l ->
  fold_left fmin2 l v = NaN.
Proof.
  revert v. induction l as [|e l IH]; intros v [Hv|He].
  - destruct v; try discriminate Hv. reflexivity.
  - inversion He.
  - cbn [fold_left]. apply IH. left.
    destruct v; try discriminate Hv. reflexivity.
  - cbn [fold_left]. apply IH. inversion He as [? ? H|? ? H]; subst.
    + left. destruct e; try discriminate H. unfold fmin2.
      destruct (is_nan v) eqn:E; [exact E | reflexivity].
    + now right.
Qed.

Lemma np_min_nan (l : list float) :
  Exists (fun e => is_nan e = true) l -> np_min l = Ok NaN.
Proof.
  intros H. destruct l as [|v l]; [inversion H|]. cbn [np_min]. f_equal.
  apply fold_fmin2_nan. inversion H; subst; auto.
Qed.

Section BinEdgeErrors.
Variable Program_Msg : string -> string.
Variable module_file : string.

(** X18: what [Bins_array_create] raises on a one-dimensional array: on
    an empty array [ValueError] (the minimum of a zero-size array); on a
    non-empty array with a base equal to zero [ZeroDivisionError]; with a
    base that is not zero, on an array that holds a not-a-number,
    [ValueError] ("cannot convert float NaN to integer"). *)
Theorem Bins_array_create_errors (arr : ndarray) (base : float) :
  ndim arr = 1%nat ->
  (data arr = [] ->
   Bins_array_create Program_Msg module_file arr base
   = Raise (ValueError "zero-size array to reduction operation minimum which has no identity")) /\
  (data arr <> [] -> is_zero_float base = true ->
   Bins_array_create Program_Msg module_file arr base
   = Raise ZeroDivisionError) /\
  (is_zero_float base = false -> Exists (fun e => is_nan e = true) (data arr) ->
   Bins_array_create Program_Msg module_file arr base
   = Raise (ValueError "cannot convert float NaN to integer")).
Proof.
  intros Hd. unfold Bins_array_create. rewrite Hd. cbn [Nat.eqb negb].
  split; [|split].
  - intros ->. reflexivity.
  - intros Hne Hz. destruct (data arr) as [|v l]; [congruence|].
    cbn [np_min mbind result_bind]. unfold myfloor, py_truediv.
    destruct base as [| |b]; try discriminate Hz.
    unfold is_zero_float, feqb in Hz. now rewrite Hz.
  - intros Hz Hnan. rewrite (np_min_nan _ Hnan). cbn [mbind result_bind].
    unfold myfloor, py_truediv. destruct base as [| |b]; try reflexivity.
    unfold is_zero_float, feqb in Hz. now rewrite Hz.
Qed.

End BinEdgeErrors.

Lemma Bins_array_create_count_witness :
  exists (edges : list float) (lo hi : Q),
    Bins_array_create sample_Program_Msg sample_file
      (array1 [Fin 1; Fin 2; Fin 3; Fin 4]) (Fin 2) = Ok edges /\
    length edges = 3%nat /\ (hi - lo == 4)%Q.
Proof.
  destruct (Bins_array_create_count sample_Program_Msg sample_file
              (array1 [Fin 1; Fin 2; Fin 3; Fin 4]) 2
              eq_refl ltac:(discriminate)
              ltac:(repeat constructor) ltac:(reflexivity))
    as (edges & lo & hi & He & _ & _ & _ & Hn & _).
  exists edges, lo, hi. split; [exact He|].
  vm_compute in He. injection He as <-. split; [reflexivity|].
  rewrite <- Hn. reflexivity.
Defined.

Lemma digitize_on_own_edges_witness :
  exists (edges : list float) (digits : list nat),
    Bins_array_create sample_Program_Msg sample_file
      (array1 [Fin 1; Fin 2; Fin 3; Fin 4]) (Fin 2) = Ok edges /\
    np_digitize [Fin 1; Fin 2; Fin 3; Fin 4] edges = Ok digits /\
    digits = [1; 2; 2; 3]%nat /\ length edges = 3%nat.
Proof.
  destruct (digitize_on_own_edges sample_Program_Msg sample_file
              (array1 [Fin 1; Fin 2; Fin 3; Fin 4]) 2
              eq_refl ltac:(discriminate)
              ltac:(repeat constructor) ltac:(reflexivity))
    as (edges & digits & He & Hd & _).
  exists edges, digits. split; [exact He|]. split; [exact Hd|].
  vm_compute in He. injection He as <-.
  vm_compute in Hd. injection Hd as <-. split; reflexivity.
Defined.

Lemma Bins_array_create_negative_base_witness :
  exists edges : list float,
    Bins_array_create sample_Program_Msg sample_file
      (array1 [Fin 1; Fin 2; Fin 3; Fin 4]) (Fin (- (2))) = Ok edges /\
    (length edges <= 2)%nat.
Proof.
  destruct (Bins_array_create_negative_base sample_Program_Msg sample_file
              (array1 [Fin 1; Fin 2; Fin 3; Fin 4]) (- (2))
              eq_refl ltac:(discriminate)
              ltac:(repeat constructor) ltac:(reflexivity))
    as (edges & He & Hn & _).
  exists edges. split; assumption.
Defined.

Lemma Bins_array_create_errors_witness :
  Bins_array_create sample_Program_Msg sample_file
    (array1 [Fin 1; NaN; Fin 3]) (Fin 2)
  = Raise (ValueError "cannot convert float NaN to integer").
Proof.
  apply (Bins_array_create_errors sample_Program_Msg sample_file
           (array1 [Fin 1; NaN; Fin 3]) (Fin 2) eq_refl).
  - reflexivity.
  - right. left. reflexivity.
Defined.

(** ** SigmaEstimator: when it returns, and the percentile mode *)

Lemma reduce_axis_returns (f : list float -> float) (a : ndarray)
    (axis : nat) :
  (axis < ndim a)%nat -> exists r : ndarray, reduce_axis f a axis = Ok r.
Proof.
  intros H. unfold reduce_axis. apply Nat.ltb_lt in H. rewrite H. eauto.
Qed.

Lemma reduce_axis_raises (f : list float -> float) (a : ndarray)
    (axis : nat) :
  ~ (axis < ndim a)%nat ->
  reduce_axis f a axis
  = Raise (AxisError ("axis " +:+ pretty axis +:+
                      " is out of bounds for array of dimension " +:+
                      pretty (ndim a))).
Proof.
  intros H. unfold reduce_axis.
  destruct (axis <? ndim a)%nat eqn:E; [|reflexivity].
  apply Nat.ltb_lt in E. contradiction.
Qed.

Lemma level_lower_in_range (p : float) :
  match fsub (Fin 50) (np_divide p (Fin 2)) with
  | Fin q => percentile_in_range (Fin q)
  | _ => false
  end = level_in_range p.
Proof.
  destruct p as [| [|] | L]; try reflexivity.
  unfold level_in_range, percentile_in_range, np_divide, fsub, fadd, fneg, fleb.
  change (Qeq_bool 2 0) with false. cbv iota.
  destruct (Qle_bool (-100) L) eqn:E1, (Qle_bool L 100) eqn:E2;
    destruct (Qle_bool 0 (50 + - (L / 2))) eqn:E3;
    destruct (Qle_bool (50 + - (L / 2)) 100) eqn:E4; try reflexivity;
    exfalso;
    repeat match goal with
           | H : Qle_bool _ _ = true |- _ => apply Qle_bool_iff in H
           | H : Qle_bool ?x ?y = false |- _ =>
               assert (~ (x <= y)%Q)
                 by (intros C; apply Qle_bool_iff in C; congruence);
               clear H
           end;
    assert (E : (L / 2 == L * (1 # 2))%Q) by (field);
    rewrite ?E in *; lra.
Qed.

Lemma level_upper_in_range (p : float) :
  match fadd (Fin 50) (np_divide p (Fin 2)) with
  | Fin q => percentile_in_range (Fin q)
  | _ => false
  end = level_in_range p.
Proof.
  destruct p as [| [|] | L]; try reflexivity.
  unfold level_in_range, percentile_in_range, np_divide, fadd, fleb.
  change (Qeq_bool 2 0) with false. cbv iota.
  destruct (Qle_bool (-100) L) eqn:E1, (Qle_bool L 100) eqn:E2;
    destruct (Qle_bool 0 (50 + L / 2)) eqn:E3;
    destruct (Qle_bool (50 + L / 2) 100) eqn:E4; try reflexivity;
    exfalso;
    repeat match goal with
           | H : Qle_bool _ _ = true |- _ => apply Qle_bool_iff in H
           | H : Qle_bool ?x ?y = false |- _ =>
               assert (~ (x <= y)%Q)
                 by (intros C; apply Qle_bool_iff in C; congruence);
               clear H
           end;
    assert (E : (L / 2 == L * (1 # 2))%Q) by (field);
    rewrite ?E in *; lra.
Qed.

Lemma percentile_axis_lower (a : ndarray) (axis : nat) (p : float) :
  (axis < ndim a)%nat ->
  (level_in_range p = true ->
   exists q : Q,
     fsub (Fin 50) (np_divide p (Fin 2)) = Fin q /\
     percentile_axis a (fsub (Fin 50) (np_divide p (Fin 2))) axis
     = reduce_axis (nanpercentile q) a axis) /\
  (level_in_range p = false ->
   percentile_axis a (fsub (Fin 50) (np_divide p (Fin 2))) axis
   = Raise (ValueError "Percentiles must be in the range [0, 100]")).
Proof.
  intros Hax. pose proof (level_lower_in_range p) as H.
  unfold percentile_axis.
  destruct (fsub (Fin 50) (np_divide p (Fin 2))) as [| s | q].
  - rewrite <- H. split; [discriminate | reflexivity].
  - rewrite <- H. split; [discriminate | reflexivity].
  - rewrite <- H. split; intros E; rewrite E; [|reflexivity].
    exists q. split; reflexivity.
Qed.

Lemma percentile_axis_upper (a : ndarray) (axis : nat) (p : float) :
  (axis < ndim a)%nat ->
  (level_in_range p = true ->
   exists q : Q,
     fadd (Fin 50) (np_divide p (Fin 2)) = Fin q /\
     percentile_axis a (fadd (Fin 50) (np_divide p (Fin 2))) axis
     = reduce_axis (nanpercentile q) a axis) /\
  (level_in_range p = false ->
   percentile_axis a (fadd (Fin 50) (np_divide p (Fin 2))) axis
   = Raise (ValueError "Percentiles must be in the range [0, 100]")).
Proof.
  intros Hax. pose proof (level_upper_in_range p) as H.
  unfold percentile_axis.
  destruct (fadd (Fin 50) (np_divide p (Fin 2))) as [| s | q].
  - rewrite <- H. split; [discriminate | reflexivity].
  - rewrite <- H. split; [discriminate | reflexivity].
  - rewrite <- H. split; intros E; rewrite E; [|reflexivity].
    exists q. split; reflexivity.
Qed.

(** One more level: the loop on [l ++ [p]] is the loop on [l], then the
    body for [p] under the key [len(l)]. *)
Lemma perc_bands_snoc (a : ndarray) (axis : nat) (l : list float) (p : float)
    (d0 : gmap nat band) :
  perc_bands a axis (l ++ [p])%list d0
  = (d ← perc_bands a axis l d0;
     mark_lower ← percentile_axis a (fsub (Fin 50) (np_divide p (Fin 2))) axis;
     mark_upper ← percentile_axis a (fadd (Fin 50) (np_divide p (Fin 2))) axis;
     Ok (<[length l := Stacked mark_lower mark_upper]> d)).
Proof.
  unfold perc_bands.
  rewrite length_app, seq_app. cbn [length seq Nat.add].
  rewrite zip_with_app by now rewrite length_seq.
  rewrite foldl_app. reflexivity.
Qed.

(** The ['perc'] loop on an array that has the axis: it returns when
    every level is in range, and raises [ValueError] otherwise. *)
Lemma perc_bands_spec (a : ndarray) (axis : nat) (d0 : gmap nat band) :
  (axis < ndim a)%nat ->
  forall perc_arr : list float,
    (forallb level_in_range perc_arr = true ->
     exists d : gmap nat band,
       perc_bands a axis perc_arr d0 = Ok d /\
       (forall i : nat, (length perc_arr <= i)%nat -> d !! i = d0 !! i) /\
       (forall (i : nat) (p : float), perc_arr !! i = Some p ->
          exists (ql qh : Q) (lo hi : ndarray),
            fsub (Fin 50) (np_divide p (Fin 2)) = Fin ql /\
            fadd (Fin 50) (np_divide p (Fin 2)) = Fin qh /\
            reduce_axis (nanpercentile ql) a axis = Ok lo /\
            reduce_axis (nanpercentile qh) a axis = Ok hi /\
            d !! i = Some (Stacked lo hi))) /\
    (forallb level_in_range perc_arr = false ->
     perc_bands a axis perc_arr d0
     = Raise (ValueError "Percentiles must be in the range [0, 100]")).
Proof.
  intros Hax perc_arr. induction perc_arr as [|p l IH] using rev_ind.
  - split; [|discriminate]. intros _. exists d0.
    split; [reflexivity|]. split; [reflexivity|].
    intros i p H. rewrite lookup_nil in H. discriminate.
  - rewrite perc_bands_snoc, forallb_app. cbn [forallb].
    rewrite andb_true_r. destruct IH as [IHok IHbad].
    destruct (forallb level_in_range l) eqn:El.
    + destruct (IHok eq_refl) as (d & Hd & Hout & Hin).
      rewrite Hd. cbn [mbind result_bind andb].
      destruct (percentile_axis_lower a axis p Hax) as [Lok Lbad].
      destruct (percentile_axis_upper a axis p Hax) as [Uok Ubad].
      split.
      * intros Ep. destruct (Lok Ep) as (ql & Eql & Hlo).
        destruct (Uok Ep) as (qh & Eqh & Hhi).
        destruct (reduce_axis_returns (nanpercentile ql) a axis Hax)
          as [lo Elo].
        destruct (reduce_axis_returns (nanpercentile qh) a axis Hax)
          as [hi Ehi].
        rewrite Hlo, Elo. cbn [mbind result_bind].
        rewrite Hhi, Ehi. cbn [mbind result_bind].
        eexists. split; [reflexivity|]. split.
        { intros i Hi. rewrite length_app in Hi. cbn [length] in Hi.
          rewrite lookup_insert_ne by lia. apply Hout. lia. }
        intros i p' Hp'.
        destruct (decide (i = length l)) as [->|Hne].
        { rewrite list_lookup_middle in Hp' by reflexivity.
          injection Hp' as <-. exists ql, qh, lo, hi.
          rewrite lookup_insert_eq. repeat split; assumption. }
        assert (Hi : (i < length l)%nat).
        { apply lookup_lt_Some in Hp'. rewrite length_app in Hp'.
          cbn [length] in Hp'. lia. }
        rewrite lookup_app_l in Hp' by exact Hi.
        destruct (Hin i p' Hp') as (ql' & qh' & lo' & hi' & ? & ? & ? & ? & ?).
        exists ql', qh', lo', hi'. rewrite lookup_insert_ne by lia.
        repeat split; assumption.
      * intros Ep. now rewrite (Lbad Ep).
    + rewrite (IHbad eq_refl). cbn [andb mbind result_bind].
      split; [discriminate | reflexivity].
Qed.

Lemma sigma_axis_lt (a : ndarray) :
  (1 <= ndim a)%nat -> ((if (ndim a =? 1)%nat then 0 else 1) < ndim a)%nat.
Proof.
  intros H. destruct (ndim a =? 1)%nat eqn:E; [lia|].
  apply Nat.eqb_neq in E. lia.
Qed.

Lemma size_prefix_keys {V : Type} (d : gmap nat V) (n : nat) :
  (forall i : nat, is_Some (d !! i) <-> (i < n)%nat) -> size d = n.
Proof.
  intros H. rewrite <- size_dom.
  assert (E : dom d = set_seq 0 n :> gset nat).
  { apply set_eq. intros i. rewrite elem_of_dom, elem_of_set_seq, H. lia. }
  rewrite E. apply size_set_seq.
Qed.

Lemma flatten_loop_raised (e : exn) (l : list nat) :
  foldl (fun (acc : result (gmap nat band)) ii =>
           d ← acc;
           match d !! ii with
           | Some b => b' ← flatten b; Ok (<[ii := b']> d)
           | None => Raise (KeyError (pretty ii))
           end)
        (Raise e) l = Raise e.
Proof. induction l as [|i l IH]; [reflexivity | exact IH]. Qed.

Lemma flatten_all_empty_lists (n : nat) :
  (0 < n)%nat ->
  flatten_all (init_sigma_dict n)
  = Raise (AttributeError "'list' object has no attribute 'flatten'").
Proof.
  intros Hn. unfold flatten_all. rewrite init_sigma_dict_size.
  destruct n as [|n]; [lia|]. cbn [seq foldl mbind result_bind].
  rewrite init_sigma_dict_lookup.
  destruct (decide (0 < S n)%nat); [|lia].
  cbn [flatten mbind result_bind]. apply flatten_loop_raised.
Qed.

Lemma flatten_all_stacked (d0 : gmap nat band) (n : nat) :
  (forall i : nat, (n <= i)%nat -> d0 !! i = None) ->
  (forall i : nat, (i < n)%nat ->
     exists lo hi : ndarray, d0 !! i = Some (Stacked lo hi)) ->
  exists d : gmap nat band,
    flatten_all d0 = Ok d /\
    (forall i : nat, (n <= i)%nat -> d !! i = None) /\
    (forall (i : nat) (lo hi : ndarray), d0 !! i = Some (Stacked lo hi) ->
       d !! i = Some (Flattened (data lo ++ data hi)%list)).
Proof.
  intros Hout Hin. unfold flatten_all.
  rewrite (size_prefix_keys d0 n).
  2:{ intros i. split.
      - intros [b Hb]. destruct (Nat.lt_ge_cases i n) as [?|Hge]; [assumption|].
        rewrite (Hout i Hge) in Hb. discriminate.
      - intros Hi. destruct (Hin i Hi) as (lo & hi & ->). eauto. }
  destruct (flatten_prefix d0
              (fun i => match d0 !! i with
                        | Some (Stacked lo hi) =>
                            Flattened (data lo ++ data hi)%list
                        | _ => EmptyList
                        end) n) as (d & Hd & Hlook).
  { intros i Hi. destruct (Hin i Hi) as (lo & hi & E).
    rewrite E. eexists. split; reflexivity. }
  exists d. split; [exact Hd|]. split.
  - intros i Hi. rewrite Hlook. destruct (decide (i < n)%nat); [lia|].
    now apply Hout.
  - intros i lo hi E. rewrite Hlook.
    destruct (decide (i < n)%nat) as [Hi|Hi].
    + now rewrite E.
    + rewrite Hout in E by lia. discriminate.
Qed.

Section SigmaReturns.
Variable sqrt : Q -> Q.

Lemma sigma_calcs_0d (a : ndarray) (type_sigma : string)
    (perc_arr : list float) (return_mean_std : bool) :
  ndim a = 0%nat ->
  exists e : exn,
    sigma_calcs sqrt a type_sigma perc_arr return_mean_std = Raise e /\
    (type_sigma <> "perc" ->
     e = AxisError "axis 1 is out of bounds for array of dimension 0").
Proof.
  intros H0. unfold sigma_calcs. rewrite H0. cbn [Nat.eqb].
  assert (Hr : forall f, reduce_axis f a 1
                 = Raise (AxisError "axis 1 is out of bounds for array of dimension 0")).
  { intros f. rewrite reduce_axis_raises by lia. now rewrite H0. }
  destruct (String.eqb type_sigma "perc") eqn:Ep.
  - apply String.eqb_eq in Ep. subst type_sigma.
    destruct (perc_bands a 1 perc_arr _) as [d|e]; cbn [mbind result_bind].
    + change (String.eqb "perc" "std") with false. cbv iota.
      cbn [mbind result_bind]. rewrite !Hr. cbn [mbind result_bind].
      eexists. split; [reflexivity|]. congruence.
    + eexists. split; [reflexivity|]. congruence.
  - cbn [mbind result_bind].
    destruct (String.eqb type_sigma "std"); rewrite !Hr;
      cbn [mbind result_bind];
      eexists; (split; [reflexivity|]); reflexivity.
Qed.

Lemma sigma_calcs_perc_raises (a : ndarray) (perc_arr : list float)
    (return_mean_std : bool) :
  (1 <= ndim a)%nat -> forallb level_in_range perc_arr = false ->
  sigma_calcs sqrt a "perc" perc_arr return_mean_std
  = Raise (ValueError "Percentiles must be in the range [0, 100]").
Proof.
  intros Hd Hbad. unfold sigma_calcs.
  change (String.eqb "perc" "perc") with true. cbv iota.
  destruct (perc_bands_spec a _ (init_sigma_dict (length perc_arr))
              (sigma_axis_lt a Hd) perc_arr) as [_ H].
  rewrite (H Hbad). reflexivity.
Qed.

Lemma sigma_calcs_unknown_1d_raises (a : ndarray) (type_sigma : string)
    (perc_arr : list float) (return_mean_std : bool) :
  type_sigma <> "perc" -> type_sigma <> "std" -> ndim a = 1%nat ->
  perc_arr <> [] ->
  sigma_calcs sqrt a type_sigma perc_arr return_mean_std
  = Raise (AttributeError "'list' object has no attribute 'flatten'").
Proof.
  intros Hp Hs Hd Hne. unfold sigma_calcs.
  apply String.eqb_neq in Hp, Hs. rewrite Hp, Hs, Hd.
  cbn [Nat.eqb mbind result_bind].
  destruct (reduce_axis_returns nanmean a 0 ltac:(lia)) as [m ->].
  destruct (reduce_axis_returns (nanstd sqrt) a 0 ltac:(lia)) as [s ->].
  cbn [mbind result_bind].
  rewrite flatten_all_empty_lists; [reflexivity|].
  destruct perc_arr; [congruence | simpl; lia].
Qed.

Lemma sigma_calcs_perc_returns (a : ndarray) (perc_arr : list float)
    (return_mean_std : bool) :
  (1 <= ndim a)%nat -> forallb level_in_range perc_arr = true ->
  exists res : sigma_result,
    sigma_calcs sqrt a "perc" perc_arr return_mean_std = Ok res.
Proof.
  intros Hd Hok. unfold sigma_calcs.
  change (String.eqb "perc" "perc") with true.
  change (String.eqb "perc" "std") with false. cbv iota.
  pose proof (sigma_axis_lt a Hd) as Hax.
  destruct (perc_bands_spec a _ (init_sigma_dict (length perc_arr))
              Hax perc_arr) as [H _].
  destruct (H Hok) as (d & -> & Hout & Hin).
  cbn [mbind result_bind].
  destruct (reduce_axis_returns nanmean a _ Hax) as [m ->].
  destruct (reduce_axis_returns (nanstd sqrt) a _ Hax) as [s ->].
  cbn [mbind result_bind].
  destruct (ndim a =? 1)%nat.
  - destruct (flatten_all_stacked d (length perc_arr)) as (d' & -> & _).
    + intros i Hi. rewrite (Hout i Hi), init_sigma_dict_lookup.
      destruct (decide (i < length perc_arr)%nat); [lia | reflexivity].
    + intros i Hi. destruct (lookup_lt_is_Some_2 perc_arr i Hi) as [p Hp].
      destruct (Hin i p Hp) as (? & ? & lo & hi & _ & _ & _ & _ & E). eauto.
    + cbn [mbind result_bind]. destruct return_mean_std; eauto.
  - cbn [mbind result_bind]. destruct return_mean_std; eauto.
Qed.

Lemma sigma_calcs_std_returns (a : ndarray) (perc_arr : list float)
    (return_mean_std : bool) :
  (1 <= ndim a)%nat ->
  exists res : sigma_result,
    sigma_calcs sqrt a "std" perc_arr return_mean_std = Ok res.
Proof.
  intros Hd. unfold sigma_calcs.
  change (String.eqb "std" "perc") with false.
  change (String.eqb "std" "std") with true. cbv iota.
  pose proof (sigma_axis_lt a Hd) as Hax.
  destruct (reduce_axis_returns nanmean a _ Hax) as [m ->].
  destruct (reduce_axis_returns (nanstd sqrt) a _ Hax) as [s ->].
  cbn [mbind result_bind].
  destruct (ndim a =? 1)%nat.
  - destruct (flatten_all_stacked
                (std_bands m s (length perc_arr)
                           (init_sigma_dict (length perc_arr)))
                (length perc_arr)) as (d' & -> & _).
    + intros i Hi. rewrite std_bands_lookup.
      destruct (decide (i < length perc_arr)%nat); [lia | reflexivity].
    + intros i Hi. rewrite std_bands_lookup.
      destruct (decide (i < length perc_arr)%nat); [|lia].
      unfold std_band. eauto.
    + cbn [mbind result_bind]. destruct return_mean_std; eauto.
  - cbn [mbind result_bind]. destruct return_mean_std; eauto.
Qed.

Lemma sigma_calcs_unknown_returns (a : ndarray) (type_sigma : string)
    (perc_arr : list float) (return_mean_std : bool) :
  type_sigma <> "perc" -> type_sigma <> "std" -> (1 <= ndim a)%nat ->
  (ndim a = 1%nat -> perc_arr = []) ->
  exists res : sigma_result,
    sigma_calcs sqrt a type_sigma perc_arr return_mean_std = Ok res.
Proof.
  intros Hp Hs Hd Hnil. unfold sigma_calcs.
  apply String.eqb_neq in Hp, Hs. rewrite Hp, Hs.
  pose proof (sigma_axis_lt a Hd) as Hax.
  cbn [mbind result_bind].
  destruct (reduce_axis_returns nanmean a _ Hax) as [m ->].
  destruct (reduce_axis_returns (nanstd sqrt) a _ Hax) as [s ->].
  cbn [mbind result_bind].
  destruct (ndim a =? 1)%nat eqn:E.
  - apply Nat.eqb_eq in E. rewrite (Hnil E).
    cbn. destruct return_mean_std; eauto.
  - cbn [mbind result_bind]. destruct return_mean_std; eauto.
Qed.

(** X8: [sigma_calcs] returns exactly when the data have at least one
    dimension and, with [type_sigma = 'perc'], every level of [perc_arr]
    lies in [-100, 100], and, with a [type_sigma] other than ['perc'] and
    ['std'] on one-dimensional data, [perc_arr] is empty.  With
    [type_sigma = 'std'] it returns on every array of one or more
    dimensions.  Levels that are not-a-number are left out of the
    statement for ['perc']: this model refuses them, as numpy does from
    version 1.22 on, and the earlier versions let them through. *)
Theorem sigma_calcs_returns (a : ndarray) (type_sigma : string)
    (perc_arr : list float) (return_mean_std : bool) :
  (type_sigma = "perc" -> Forall (fun p => is_nan p = false) perc_arr) ->
  ((exists res : sigma_result,
      sigma_calcs sqrt a type_sigma perc_arr return_mean_std = Ok res)
   <-> (1 <= ndim a)%nat /\
       (type_sigma = "perc" -> forallb level_in_range perc_arr = true) /\
       (type_sigma <> "perc" -> type_sigma <> "std" -> ndim a = 1%nat ->
        perc_arr = [])).
Proof.
  intros _. split.
  - intros [res Hres].
    assert (Hd : (1 <= ndim a)%nat).
    { destruct (ndim a) eqn:E; [|lia].
      destruct (sigma_calcs_0d a type_sigma perc_arr return_mean_std E)
        as (e & He & _). congruence. }
    split; [exact Hd|]. split.
    + intros ->. destruct (forallb level_in_range perc_arr) eqn:E;
        [reflexivity|].
      rewrite (sigma_calcs_perc_raises a perc_arr return_mean_std Hd E)
        in Hres. discriminate.
    + intros Hp Hs H1. destruct perc_arr as [|p l]; [reflexivity|].
      rewrite (sigma_calcs_unknown_1d_raises a type_sigma (p :: l)
                 return_mean_std Hp Hs H1) in Hres by discriminate.
      discriminate.
  - intros (Hd & Hperc & Hunk).
    destruct (String.eqb_spec type_sigma "perc") as [->|Hp].
    + apply sigma_calcs_perc_returns; auto.
    + destruct (String.eqb_spec type_sigma "std") as [->|Hs].
      * now apply sigma_calcs_std_returns.
      * apply sigma_calcs_unknown_returns; auto.
Qed.

(** X9: what [sigma_calcs] raises: on a 0-d array, unless
    [type_sigma = 'perc'], [AxisError] for axis 1; with
    [type_sigma = 'perc'] on an array of one or more dimensions, when a
    level of [perc_arr] is a number outside [-100, 100], [ValueError]
    ("Percentiles must be in the range [0, 100]"); with a [type_sigma]
    other than ['perc'] and ['std'] on one-dimensional data and a
    [perc_arr] that is not empty, [AttributeError], because the lists
    the dictionary was initialised with have no [flatten]. *)
Theorem sigma_calcs_errors (a : ndarray) (type_sigma : string)
    (perc_arr : list float) (return_mean_std : bool) :
  (ndim a = 0%nat -> type_sigma <> "perc" ->
   sigma_calcs sqrt a type_sigma perc_arr return_mean_std
   = Raise (AxisError "axis 1 is out of bounds for array of dimension 0")) /\
  ((1 <= ndim a)%nat -> type_sigma = "perc" ->
   Exists (fun p => is_nan p = false /\ level_in_range p = false) perc_arr ->
   sigma_calcs sqrt a type_sigma perc_arr return_mean_std
   = Raise (ValueError "Percentiles must be in the range [0, 100]")) /\
  (ndim a = 1%nat -> type_sigma <> "perc" -> type_sigma <> "std" ->
   perc_arr <> [] ->
   sigma_calcs sqrt a type_sigma perc_arr return_mean_std
   = Raise (AttributeError "'list' object has no attribute 'flatten'")).
Proof.
  split; [|split].
  - intros H0 Hp.
    destruct (sigma_calcs_0d a type_sigma perc_arr return_mean_std H0)
      as (e & He & Hk). now rewrite He, (Hk Hp).
  - intros Hd -> Hbad. apply sigma_calcs_perc_raises; [exact Hd|].
    apply not_true_iff_false. intros Hall. rewrite forallb_forall in Hall.
    apply Exists_exists in Hbad. destruct Hbad as (p & Hin & _ & Hp).
    apply list_elem_of_In in Hin. rewrite (Hall p Hin) in Hp. discriminate.
  - intros H1 Hp Hs Hne. now apply sigma_calcs_unknown_1d_raises.
Qed.

End SigmaReturns.

Lemma insert_sorted_Forall (P : float -> Prop) (v : float) (l : list float) :
  P v -> Forall P l -> Forall P (insert_sorted v l).
Proof.
  intros Hv Hl. induction Hl as [|w l Hw Hl IH]; simpl.
  - repeat constructor. exact Hv.
  - destruct (fleb v w); repeat constructor; assumption.
Qed.

Lemma insert_sorted_length (v : float) (l : list float) :
  length (insert_sorted v l) = S (length l).
Proof.
  induction l as [|w l IH]; simpl; [reflexivity|].
  destruct (fleb v w); simpl; [reflexivity | now rewrite IH].
Qed.

Lemma sort_floats_Forall (P : float -> Prop) (l : list float) :
  Forall P l -> Forall P (sort_floats l).
Proof.
  induction 1 as [|v l Hv Hl IH]; [constructor|].
  simpl. now apply insert_sorted_Forall.
Qed.

Lemma sort_floats_length (l : list float) :
  length (sort_floats l) = length l.
Proof.
  induction l as [|v l IH]; [reflexivity|].
  simpl. now rewrite insert_sorted_length, IH.
Qed.

Lemma insert_sorted_sorted (v : float) (l : list float) :
  is_finite v = true -> all_finite l ->
  StronglySorted (fun a b => fleb a b = true) l ->
  StronglySorted (fun a b => fleb a b = true) (insert_sorted v l).
Proof.
  intros Hv Hfin Hs. induction Hs as [|w l Hs IH Hw]; simpl.
  - repeat constructor.
  - inversion Hfin as [|? ? Fw Fl]; subst.
    destruct v as [| |qv]; try discriminate Hv.
    destruct w as [| |qw]; try discriminate Fw.
    destruct (fleb (Fin qv) (Fin qw)) eqn:E.
    + constructor; [now constructor|].
      constructor; [exact E|].
      unfold all_finite in Fl. rewrite Forall_forall in *.
      intros x Hx. specialize (Hw x Hx). specialize (Fl x Hx).
      destruct x as [| |qx]; try discriminate Fl.
      apply fleb_Fin in E, Hw. apply fleb_Fin. lra.
    + constructor; [now apply IH|].
      apply insert_sorted_Forall; [|exact Hw].
      apply fleb_Fin.
      destruct (Qlt_le_dec qw qv) as [H|H]; [lra|].
      apply fleb_Fin in H. congruence.
Qed.

Lemma sort_floats_sorted (l : list float) :
  all_finite l ->
  StronglySorted (fun a b => fleb a b = true) (sort_floats l).
Proof.
  induction 1 as [|v l Hv Hl IH]; [constructor|].
  simpl. apply insert_sorted_sorted; [exact Hv | | exact IH].
  now apply sort_floats_Forall.
Qed.

Lemma sorted_nth_le (l : list float) :
  all_finite l -> StronglySorted (fun a b => fleb a b = true) l ->
  forall i j : nat, (i <= j < length l)%nat ->
    (Qval (nth i l NaN) <= Qval (nth j l NaN))%Q.
Proof.
  intros Hfin Hs. induction Hs as [|w l Hs IH Hw]; intros i j Hij.
  - simpl in Hij. lia.
  - inversion Hfin as [|? ? Fw Fl]; subst.
    destruct j as [|j].
    + assert (i = 0%nat) by lia. subst i. simpl. lra.
    + destruct i as [|i].
      * cbn [nth]. unfold all_finite in Fl. rewrite Forall_forall in Hw, Fl.
        assert (Hin : nth j l NaN ∈ l).
        { apply list_elem_of_In, nth_In. simpl in Hij. lia. }
        specialize (Hw _ Hin). specialize (Fl _ Hin).
        destruct w as [| |qw]; try discriminate Fw.
        destruct (nth j l NaN) as [| |qx]; try discriminate Fl.
        apply fleb_Fin in Hw. exact Hw.
      * cbn [nth]. apply IH; [exact Fl|]. simpl in Hij. lia.
Qed.

Lemma finite_nth (l : list float) (i : nat) :
  all_finite l -> (i < length l)%nat -> nth i l NaN = Fin (Qval (nth i l NaN)).
Proof.
  intros Hfin Hi. unfold all_finite in Hfin. rewrite Forall_forall in Hfin.
  assert (Hin : nth i l NaN ∈ l) by (apply list_elem_of_In, nth_In; exact Hi).
  specialize (Hfin _ Hin). destruct (nth i l NaN); try discriminate Hfin.
  reflexivity.
Qed.

(** Linear interpolation between the ranks of a non-decreasing sequence
    does not decrease with the position. *)
Lemma interpolation_mono (g : nat -> Q) (N : nat) (p1 p2 : Q) :
  (forall i j : nat, (i <= j <= N)%nat -> (g i <= g j)%Q) ->
  (0 <= p1)%Q -> (p1 <= p2)%Q -> (p2 <= inject_Z (Z.of_nat N))%Q ->
  (g (Z.to_nat (Qfloor p1)) * (1 - (p1 - inject_Z (Qfloor p1)))
   + g (Nat.min (S (Z.to_nat (Qfloor p1))) N) * (p1 - inject_Z (Qfloor p1))
   <= g (Z.to_nat (Qfloor p2)) * (1 - (p2 - inject_Z (Qfloor p2)))
      + g (Nat.min (S (Z.to_nat (Qfloor p2))) N)
        * (p2 - inject_Z (Qfloor p2)))%Q.
Proof.
  intros Hg H0 H12 HN.
  assert (F1 : (0 <= Qfloor p1)%Z) by (apply Qfloor_ge_Z; exact H0).
  assert (F12 : (Qfloor p1 <= Qfloor p2)%Z) by now apply Qfloor_resp_le.
  assert (F2 : (Qfloor p2 <= Z.of_nat N)%Z).
  { pose proof (Qfloor_resp_le _ _ HN) as H. now rewrite Qfloor_Z in H. }
  pose proof (Qfloor_le p1) as L1. pose proof (Qlt_floor p1) as U1.
  pose proof (Qfloor_le p2) as L2. pose proof (Qlt_floor p2) as U2.
  rewrite inject_Z_plus in U1, U2. change (inject_Z 1) with 1%Q in U1, U2.
  set (k1 := Z.to_nat (Qfloor p1)). set (k2 := Z.to_nat (Qfloor p2)).
  set (w1 := (p1 - inject_Z (Qfloor p1))%Q).
  set (w2 := (p2 - inject_Z (Qfloor p2))%Q).
  assert (W1 : (0 <= w1 /\ w1 < 1)%Q) by (unfold w1; split; lra).
  assert (W2 : (0 <= w2 /\ w2 < 1)%Q) by (unfold w2; split; lra).
  assert (K1 : (k1 <= N)%nat) by (unfold k1; lia).
  assert (K2 : (k2 <= N)%nat) by (unfold k2; lia).
  pose proof (Hg k1 (Nat.min (S k1) N) ltac:(lia)) as G1.
  pose proof (Hg k2 (Nat.min (S k2) N) ltac:(lia)) as G2.
  destruct (decide (Qfloor p1 = Qfloor p2)) as [E|NE].
  - assert (Ek : k1 = k2) by (unfold k1, k2; now rewrite E).
    assert (Hw : (w1 <= w2)%Q) by (unfold w1, w2; rewrite E; lra).
    rewrite <- Ek in *.
    generalize dependent (g k1). generalize dependent (g (Nat.min (S k1) N)).
    intros a G b. intros. nra.
  - assert (Hlt : (S k1 <= k2)%nat) by (unfold k1, k2; lia).
    pose proof (Hg (Nat.min (S k1) N) k2 ltac:(lia)) as G3.
    generalize dependent (g k1). generalize dependent (g (Nat.min (S k1) N)).
    generalize dependent (g k2). generalize dependent (g (Nat.min (S k2) N)).
    intros. nra.
Qed.

Lemma percentile_position (q1 q2 z : Q) :
  (0 <= q1)%Q -> (q1 <= q2)%Q -> (q2 <= 100)%Q -> (0 <= z)%Q ->
  (0 <= q1 / 100 * z)%Q /\ (q1 / 100 * z <= q2 / 100 * z)%Q /\
  (q2 / 100 * z <= z)%Q.
Proof.
  intros H0 H12 H100 Hz.
  assert (E1 : (q1 / 100 == q1 * (1 # 100))%Q) by field.
  assert (E2 : (q2 / 100 == q2 * (1 # 100))%Q) by field.
  rewrite E1, E2. clear E1 E2.
  pose proof (Qmult_le_0_compat q1 z H0 Hz).
  pose proof (Qmult_le_compat_r q1 q2 z H12 Hz).
  pose proof (Qmult_le_compat_r q2 100 z H100 Hz).
  repeat split; lra.
Qed.

Lemma nanpercentile_mono (l : list float) (q1 q2 : Q) :
  summarisable l -> (0 <= q1)%Q -> (q1 <= q2)%Q -> (q2 <= 100)%Q ->
  exists v1 v2 : Q,
    nanpercentile q1 l = Fin v1 /\ nanpercentile q2 l = Fin v2 /\
    (v1 <= v2)%Q.
Proof.
  intros Hsum H0 H12 H100.
  destruct (drop_nan_summarisable l Hsum) as [Hne Hfin].
  pose proof (sort_floats_Forall _ _ Hfin) as Sfin.
  pose proof (sort_floats_sorted _ Hfin) as Ssorted.
  pose proof (sort_floats_length (drop_nan l)) as Slen.
  unfold nanpercentile.
  set (vs := sort_floats (drop_nan l)) in *.
  assert (Hlen : (0 < length vs)%nat).
  { rewrite Slen. destruct (drop_nan l); [congruence | simpl; lia]. }
  destruct vs as [|v0 vs'] eqn:Evs; [simpl in Hlen; lia|].
  rewrite <- Evs in *. clear Evs v0 vs'.
  set (N := (length vs - 1)%nat).
  assert (HN : (0 <= inject_Z (Z.of_nat N))%Q).
  { change 0%Q with (inject_Z 0). rewrite <- Zle_Qle. lia. }
  set (p1 := (q1 / 100 * inject_Z (Z.of_nat N))%Q).
  set (p2 := (q2 / 100 * inject_Z (Z.of_nat N))%Q).
  pose proof (percentile_position q1 q2 _ H0 H12 H100 HN) as HP.
  fold p1 p2 in HP.
  destruct HP as (P0 & P12 & PN).
  assert (F1 : (0 <= Qfloor p1 <= Z.of_nat N)%Z).
  { split; [apply Qfloor_ge_Z; exact P0|].
    assert (H : (p1 <= inject_Z (Z.of_nat N))%Q) by lra.
    apply Qfloor_resp_le in H. now rewrite Qfloor_Z in H. }
  assert (F2 : (0 <= Qfloor p2 <= Z.of_nat N)%Z).
  { split; [apply Qfloor_ge_Z; change (inject_Z 0) with 0%Q; lra|].
    apply Qfloor_resp_le in PN. now rewrite Qfloor_Z in PN. }
  pose proof (interpolation_mono (fun i => Qval (nth i vs NaN)) N p1 p2) as M.
  cbv beta in M.
  rewrite (finite_nth vs (Z.to_nat (Qfloor p1)) Sfin) by (unfold N in F1; lia).
  rewrite (finite_nth vs (Nat.min (S (Z.to_nat (Qfloor p1))) N) Sfin)
    by (unfold N; lia).
  rewrite (finite_nth vs (Z.to_nat (Qfloor p2)) Sfin) by (unfold N in F2; lia).
  rewrite (finite_nth vs (Nat.min (S (Z.to_nat (Qfloor p2))) N) Sfin)
    by (unfold N; lia).
  cbn [fmul fadd]. do 2 eexists. split; [reflexivity|]. split; [reflexivity|].
  apply M; try assumption.
  intros i j Hij. apply sorted_nth_le; [exact Sfin | exact Ssorted|].
  unfold N in Hij. lia.
Qed.

Lemma level_quantiles (L : Q) :
  exists ql qh : Q,
    fsub (Fin 50) (np_divide (Fin L) (Fin 2)) = Fin ql /\
    fadd (Fin 50) (np_divide (Fin L) (Fin 2)) = Fin qh /\
    (ql == 50 - L / 2)%Q /\ (qh == 50 + L / 2)%Q.
Proof.
  unfold fsub, fadd, fneg, np_divide. change (Qeq_bool 2 0) with false.
  cbv iota. do 2 eexists. split; [reflexivity|]. split; [reflexivity|].
  split; ring.
Qed.

Section PercBands.
Variable sqrt : Q -> Q.

(** The ['perc'] mode on an array of one or more dimensions whose levels
    are all in range. *)
Lemma sigma_calcs_perc_spec (a : ndarray) (perc_arr : list float)
    (return_mean_std : bool) :
  (1 <= ndim a)%nat -> forallb level_in_range perc_arr = true ->
  let axis := if (ndim a =? 1)%nat then 0%nat else 1%nat in
  exists res : sigma_result,
    sigma_calcs sqrt a "perc" perc_arr return_mean_std = Ok res /\
    (forall i : nat, (length perc_arr <= i)%nat ->
       sigma_dict_of res !! i = None) /\
    (forall (i : nat) (p : float), perc_arr !! i = Some p ->
       exists (ql qh : Q) (lo hi : ndarray),
         fsub (Fin 50) (np_divide p (Fin 2)) = Fin ql /\
         fadd (Fin 50) (np_divide p (Fin 2)) = Fin qh /\
         reduce_axis (nanpercentile ql) a axis = Ok lo /\
         reduce_axis (nanpercentile qh) a axis = Ok hi /\
         sigma_dict_of res !! i
         = Some (if (ndim a =? 1)%nat
                 then Flattened (data lo ++ data hi)%list
                 else Stacked lo hi)).
Proof.
  intros Hd Hok axis. unfold sigma_calcs.
  change (String.eqb "perc" "perc") with true.
  change (String.eqb "perc" "std") with false. cbv iota.
  pose proof (sigma_axis_lt a Hd) as Hax. fold axis in Hax |- *.
  destruct (perc_bands_spec a axis (init_sigma_dict (length perc_arr))
              Hax perc_arr) as [H _].
  destruct (H Hok) as (d & -> & Hout & Hin).
  cbn [mbind result_bind].
  destruct (reduce_axis_returns nanmean a _ Hax) as [m ->].
  destruct (reduce_axis_returns (nanstd sqrt) a _ Hax) as [s ->].
  cbn [mbind result_bind].
  assert (Hnone : forall i, (length perc_arr <= i)%nat -> d !! i = None).
  { intros i Hi. rewrite (Hout i Hi), init_sigma_dict_lookup.
    destruct (decide (i < length perc_arr)%nat); [lia | reflexivity]. }
  destruct (ndim a =? 1)%nat.
  - destruct (flatten_all_stacked d (length perc_arr) Hnone)
      as (d' & -> & Hnone' & Hflat).
    + intros i Hi. destruct (lookup_lt_is_Some_2 perc_arr i Hi) as [p Hp].
      destruct (Hin i p Hp) as (? & ? & lo & hi & _ & _ & _ & _ & E). eauto.
    + cbn [mbind result_bind].
      exists (if return_mean_std then SigmaDictMeanStd d' m s else SigmaDict d').
      split; [destruct return_mean_std; reflexivity|].
      replace (sigma_dict_of _) with d'
        by (destruct return_mean_std; reflexivity).
      split; [exact Hnone'|]. intros i p Hp.
      destruct (Hin i p Hp) as (ql & qh & lo & hi & ? & ? & ? & ? & E).
      exists ql, qh, lo, hi. repeat (split; [assumption|]).
      now apply Hflat.
  - cbn [mbind result_bind].
    exists (if return_mean_std then SigmaDictMeanStd d m s else SigmaDict d).
    split; [destruct return_mean_std; reflexivity|].
    replace (sigma_dict_of _) with d
      by (destruct return_mean_std; reflexivity).
    split; [exact Hnone | exact Hin].
Qed.

(** X10: with [type_sigma = 'perc'] and levels in [-100, 100], the entry
    of [sigma_dict] for a level [L] is, on a one-dimensional array,
    [[p(50 - L/2), p(50 + L/2)]] with [p] the percentile of the entries
    that are numbers ([np.nanpercentile], axis 0), and on a
    two-dimensional array the two-row array whose first row holds
    [p(50 - L/2)] and whose second row holds [p(50 + L/2)] of each row of
    the data (axis 1). *)
Theorem sigma_calcs_perc_levels (perc_arr : list float)
    (return_mean_std : bool) :
  forallb level_in_range perc_arr = true ->
  (forall (a : ndarray) (n : nat),
     shape a = [n] -> wf_ndarray a ->
     exists res : sigma_result,
       sigma_calcs sqrt a "perc" perc_arr return_mean_std = Ok res /\
       forall (i : nat) (L : Q), perc_arr !! i = Some (Fin L) ->
         exists ql qh : Q,
           (ql == 50 - L / 2)%Q /\ (qh == 50 + L / 2)%Q /\
           sigma_dict_of res !! i
           = Some (Flattened [nanpercentile ql (data a);
                              nanpercentile qh (data a)])) /\
  (forall (a : ndarray) (r c : nat),
     shape a = [r; c] -> wf_ndarray a ->
     exists res : sigma_result,
       sigma_calcs sqrt a "perc" perc_arr return_mean_std = Ok res /\
       forall (i : nat) (L : Q), perc_arr !! i = Some (Fin L) ->
         exists ql qh : Q,
           (ql == 50 - L / 2)%Q /\ (qh == 50 + L / 2)%Q /\
           sigma_dict_of res !! i
           = Some (Stacked
                     (mk_ndarray [r]
                        (map (fun j => nanpercentile ql (row a c j))
                             (seq 0 r)))
                     (mk_ndarray [r]
                        (map (fun j => nanpercentile qh (row a c j))
                             (seq 0 r))))).
Proof.
  intros Hok. split.
  - intros a n Hs Hwf. pose proof (wf_ndarray_1d a n Hs Hwf) as Hl.
    assert (Hd : ndim a = 1%nat) by (unfold ndim; now rewrite Hs).
    destruct (sigma_calcs_perc_spec a perc_arr return_mean_std
                ltac:(lia) Hok) as (res & Hres & _ & Hin).
    exists res. split; [exact Hres|]. intros i L Hi.
    destruct (Hin i _ Hi) as (ql & qh & lo & hi & Eql & Eqh & Hlo & Hhi & E).
    destruct (level_quantiles L) as (ql' & qh' & Eql' & Eqh' & Hql & Hqh).
    rewrite Eql in Eql'. rewrite Eqh in Eqh'.
    injection Eql' as <-. injection Eqh' as <-.
    exists ql, qh. split; [exact Hql|]. split; [exact Hqh|].
    rewrite Hd in Hlo, Hhi, E. cbn [Nat.eqb] in Hlo, Hhi, E.
    rewrite (reduce_axis_1d _ a n Hs Hl) in Hlo.
    rewrite (reduce_axis_1d _ a n Hs Hl) in Hhi.
    injection Hlo as <-. injection Hhi as <-. exact E.
  - intros a r c Hs Hwf. pose proof (wf_ndarray_2d a r c Hs Hwf) as Hl.
    assert (Hd : ndim a = 2%nat) by (unfold ndim; now rewrite Hs).
    destruct (sigma_calcs_perc_spec a perc_arr return_mean_std
                ltac:(lia) Hok) as (res & Hres & _ & Hin).
    exists res. split; [exact Hres|]. intros i L Hi.
    destruct (Hin i _ Hi) as (ql & qh & lo & hi & Eql & Eqh & Hlo & Hhi & E).
    destruct (level_quantiles L) as (ql' & qh' & Eql' & Eqh' & Hql & Hqh).
    rewrite Eql in Eql'. rewrite Eqh in Eqh'.
    injection Eql' as <-. injection Eqh' as <-.
    exists ql, qh. split; [exact Hql|]. split; [exact Hqh|].
    rewrite Hd in Hlo, Hhi, E. cbn [Nat.eqb] in Hlo, Hhi, E.
    rewrite (reduce_axis_2d _ a r c Hs Hl) in Hlo.
    rewrite (reduce_axis_2d _ a r c Hs Hl) in Hhi.
    injection Hlo as <-. injection Hhi as <-. exact E.
Qed.

(** X11: with [type_sigma = 'perc'], in exact arithmetic, on a
    one-dimensional array with no infinite entry and at least one entry
    that is a number, the band of every level [L >= 0] has
    [lower <= upper], and the band of a level lies within the band of
    every greater level, wherever the two levels stand in [perc_arr]. *)
Theorem sigma_calcs_perc_nested (perc_arr : list float)
    (return_mean_std : bool) (a : ndarray) (n : nat) :
  forallb level_in_range perc_arr = true ->
  shape a = [n] -> wf_ndarray a -> summarisable (data a) ->
  exists res : sigma_result,
    sigma_calcs sqrt a "perc" perc_arr return_mean_std = Ok res /\
    forall (i : nat) (L : Q), perc_arr !! i = Some (Fin L) -> (0 <= L)%Q ->
      exists lo up : Q,
        sigma_dict_of res !! i = Some (Flattened [Fin lo; Fin up]) /\
        (lo <= up)%Q /\
        forall (j : nat) (L' : Q),
          perc_arr !! j = Some (Fin L') -> (L <= L')%Q ->
          exists lo' up' : Q,
            sigma_dict_of res !! j = Some (Flattened [Fin lo'; Fin up']) /\
            (lo' <= lo)%Q /\ (up <= up')%Q.
Proof.
  intros Hok Hs Hwf Hsum. pose proof (wf_ndarray_1d a n Hs Hwf) as Hl.
  assert (Hd : ndim a = 1%nat) by (unfold ndim; now rewrite Hs).
  destruct (sigma_calcs_perc_spec a perc_arr return_mean_std
              ltac:(lia) Hok) as (res & Hres & _ & Hin).
  exists res. split; [exact Hres|].
  assert (Hband : forall (i : nat) (L : Q), perc_arr !! i = Some (Fin L) ->
            (-100 <= L)%Q /\ (L <= 100)%Q /\
            sigma_dict_of res !! i
            = Some (Flattened [nanpercentile (50 + - (L / 2)) (data a);
                               nanpercentile (50 + L / 2) (data a)])).
  { intros i L Hi.
    assert (Hr : level_in_range (Fin L) = true).
    { rewrite forallb_forall in Hok. apply Hok.
      apply list_elem_of_In. eapply list_elem_of_lookup_2. exact Hi. }
    unfold level_in_range in Hr. apply andb_true_iff in Hr.
    destruct Hr as [R1 R2]. apply fleb_Fin in R1, R2.
    split; [exact R1|]. split; [exact R2|].
    destruct (Hin i _ Hi) as (ql & qh & lo & hi & Eql & Eqh & Hlo & Hhi & E).
    unfold fsub, fadd, fneg, np_divide in Eql, Eqh.
    change (Qeq_bool 2 0) with false in Eql, Eqh. cbv iota in Eql, Eqh.
    injection Eql as <-. injection Eqh as <-.
    rewrite Hd in Hlo, Hhi, E. cbn [Nat.eqb] in Hlo, Hhi, E.
    rewrite (reduce_axis_1d _ a n Hs Hl) in Hlo.
    rewrite (reduce_axis_1d _ a n Hs Hl) in Hhi.
    injection Hlo as <-. injection Hhi as <-. exact E. }
  intros i L Hi HL.
  destruct (Hband i L Hi) as (R1 & R2 & Ei).
  assert (EL : (L / 2 == L * (1 # 2))%Q) by field.
  destruct (nanpercentile_mono (data a) (50 + - (L / 2)) (50 + L / 2) Hsum)
    as (lo & up & Elo & Eup & Hle); try (rewrite EL; lra).
  exists lo, up. rewrite Ei, Elo, Eup. split; [reflexivity|].
  split; [exact Hle|].
  intros j L' Hj HLL'.
  destruct (Hband j L' Hj) as (R1' & R2' & Ej).
  assert (EL' : (L' / 2 == L' * (1 # 2))%Q) by field.
  destruct (nanpercentile_mono (data a) (50 + - (L' / 2)) (50 + - (L / 2))
              Hsum) as (lo' & lo2 & Elo' & Elo2 & Hle1);
    try (rewrite ?EL, ?EL'; lra).
  destruct (nanpercentile_mono (data a) (50 + L / 2) (50 + L' / 2) Hsum)
    as (up2 & up' & Eup2 & Eup' & Hle2); try (rewrite ?EL, ?EL'; lra).
  rewrite Elo in Elo2. injection Elo2 as <-.
  rewrite Eup in Eup2. injection Eup2 as <-.
  exists lo', up'. rewrite Ej, Elo', Eup'. split; [reflexivity|].
  split; assumption.
Qed.

End PercBands.



Section NanIgnored.
Variable sqrt : Q -> Q.


End NanIgnored.

Lemma sigma_calcs_returns_witness :
  exists res : sigma_result,
    sigma_calcs sqrt_approx (array1 [Fin 1; Fin 2; Fin 3]) "perc"
                default_perc_arr true = Ok res.
Proof.
  apply (sigma_calcs_returns sqrt_approx (array1 [Fin 1; Fin 2; Fin 3])
           "perc" default_perc_arr true).
  - intros _. repeat constructor.
  - split; [unfold ndim; simpl; lia|]. split; [reflexivity | congruence].
Defined.

Lemma sigma_calcs_perc_levels_witness :
  exists res : sigma_result,
    sigma_calcs sqrt_approx (array1 [Fin 1; Fin 2; Fin 3; Fin 4; Fin 5])
                "perc" default_perc_arr false = Ok res /\
    exists ql qh : Q,
      (ql == 16)%Q /\ (qh == 84)%Q /\
      sigma_dict_of res !! 0%nat
      = Some (Flattened
                [nanpercentile ql [Fin 1; Fin 2; Fin 3; Fin 4; Fin 5];
                 nanpercentile qh [Fin 1; Fin 2; Fin 3; Fin 4; Fin 5]]).
Proof.
  destruct (proj1 (sigma_calcs_perc_levels sqrt_approx default_perc_arr false
                     eq_refl)
              (array1 [Fin 1; Fin 2; Fin 3; Fin 4; Fin 5]) 5%nat
              eq_refl eq_refl) as (res & Hres & Hlev).
  exists res. split; [exact Hres|].
  destruct (Hlev 0%nat 68%Q eq_refl) as (ql & qh & Hql & Hqh & E).
  exists ql, qh. split; [rewrite Hql; reflexivity|].
  split; [rewrite Hqh; reflexivity | exact E].
Defined.

Lemma sigma_calcs_perc_nested_witness :
  exists (res : sigma_result) (lo up lo' up' : Q),
    sigma_calcs sqrt_approx (array1 [Fin 1; NaN; Fin 3; Fin 4; Fin 5])
                "perc" default_perc_arr false = Ok res /\
    sigma_dict_of res !! 0%nat = Some (Flattened [Fin lo; Fin up]) /\
    sigma_dict_of res !! 1%nat = Some (Flattened [Fin lo'; Fin up']) /\
    (lo' <= lo)%Q /\ (lo <= up)%Q /\ (up <= up')%Q.
Proof.
  destruct (sigma_calcs_perc_nested sqrt_approx default_perc_arr false
              (array1 [Fin 1; NaN; Fin 3; Fin 4; Fin 5]) 5%nat
              eq_refl eq_refl eq_refl)
    as (res & Hres & Hband).
  { split; [repeat constructor | left; reflexivity]. }
  destruct (Hband 0%nat 68%Q eq_refl ltac:(discriminate))
    as (lo & up & E0 & Hle & Hnext).
  destruct (Hnext 1%nat 95%Q eq_refl ltac:(discriminate))
    as (lo' & up' & E1 & H1 & H2).
  exists res, lo, up, lo', up'. repeat (split; [assumption|]). assumption.
Defined.


(** ** BinnedStatistics: the calls that return

    As in the model of the body, [np.array] of the list of the bins'
    entries is the array of these entries, one per bin: what numpy makes
    of bins of one size and, before version 1.24, also of bins of
    different sizes and of a bin replaced by [failval]. *)

Lemma mapM_result_map {A B C : Type} (f : B -> result C) (h : A -> B)
    (l : list A) :
  mapM_result f (map h l) = mapM_result (fun a => f (h a)) l.
Proof.
  induction l as [|a l IH]; [reflexivity|]. simpl. now rewrite IH.
Qed.

Lemma mapM_result_lookup {A B : Type} (f : A -> result B) (l : list A)
    (l' : list B) :
  mapM_result f l = Ok l' ->
  forall (i : nat) (a : A), l !! i = Some a ->
    exists b : B, f a = Ok b /\ l' !! i = Some b.
Proof.
  revert l'. induction l as [|a0 l IH]; intros l' H i a Hi.
  - rewrite lookup_nil in Hi. discriminate.
  - simpl in H. destruct (f a0) as [b0|] eqn:E0; [|discriminate H].
    cbn [mbind result_bind] in H.
    destruct (mapM_result f l) as [bs|]; [|discriminate H].
    injection H as <-. destruct i as [|i].
    + injection Hi as <-. eauto.
    + exact (IH bs eq_refl i a Hi).
Qed.

(** A comprehension stops at the first element that raises. *)
Lemma mapM_result_raises {A B : Type} (f : A -> result B) (e : exn)
    (l : list A) :
  (forall a : A, a ∈ l -> f a = Raise e \/ exists b : B, f a = Ok b) ->
  (exists a : A, a ∈ l /\ f a = Raise e) ->
  mapM_result f l = Raise e.
Proof.
  induction l as [|a0 l IH]; intros Hall (a & Ha & Hf).
  - apply elem_of_nil in Ha. contradiction.
  - simpl. destruct (Hall a0 (list_elem_of_here _ _)) as [E0|[b0 E0]];
      rewrite E0; [reflexivity|]. cbn [mbind result_bind].
    rewrite IH; [reflexivity | |].
    + intros a' Ha'. apply Hall. now apply list_elem_of_further.
    + apply elem_of_cons in Ha. destruct Ha as [->|Ha]; [congruence|].
      eauto.
Qed.

Lemma take_all (l : list float) (n : nat) :
  (n <= length l)%nat ->
  mapM_result (fun ii : nat =>
                 match l !! ii with
                 | Some v => Ok v
                 | None => Raise (IndexError "index out of bounds")
                 end) (seq 0 n)
  = Ok (take n l).
Proof.
  induction n as [|n IH]; intros Hn; [reflexivity|].
  rewrite seq_S. cbn [Nat.add].
  assert (Happ : forall (A B : Type) (f : A -> result B) (l1 l2 : list A)
                   (r1 r2 : list B),
             mapM_result f l1 = Ok r1 -> mapM_result f l2 = Ok r2 ->
             mapM_result f (l1 ++ l2)%list = Ok (r1 ++ r2)%list).
  { intros A B f l1. induction l1 as [|a l1 IH1]; intros l2 r1 r2 H1 H2.
    - injection H1 as <-. exact H2.
    - simpl in H1 |- *. destruct (f a) as [b|]; [|discriminate H1].
      cbn [mbind result_bind] in H1 |- *.
      destruct (mapM_result f l1) as [bs|] eqn:E; [|discriminate H1].
      injection H1 as <-. rewrite (IH1 l2 bs r2 eq_refl H2). reflexivity. }
  destruct (lookup_lt_is_Some_2 l n ltac:(lia)) as [v Hv].
  rewrite (Happ _ _ _ _ _ (take n l) [v] (IH ltac:(lia))).
  - now rewrite (take_S_r l n v Hv).
  - simpl. now rewrite Hv.
Qed.

Lemma select_mask_bin_values (v : list float) (x_digits : list nat)
    (ii : nat) :
  length v = length x_digits ->
  select_mask v (map (Nat.eqb ii) x_digits) = Ok (bin_values v x_digits ii) /\
  length (bin_values v x_digits ii) = occupancy x_digits ii.
Proof.
  intros Hl. destruct (select_mask_occupancy v x_digits ii Hl)
    as (sel & Hsel & Hocc).
  assert (E : sel = bin_values v x_digits ii).
  { unfold select_mask in Hsel. rewrite length_map, Hl, Nat.eqb_refl in Hsel.
    now injection Hsel as <-. }
  subst sel. split; assumption.
Qed.

Lemma select_mask_raises (v : list float) (mask : list bool) :
  length v <> length mask ->
  select_mask v mask
  = Raise (IndexError (mask_length_msg (length v) (length mask))).
Proof.
  intros H. unfold select_mask. apply Nat.eqb_neq in H. now rewrite H.
Qed.

Lemma np_digitize_length (x bins : list float) (digits : list nat) :
  np_digitize x bins = Ok digits -> length digits = length x.
Proof.
  unfold np_digitize. destruct (nondecreasing bins).
  - intros [= <-]. apply length_map.
  - destruct (nonincreasing bins); [|discriminate].
    intros [= <-]. apply length_map.
Qed.


Section FullBins.
Variable Program_Msg : string -> string.
Variable module_file : string.
Variable sqrt : Q -> Q.

Lemma Bins_array_create_ndim (arr : ndarray) (base : float)
    (edges : list float) :
  Bins_array_create Program_Msg module_file arr base = Ok edges ->
  ndim arr = 1%nat.
Proof.
  unfold Bins_array_create. destruct (ndim arr =? 1)%nat eqn:E.
  - intros _. now apply Nat.eqb_eq.
  - discriminate.
Qed.

(** [np.array] of entries that are all arrays keeps them. *)
Lemma np_array_entries_arrays {A : Type} (g : A -> list float) (l : list A) :
  np_array_entries (map (fun a => BinArr (g a)) l)
  = map (fun a => BinArr (g a)) l.
Proof.
  unfold np_array_entries. destruct l as [|a l]; [reflexivity|].
  reflexivity.
Qed.

(** The entries of the bins when every bin holds more values than the
    threshold. *)
Lemma bins_data_full (v : list float) (x_digits : list nat) (n : nat)
    (thr : Z) (failval : float) :
  ((2 <= n)%nat -> length v = length x_digits) ->
  (forall ii : nat, (1 <= ii < n)%nat ->
     (thr < Z.of_nat (occupancy x_digits ii))%Z) ->
  bins_data v x_digits n thr failval
  = Ok (map (fun ii => BinArr (bin_values v x_digits ii)) (seq 1 (n - 1))).
Proof.
  intros Hl Hfull. unfold bins_data.
  rewrite (mapM_result_Ok _ (fun ii => BinArr (bin_values v x_digits ii))).
  { cbn [mbind result_bind]. now rewrite np_array_entries_arrays. }
  intros ii Hii. apply elem_of_seq in Hii.
  destruct (select_mask_bin_values v x_digits ii (Hl ltac:(lia)))
    as [Hsel Hocc].
  unfold bin_entry_at. rewrite Hsel. cbn [mbind result_bind]. rewrite Hocc.
  assert (E : (Z.of_nat (occupancy x_digits ii) >? thr)%Z = true).
  { apply Z.gtb_lt. apply Hfull. lia. }
  now rewrite E.
Qed.

Lemma stat_full (f : list float -> float) (v : list float)
    (x_digits : list nat) (n : nat) (thr : Z) (failval : float) :
  ((2 <= n)%nat -> length v = length x_digits) ->
  (forall ii : nat, (1 <= ii < n)%nat ->
     (thr < Z.of_nat (occupancy x_digits ii))%Z) ->
  mapM_result (stat_of_entry f thr failval)
              (map (fun ii => BinArr (bin_values v x_digits ii))
                   (seq 1 (n - 1)))
  = Ok (map (fun ii => f (bin_values v x_digits ii)) (seq 1 (n - 1))).
Proof.
  intros Hl Hfull. rewrite mapM_result_map. apply mapM_result_Ok.
  intros ii Hii. apply elem_of_seq in Hii.
  destruct (select_mask_bin_values v x_digits ii (Hl ltac:(lia)))
    as [_ Hocc].
  cbn [stat_of_entry]. rewrite Hocc.
  assert (E : (Z.of_nat (occupancy x_digits ii) >? thr)%Z = true).
  { apply Z.gtb_lt. apply Hfull. lia. }
  now rewrite E.
Qed.

Lemma edge_stat_full (edges' : list float) (v : list float)
    (x_digits : list nat) (n : nat) (thr : Z) (failval : float) :
  length v = length x_digits -> length edges' = (n - 1)%nat ->
  (forall ii : nat, (1 <= ii < n)%nat ->
     (thr < Z.of_nat (occupancy x_digits ii))%Z) ->
  edge_stat edges'
            (map (fun ii => BinArr (bin_values v x_digits ii)) (seq 1 (n - 1)))
            thr failval
  = Ok edges'.
Proof.
  intros Hl He Hfull. unfold edge_stat. rewrite length_map, length_seq.
  transitivity (Ok (take (n - 1) edges'));
    [|now rewrite take_ge by lia].
  rewrite <- (take_all edges' (n - 1)) by lia.
  assert (Hext : forall (f g : nat -> result float) (l : list nat),
             (forall i, i ∈ l -> f i = g i) ->
             mapM_result f l = mapM_result g l).
  { intros f g l. induction l as [|i l IH]; intros H; [reflexivity|].
    simpl. rewrite (H i) by apply list_elem_of_here.
    rewrite IH; [reflexivity|]. intros j Hj. apply H.
    now apply list_elem_of_further. }
  apply Hext. intros i Hi. apply elem_of_seq in Hi.
  change (map ?h ?l) with (h <$> l).
  rewrite list_lookup_fmap, lookup_seq_lt by lia.
  cbn [fmap option_fmap option_map len_entry mbind result_bind].
  destruct (select_mask_bin_values v x_digits (1 + i) Hl) as [_ Hocc].
  rewrite Hocc.
  assert (E : (Z.of_nat (occupancy x_digits (1 + i)) >? thr)%Z = true).
  { apply Z.gtb_lt. apply Hfull. lia. }
  now rewrite E.
Qed.

Lemma load_x1_bound (x1 : list float) (return_perc : bool) :
  load_global (bound_globals x1 return_perc) "x1" = Ok (VArray (array1 x1)).
Proof. reflexivity. Qed.

Lemma load_return_perc_bound (x1 : list float) (return_perc : bool) :
  load_global (bound_globals x1 return_perc) "return_perc"
  = Ok (VBool return_perc).
Proof. reflexivity. Qed.

(** The body when [x1] and [return_perc] are bound, the edges and the
    digits are computed, and every bin holds [arr_len] values or more. *)
Lemma Stats_body_full_bins (x1 x y : list float) (return_perc : bool)
    (base : float) (arr_len : Z) (arr_digit : string) (statfunc : reducer)
    (bin_statval : string) (failval : float)
    (edges : list float) (digits : list nat) (x_full : list float) :
  (0 < arr_len)%Z -> valid_arr_digit arr_digit ->
  Bins_array_create Program_Msg module_file (array1 x1) base = Ok edges ->
  np_digitize x edges = Ok digits ->
  ((2 <= length edges)%nat -> length y = length x) ->
  (forall ii : nat, (1 <= ii < length edges)%nat ->
     (arr_len <= Z.of_nat (occupancy digits ii))%Z) ->
  (bin_statval = "average" /\
   x_full = map (fun ii => apply_reducer statfunc (bin_values x digits ii))
                (seq 1 (length edges - 1)) \/
   bin_statval = "left" /\ x_full = removelast edges \/
   bin_statval = "right" /\ x_full = tail edges) ->
  let bins := seq 1 (length edges - 1) in
  let xb := map (fun ii => BinArr (bin_values x digits ii)) bins in
  let yb := map (fun ii => BinArr (bin_values y digits ii)) bins in
  let y_full :=
    map (fun ii => apply_reducer statfunc (bin_values y digits ii)) bins in
  let err_full := map (fun ii => std_err sqrt (bin_values y digits ii)) bins in
  let x_stat := surviving x_full failval x_full in
  let y_stat := surviving x_full failval y_full in
  let y_std_err :=
    if is_nanmedian statfunc
    then map (fun v => fmul v (Fin (1253 # 1000)))
             (surviving x_full failval err_full)
    else surviving x_full failval err_full in
  let x_bins_data := surviving x_full failval xb in
  let y_bins_data := surviving x_full failval yb in
  exists perc : list pyobj,
    (if return_perc
     then exists res : sigma_result,
            sigma_calcs sqrt (array1 y_stat) "std" default_perc_arr false
            = Ok res /\ perc = [RSigma res]
     else perc = []) /\
    Stats_body Program_Msg module_file sqrt (bound_globals x1 return_perc)
               x y base arr_len arr_digit statfunc bin_statval failval
    = Ok (if String.eqb arr_digit "o"
          then [RBins x_bins_data; RBins y_bins_data] ++ perc
          else if String.eqb arr_digit "y"
          then [RArray x_stat; RArray y_stat; RGenerator0d yb;
                RArray y_std_err; RBins x_bins_data; RBins y_bins_data]
               ++ perc
          else [RArray x_stat; RArray y_stat; RGenerator0d yb;
                RArray y_std_err] ++ perc)%list.
Proof.
  intros Hpos Hdig Hedges Hdigits Hlen Hfull Hmode.
  intros bins xb yb y_full err_full x_stat y_stat y_std_err x_bins_data
    y_bins_data.
  pose proof (np_digitize_length _ _ _ Hdigits) as Ld.
  assert (Hthr : forall ii : nat, (1 <= ii < length edges)%nat ->
            (arr_len - 1 < Z.of_nat (occupancy digits ii))%Z).
  { intros ii Hii. specialize (Hfull ii Hii). lia. }
  assert (Lx : length x_full = (length edges - 1)%nat).
  { destruct Hmode as [[_ ->]|[[_ ->]|[_ ->]]].
    - now rewrite length_map, length_seq.
    - destruct edges as [|e0 es] using rev_ind; [reflexivity|].
      rewrite removelast_last, length_app. simpl. lia.
    - destruct edges; simpl; lia. }
  assert (Hsig : exists res : sigma_result,
             sigma_calcs sqrt (array1 y_stat) "std" default_perc_arr false
             = Ok res).
  { apply sigma_calcs_std_returns. unfold ndim. simpl. lia. }
  destruct Hsig as [res Hres].
  exists (if return_perc then [RSigma res] else []).
  split; [destruct return_perc; eauto|].
  unfold Stats_body.
  rewrite load_x1_bound. cbn [mbind result_bind py_len array1 shape].
  rewrite (decrement_arr_len_pos arr_len Hpos). cbn [mbind result_bind].
  change (np_asarray (VArray ?a)) with a.
  change (mk_ndarray [length x1] x1) with (array1 x1).
  rewrite Hedges. cbn [mbind result_bind].
  rewrite Hdigits. cbn [mbind result_bind].
  assert (Lxd : (2 <= length edges)%nat -> length x = length digits)
    by (intros _; congruence).
  assert (Lyd : (2 <= length edges)%nat -> length y = length digits)
    by (intros H2; rewrite (Hlen H2); congruence).
  rewrite (bins_data_full x digits (length edges) (arr_len - 1) failval
             Lxd Hthr).
  cbn [mbind result_bind].
  rewrite (bins_data_full y digits (length edges) (arr_len - 1) failval
             Lyd Hthr).
  cbn [mbind result_bind]. fold bins. fold xb yb.
  assert (Hxs :
    (x_stat_average ←
       (if String.eqb bin_statval "average"
        then Some <$> mapM_result
               (stat_of_entry (apply_reducer statfunc) (arr_len - 1) failval)
               xb
        else Ok (@None (list float)));
     x_stat_left ←
       (if String.eqb bin_statval "left"
        then Some <$> edge_stat (removelast edges) xb (arr_len - 1) failval
        else Ok x_stat_average);
     (if String.eqb bin_statval "right"
      then Some <$> edge_stat (tail edges) xb (arr_len - 1) failval
      else Ok x_stat_left)) = Ok (Some x_full)).
  { destruct Hmode as [[-> ->]|[[-> ->]|[-> ->]]].
    - change (String.eqb "average" "average") with true.
      change (String.eqb "average" "left") with false.
      change (String.eqb "average" "right") with false. cbv iota.
      unfold xb, bins.
      rewrite (stat_full _ x digits (length edges) (arr_len - 1) failval
                 Lxd Hthr).
      reflexivity.
    - change (String.eqb "left" "average") with false.
      change (String.eqb "left" "left") with true.
      change (String.eqb "left" "right") with false. cbv iota.
      cbn [mbind result_bind]. unfold xb, bins.
      rewrite (edge_stat_full (removelast edges) x digits (length edges)
                 (arr_len - 1) failval ltac:(congruence) Lx Hthr).
      reflexivity.
    - change (String.eqb "right" "average") with false.
      change (String.eqb "right" "left") with false.
      change (String.eqb "right" "right") with true. cbv iota.
      cbn [mbind result_bind]. unfold xb, bins.
      rewrite (edge_stat_full (tail edges) x digits (length edges)
                 (arr_len - 1) failval ltac:(congruence) Lx Hthr).
      reflexivity. }
  destruct (if String.eqb bin_statval "average" then _ else _) as [xa|];
    [|discriminate Hxs].
  cbn [mbind result_bind] in Hxs |- *.
  destruct (if String.eqb bin_statval "left" then _ else _) as [xl|];
    [|discriminate Hxs].
  cbn [mbind result_bind] in Hxs |- *.
  rewrite Hxs. cbn [mbind result_bind].
  unfold yb, bins.
  rewrite (stat_full _ y digits (length edges) (arr_len - 1) failval
             Lyd Hthr).
  cbn [mbind result_bind].
  rewrite (stat_full _ y digits (length edges) (arr_len - 1) failval
             Lyd Hthr).
  cbn [mbind result_bind]. fold bins. fold yb y_full err_full.
  rewrite (removal_step x_full failval x_full eq_refl).
  cbn [mbind result_bind].
  rewrite (removal_step x_full failval y_full)
    by (unfold y_full, bins; now rewrite length_map, length_seq).
  cbn [mbind result_bind].
  rewrite (removal_step x_full failval err_full)
    by (unfold err_full, bins; now rewrite length_map, length_seq).
  cbn [mbind result_bind].
  rewrite (removal_step x_full failval xb)
    by (unfold xb, bins; now rewrite length_map, length_seq).
  cbn [mbind result_bind].
  rewrite (removal_step x_full failval yb)
    by (unfold yb, bins; now rewrite length_map, length_seq).
  cbn [mbind result_bind].
  rewrite load_return_perc_bound. cbn [mbind result_bind truthy].
  fold (surviving x_full failval x_full). fold (surviving x_full failval y_full).
  fold (surviving x_full failval err_full). fold (surviving x_full failval xb).
  fold (surviving x_full failval yb).
  fold x_stat y_stat x_bins_data y_bins_data y_std_err.
  destruct return_perc.
  - rewrite Hres. cbn [fmap result_fmap mbind result_bind].
    destruct Hdig as [-> | [-> | ->]]; reflexivity.
  - cbn [mbind result_bind].
    destruct Hdig as [-> | [-> | ->]]; reflexivity.
Qed.

End FullBins.

Lemma raise_unless_Ok (cond : bool) (msg : string) (u : unit) :
  raise_unless cond msg = Ok u -> cond = true.
Proof. destruct cond; [reflexivity | discriminate]. Qed.

(** [H : (x ← m; k x) = Ok _]: then [m] returned a value, named [x]. *)
Ltac bind_inv_as H x E :=
  match type of H with
  | mbind _ ?m = Ok _ =>
      destruct m as [x|] eqn:E; cbn [mbind result_bind] in H;
      [|discriminate H]
  end.

(** An entry of the array of the bins that is an array is the entry the
    comprehension made for that bin. *)
Lemma bins_data_lookup (v : list float) (x_digits : list nat) (n : nat)
    (thr : Z) (failval : float) (l : list bin_entry) (ii : nat) :
  bins_data v x_digits n thr failval = Ok l -> (1 <= ii < n)%nat ->
  exists e e' : bin_entry,
    bin_entry_at v x_digits thr failval ii = Ok e /\
    l !! (ii - 1)%nat = Some e' /\
    forall sel : list float, e' = BinArr sel -> e = BinArr sel.
Proof.
  unfold bins_data. intros H Hii.
  destruct (mapM_result _ _) as [entries|] eqn:E; [|discriminate H].
  injection H as <-.
  assert (Hseq : seq 1 (n - 1) !! (ii - 1)%nat = Some ii).
  { rewrite lookup_seq_lt by lia. f_equal. lia. }
  destruct (mapM_result_lookup _ _ _ E _ _ Hseq) as (e & He & Hl).
  unfold np_array_entries. destruct (forallb is_failval entries).
  - exists e, (match e with BinFail w => BinFloat64 w | _ => e end).
    split; [exact He|]. split.
    + change (map ?h ?k) with (h <$> k). now rewrite list_lookup_fmap, Hl.
    + intros sel. destruct e; intros H; try discriminate H; exact H.
  - exists e, e. repeat split; auto.
Qed.

Section ReturnedBins.
Variable Program_Msg : string -> string.
Variable module_file : string.
Variable sqrt : Q -> Q.

(** A call that returns passed the four checks. *)
Lemma Stats_one_arr_Ok_checks (G : gmap string pyval) (x y : list float)
    (base : float) (arr_len : Z) (arr_digit : string) (statfunc : reducer)
    (bin_statval : string) (failval : float) (out : list pyobj) :
  Stats_one_arr Program_Msg module_file sqrt G x y base arr_len arr_digit
                statfunc bin_statval failval = Ok out ->
  checks_pass x y arr_len arr_digit bin_statval /\
  Stats_body Program_Msg module_file sqrt G x y base arr_len arr_digit
             statfunc bin_statval failval = Ok out.
Proof.
  intros H. unfold Stats_one_arr in H.
  bind_inv H. apply raise_unless_Ok in E. apply arr_digit_check_iff in E.
  bind_inv H. apply raise_unless_Ok in E0. apply length_check_iff in E0.
  bind_inv H. apply raise_unless_Ok in E1. apply Z.ltb_lt in E1.
  bind_inv H. apply raise_unless_Ok in E2. apply bin_statval_check_iff in E2.
  split; [|exact H]. unfold checks_pass. tauto.
Qed.

(** What the body computed on the way to a result. *)
Lemma Stats_body_Ok_bins (G : gmap string pyval) (x y : list float)
    (base : float) (arr_len : Z) (arr_digit : string) (statfunc : reducer)
    (bin_statval : string) (failval : float) (out : list pyobj) :
  (0 < arr_len)%Z ->
  Stats_body Program_Msg module_file sqrt G x y base arr_len arr_digit
             statfunc bin_statval failval = Ok out ->
  exists (a : ndarray) (return_perc : pyval) (edges : list float)
         (digits : list nat),
    G !! "x1" = Some (VArray a) /\
    load_global G "return_perc" = Ok return_perc /\
    Bins_array_create Program_Msg module_file a base = Ok edges /\
    np_digitize x edges = Ok digits /\
    ((2 <= length edges)%nat -> length y = length x) /\
    forall ii : nat, (1 <= ii < length edges)%nat ->
      (arr_len <= Z.of_nat (occupancy digits ii))%Z.
Proof.
  intros Hpos H. unfold Stats_body in H.
  bind_inv_as H x1v E. bind_inv_as H nelem E0. bind_inv_as H thr E1.
  bind_inv_as H x_bins E3. bind_inv_as H digits E4.
  bind_inv_as H xb E5. bind_inv_as H yb E6. bind_inv_as H xa E7.
  bind_inv_as H xl E8. bind_inv_as H xr E9. bind_inv_as H ys E10.
  bind_inv_as H es E11. bind_inv_as H xs E12. bind_inv_as H x_stat E13.
  bind_inv_as H y_stat E14. bind_inv_as H y_std_err E15.
  bind_inv_as H x_bins_data E16. bind_inv_as H y_bins_data E17.
  bind_inv_as H rp E18.
  rewrite (decrement_arr_len_pos arr_len Hpos) in E1. injection E1 as <-.
  assert (Hx1 : G !! "x1" = Some x1v).
  { unfold load_global in E. destruct (G !! "x1") as [v|].
    - now injection E as ->.
    - discriminate E. }
  destruct x1v as [a|b|d]; try discriminate E0.
  cbn [np_asarray] in E3.
  pose proof (np_digitize_length _ _ _ E4) as Ld.
  assert (Hbin : forall ii : nat, (1 <= ii < length x_bins)%nat ->
            length y = length x /\
            (arr_len <= Z.of_nat (occupancy digits ii))%Z).
  { intros ii Hii.
    destruct (bins_data_lookup _ _ _ _ _ _ ii E6 Hii)
      as (e & e' & He & Hyb & Harr).
    destruct (mapM_result_lookup _ _ _ E10 _ _ Hyb) as (v & Hv & _).
    destruct e' as [sel|fv|fv]; [|discriminate Hv|discriminate Hv].
    rewrite (Harr sel eq_refl) in He.
    unfold bin_entry_at in He.
    destruct (decide (length y = length digits)) as [Ly|Ly].
    - destruct (select_mask_bin_values y digits ii Ly) as [Hsel Hocc].
      rewrite Hsel in He. cbn [mbind result_bind] in He.
      rewrite Hocc in He.
      destruct (Z.of_nat (occupancy digits ii) >? arr_len - 1)%Z eqn:Eo;
        [|discriminate He].
      apply Z.gtb_lt in Eo. split; [congruence | lia].
    - rewrite select_mask_raises in He by now rewrite length_map.
      discriminate He. }
  exists a, rp, x_bins, digits.
  repeat (split; [assumption || reflexivity|]). split.
  - intros H2. apply (Hbin 1%nat). lia.
  - intros ii Hii. now apply Hbin.
Qed.

End ReturnedBins.

(** Whether only [failval] entries are made depends on the occupancies
    alone. *)
Lemma forallb_is_failval_entries (v : list float) (digits : list nat)
    (thr : Z) (failval : float) (bins : list nat) :
  forallb is_failval
    (map (fun ii =>
            if (Z.of_nat (occupancy digits ii) >? thr)%Z
            then BinArr (bin_values v digits ii)
            else BinFail failval) bins)
  = forallb (fun ii => (Z.of_nat (occupancy digits ii) <=? thr)%Z) bins.
Proof.
  induction bins as [|k bins IH]; [reflexivity|].
  cbn [map forallb]. rewrite IH. f_equal.
  rewrite Z.gtb_ltb, Z.ltb_antisym.
  now destruct (_ <=? _)%Z.
Qed.

(** The entries of the bins, whatever their occupancy: the values of a
    bin that holds more than [thr] of them, and otherwise [failval], as a
    [numpy.float64] when no bin holds more than [thr] values and as the
    Python float when one does. *)
Lemma bins_data_entries (v : list float) (x_digits : list nat) (n : nat)
    (thr : Z) (failval : float) :
  ((2 <= n)%nat -> length v = length x_digits) ->
  bins_data v x_digits n thr failval
  = Ok (map (fun ii =>
               if (Z.of_nat (occupancy x_digits ii) >? thr)%Z
               then BinArr (bin_values v x_digits ii)
               else if forallb (fun k =>
                                  (Z.of_nat (occupancy x_digits k) <=? thr)%Z)
                               (seq 1 (n - 1))
                    then BinFloat64 failval
                    else BinFail failval)
            (seq 1 (n - 1))).
Proof.
  intros Hl. unfold bins_data.
  rewrite (mapM_result_Ok _
             (fun ii => if (Z.of_nat (occupancy x_digits ii) >? thr)%Z
                        then BinArr (bin_values v x_digits ii)
                        else BinFail failval)).
  - cbn [mbind result_bind]. f_equal. unfold np_array_entries.
    rewrite forallb_is_failval_entries.
    destruct (forallb _ (seq 1 (n - 1))); [|reflexivity].
    rewrite map_map. apply map_ext. intros k.
    now destruct (_ >? _)%Z.
  - intros ii Hii. apply elem_of_seq in Hii.
    destruct (select_mask_bin_values v x_digits ii (Hl ltac:(lia)))
      as [Hsel Hocc].
    unfold bin_entry_at. rewrite Hsel. cbn [mbind result_bind]. rewrite Hocc.
    now destruct (_ >? _)%Z.
Qed.

(** The threshold of the comparison is [arr_len - 1]. *)
Lemma forallb_sparse_threshold (digits : list nat) (arr_len : Z)
    (bins : list nat) :
  forallb (fun k => (Z.of_nat (occupancy digits k) <=? arr_len - 1)%Z) bins
  = forallb (fun k => (Z.of_nat (occupancy digits k) <? arr_len)%Z) bins.
Proof.
  induction bins as [|k bins IH]; [reflexivity|].
  cbn [forallb]. rewrite IH. f_equal.
  destruct (Z.leb_spec (Z.of_nat (occupancy digits k)) (arr_len - 1)),
           (Z.ltb_spec (Z.of_nat (occupancy digits k)) arr_len);
    try reflexivity; lia.
Qed.

Section SparseBin.
Variable Program_Msg : string -> string.
Variable module_file : string.
Variable sqrt : Q -> Q.

(** The body on a bin that holds fewer values than [arr_len]: [len] of
    the entry of that bin raises, and the message names the type of the
    entry, [numpy.float64] when every bin holds fewer than [arr_len]
    values (the array of the bins is then a float64 array) and [float]
    when some bin holds [arr_len] values or more. *)
Lemma Stats_body_sparse_bin (x1 x y : list float) (return_perc : bool)
    (base : float) (arr_len : Z) (arr_digit : string) (statfunc : reducer)
    (bin_statval : string) (failval : float)
    (edges : list float) (digits : list nat) (ii : nat) :
  (0 < arr_len)%Z -> valid_bin_statval bin_statval ->
  Bins_array_create Program_Msg module_file (array1 x1) base = Ok edges ->
  np_digitize x edges = Ok digits ->
  length y = length x ->
  (1 <= ii < length edges)%nat ->
  (Z.of_nat (occupancy digits ii) < arr_len)%Z ->
  Stats_body Program_Msg module_file sqrt (bound_globals x1 return_perc)
             x y base arr_len arr_digit statfunc bin_statval failval
  = Raise (TypeError
             (if forallb (fun k => (Z.of_nat (occupancy digits k) <? arr_len)%Z)
                         (seq 1 (length edges - 1))
              then "object of type 'numpy.float64' has no len()"
              else "object of type 'float' has no len()")).
Proof.
  intros Hpos Hmode Hedges Hdigits Hlen Hii Hocc.
  pose proof (np_digitize_length _ _ _ Hdigits) as Ld.
  unfold Stats_body.
  rewrite load_x1_bound. cbn [mbind result_bind py_len array1 shape].
  rewrite (decrement_arr_len_pos arr_len Hpos). cbn [mbind result_bind].
  change (np_asarray (VArray ?a)) with a.
  change (mk_ndarray [length x1] x1) with (array1 x1).
  rewrite Hedges. cbn [mbind result_bind].
  rewrite Hdigits. cbn [mbind result_bind].
  rewrite (bins_data_entries x digits (length edges) (arr_len - 1) failval)
    by (intros _; congruence).
  cbn [mbind result_bind].
  rewrite (bins_data_entries y digits (length edges) (arr_len - 1) failval)
    by (intros _; congruence).
  cbn [mbind result_bind].
  rewrite forallb_sparse_threshold.
  set (bins := seq 1 (length edges - 1)).
  set (all_sparse :=
         forallb (fun k => (Z.of_nat (occupancy digits k) <? arr_len)%Z) bins).
  set (fail := if all_sparse then BinFloat64 failval else BinFail failval).
  set (msg := if all_sparse
              then "object of type 'numpy.float64' has no len()"
              else "object of type 'float' has no len()").
  set (entry := fun (v : list float) (k : nat) =>
                  if (Z.of_nat (occupancy digits k) >? arr_len - 1)%Z
                  then BinArr (bin_values v digits k)
                  else fail).
  change (map (fun k => if (_ >? _)%Z then BinArr (bin_values x digits k)
                        else fail) bins)
    with (map (entry x) bins).
  change (map (fun k => if (_ >? _)%Z then BinArr (bin_values y digits k)
                        else fail) bins)
    with (map (entry y) bins).
  assert (Hlenfail : len_entry fail = Raise (TypeError msg))
    by (unfold fail, msg; now destruct all_sparse).
  assert (Hstatfail : forall f,
            stat_of_entry f (arr_len - 1) failval fail
            = Raise (TypeError msg))
    by (intros f; unfold fail, msg; now destruct all_sparse).
  assert (Hfail : forall v, entry v ii = fail).
  { intros v. unfold entry.
    assert (E : (Z.of_nat (occupancy digits ii) >? arr_len - 1)%Z = false).
    { apply not_true_iff_false. intros C. apply Z.gtb_lt in C. lia. }
    now rewrite E. }
  assert (Hin : ii ∈ bins) by (apply elem_of_seq; lia).
  assert (Hstat : forall f,
            mapM_result (stat_of_entry f (arr_len - 1) failval)
                        (map (entry x) bins)
            = Raise (TypeError msg)).
  { intros f. rewrite mapM_result_map. apply mapM_result_raises.
    - intros k _. unfold entry.
      destruct (Z.of_nat (occupancy digits k) >? arr_len - 1)%Z;
        [right | left; apply Hstatfail].
      cbn [stat_of_entry]. destruct (_ >? _)%Z; eauto.
    - exists ii. split; [exact Hin|]. rewrite Hfail. apply Hstatfail. }
  assert (Hedge : forall edges' : list float,
            length edges' = (length edges - 1)%nat ->
            edge_stat edges' (map (entry x) bins) (arr_len - 1) failval
            = Raise (TypeError msg)).
  { intros edges' He. unfold edge_stat. apply mapM_result_raises.
    - intros k Hk. apply elem_of_seq in Hk.
      unfold bins in Hk. rewrite length_map, length_seq in Hk.
      change (map ?h ?l) with (h <$> l).
      rewrite list_lookup_fmap. unfold bins.
      rewrite lookup_seq_lt by lia.
      cbn [fmap option_fmap option_map]. unfold entry.
      destruct (Z.of_nat (occupancy digits (1 + k)) >? arr_len - 1)%Z eqn:Eo.
      + right. cbn [len_entry mbind result_bind].
        destruct (select_mask_bin_values x digits (1 + k) ltac:(congruence))
          as [_ ->].
        rewrite Eo.
        destruct (lookup_lt_is_Some_2 edges' k ltac:(lia)) as [e ->]. eauto.
      + left. rewrite Hlenfail. reflexivity.
    - exists (ii - 1)%nat. split.
      + apply elem_of_seq. unfold bins. rewrite length_map, length_seq. lia.
      + change (map ?h ?l) with (h <$> l).
        rewrite list_lookup_fmap. unfold bins.
        rewrite lookup_seq_lt by lia.
        cbn [fmap option_fmap option_map].
        replace (1 + (ii - 1))%nat with ii by lia.
        rewrite Hfail, Hlenfail. reflexivity. }
  destruct Hmode as [-> | [-> | ->]].
  - change (String.eqb "average" "average") with true. cbv iota.
    now rewrite Hstat.
  - change (String.eqb "left" "average") with false.
    change (String.eqb "left" "left") with true. cbv iota.
    cbn [mbind result_bind]. rewrite (Hedge (removelast edges)); [reflexivity|].
    destruct edges as [|e0 es] using rev_ind; [reflexivity|].
    rewrite removelast_last, length_app. simpl. lia.
  - change (String.eqb "right" "average") with false.
    change (String.eqb "right" "left") with false.
    change (String.eqb "right" "right") with true. cbv iota.
    cbn [mbind result_bind]. rewrite (Hedge (tail edges)); [reflexivity|].
    destruct edges; simpl; lia.
Qed.

(** X14: with [x1] and [return_perc] bound and [y] as long as [x], a
    call that passes the checks raises [TypeError] as soon as one bin of
    [range(1, len(x_bins))] holds fewer than [arr_len] values, for each
    of the three [bin_statval]: the entry of that bin is [failval], and
    the comprehension that builds [x_stat] takes its [len].  The message
    is "object of type 'float' has no len()" when some other bin holds
    [arr_len] values or more, and "object of type 'numpy.float64' has no
    len()" when every bin holds fewer, because [np.array] of a list of
    nothing but [failval] is a float64 array. *)
Theorem Stats_one_arr_sparse_bin (x1 x y : list float) (return_perc : bool)
    (base : float) (arr_len : Z) (arr_digit : string) (statfunc : reducer)
    (bin_statval : string) (failval : float)
    (edges : list float) (digits : list nat) (ii : nat) :
  checks_pass x y arr_len arr_digit bin_statval ->
  Bins_array_create Program_Msg module_file (array1 x1) base = Ok edges ->
  np_digitize x edges = Ok digits ->
  length y = length x ->
  (1 <= ii < length edges)%nat ->
  (Z.of_nat (occupancy digits ii) < arr_len)%Z ->
  Stats_one_arr Program_Msg module_file sqrt (bound_globals x1 return_perc)
                x y base arr_len arr_digit statfunc bin_statval failval
  = Raise (TypeError
             (if forallb (fun k => (Z.of_nat (occupancy digits k) <? arr_len)%Z)
                         (seq 1 (length edges - 1))
              then "object of type 'numpy.float64' has no len()"
              else "object of type 'float' has no len()")).
Proof.
  intros Hc Hedges Hdigits Hlen Hii Hocc.
  rewrite (Stats_one_arr_checked _ _ _ _ _ _ _ _ _ _ _ _ Hc).
  destruct Hc as (_ & _ & _ & Hpos & Hmode).
  now apply (Stats_body_sparse_bin x1 x y return_perc base arr_len arr_digit
               statfunc bin_statval failval edges digits ii).
Qed.

(** X13: a call of [Stats_one_arr] returns only if the four checks pass,
    the globals bind [x1] to an array and bind [return_perc], the edges
    of [x1] and the digits of [x] on them are computed, [y] is as long as
    [x] when there is a bin, and every bin of [range(1, len(x_bins))]
    holds at least [arr_len] values: the branches that put [failval] in
    place of a bin with too few values are never taken by a call that
    returns. *)
Theorem Stats_one_arr_returns_full_bins (G : gmap string pyval)
    (x y : list float) (base : float) (arr_len : Z) (arr_digit : string)
    (statfunc : reducer) (bin_statval : string) (failval : float)
    (out : list pyobj) :
  Stats_one_arr Program_Msg module_file sqrt G x y base arr_len arr_digit
                statfunc bin_statval failval = Ok out ->
  checks_pass x y arr_len arr_digit bin_statval /\
  exists (a : ndarray) (return_perc : pyval) (edges : list float)
         (digits : list nat),
    G !! "x1" = Some (VArray a) /\
    G !! "return_perc" = Some return_perc /\
    Bins_array_create Program_Msg module_file a base = Ok edges /\
    np_digitize x edges = Ok digits /\
    ((2 <= length edges)%nat -> length y = length x) /\
    forall ii : nat, (1 <= ii < length edges)%nat ->
      (arr_len <= Z.of_nat (occupancy digits ii))%Z.
Proof.
  intros H. apply Stats_one_arr_Ok_checks in H. destruct H as [Hc H].
  split; [exact Hc|].
  destruct Hc as (_ & _ & _ & Hpos & _).
  destruct (Stats_body_Ok_bins _ _ _ _ _ _ _ _ _ _ _ _ _ Hpos H)
    as (a & rp & edges & digits & Hx1 & Hrp & He & Hd & Hl & Hfull).
  exists a, rp, edges, digits.
  split; [exact Hx1|]. split.
  { unfold load_global in Hrp. destruct (G !! "return_perc") as [v|].
    - now injection Hrp as ->.
    - discriminate Hrp. }
  split; [exact He|]. split; [exact Hd|]. split; [exact Hl | exact Hfull].
Qed.

End SparseBin.



Section FullBinsTheorems.
Variable Program_Msg : string -> string.
Variable module_file : string.
Variable sqrt : Q -> Q.

(** X15: what [Stats_one_arr] returns when [x1] and [return_perc] are
    bound, the checks pass, [y] is as long as [x] and every bin holds at
    least [arr_len] values.  Before the removal step [x_stat] is, by
    [bin_statval], [statfunc] of the [x] values of each bin, the left
    edges [x_bins[:-1]] or the right edges [x_bins[1:]]; [y_stat] is
    [statfunc] of the [y] values of each bin and [y_std_err] is
    [nanstd/sqrt(len)] of them, times 1.253 when [statfunc] is
    [np.nanmedian].  The arrays returned are these and the bins' values
    at the positions where [x_stat != failval], in [arr_digit]'s
    selection, followed by [sigma_calcs(y_stat)] when [return_perc]
    holds; [y_std] is the unfiltered 0-d array. *)
Theorem Stats_one_arr_full_bins (x1 x y : list float) (return_perc : bool)
    (base : float) (arr_len : Z) (arr_digit : string) (statfunc : reducer)
    (bin_statval : string) (failval : float)
    (edges : list float) (digits : list nat) (x_full : list float) :
  checks_pass x y arr_len arr_digit bin_statval ->
  Bins_array_create Program_Msg module_file (array1 x1) base = Ok edges ->
  np_digitize x edges = Ok digits ->
  length y = length x ->
  (forall ii : nat, (1 <= ii < length edges)%nat ->
     (arr_len <= Z.of_nat (occupancy digits ii))%Z) ->
  (bin_statval = "average" /\
   x_full = map (fun ii => apply_reducer statfunc (bin_values x digits ii))
                (seq 1 (length edges - 1)) \/
   bin_statval = "left" /\ x_full = removelast edges \/
   bin_statval = "right" /\ x_full = tail edges) ->
  let bins := seq 1 (length edges - 1) in
  let xb := map (fun ii => BinArr (bin_values x digits ii)) bins in
  let yb := map (fun ii => BinArr (bin_values y digits ii)) bins in
  let y_full :=
    map (fun ii => apply_reducer statfunc (bin_values y digits ii)) bins in
  let err_full := map (fun ii => std_err sqrt (bin_values y digits ii)) bins in
  let x_stat := surviving x_full failval x_full in
  let y_stat := surviving x_full failval y_full in
  let y_std_err :=
    if is_nanmedian statfunc
    then map (fun v => fmul v (Fin (1253 # 1000)))
             (surviving x_full failval err_full)
    else surviving x_full failval err_full in
  let x_bins_data := surviving x_full failval xb in
  let y_bins_data := surviving x_full failval yb in
  exists perc : list pyobj,
    (if return_perc
     then exists res : sigma_result,
            sigma_calcs sqrt (array1 y_stat) "std" default_perc_arr false
            = Ok res /\ perc = [RSigma res]
     else perc = []) /\
    Stats_one_arr Program_Msg module_file sqrt (bound_globals x1 return_perc)
                  x y base arr_len arr_digit statfunc bin_statval failval
    = Ok (if String.eqb arr_digit "o"
          then [RBins x_bins_data; RBins y_bins_data] ++ perc
          else if String.eqb arr_digit "y"
          then [RArray x_stat; RArray y_stat; RGenerator0d yb;
                RArray y_std_err; RBins x_bins_data; RBins y_bins_data]
               ++ perc
          else [RArray x_stat; RArray y_stat; RGenerator0d yb;
                RArray y_std_err] ++ perc)%list.
Proof.
  intros Hc Hedges Hdigits Hlen Hfull Hmode. cbv zeta.
  rewrite (Stats_one_arr_checked _ _ _ _ _ _ _ _ _ _ _ _ Hc).
  destruct Hc as (Hd & _ & _ & Hpos & _).
  exact (Stats_body_full_bins Program_Msg module_file sqrt x1 x y return_perc
           base arr_len arr_digit statfunc bin_statval failval edges digits
           x_full Hpos Hd Hedges Hdigits (fun _ => Hlen) Hfull Hmode).
Qed.


(** X17: with [bin_statval] ['left'] or ['right'] (and [arr_digit] not
    ['o']), under the conditions of a returning call, the calls with
    [statfunc = np.nanmean] and with [statfunc = np.nanmedian] return the
    same [x_stat] and the same [y_std], and the [y_std_err] of the median
    call is the [y_std_err] of the mean call with every entry multiplied
    by 1.253. *)
Theorem Stats_one_arr_median_error (x1 x y : list float) (return_perc : bool)
    (base : float) (arr_len : Z) (arr_digit : string)
    (bin_statval : string) (failval : float)
    (edges : list float) (digits : list nat) :
  checks_pass x y arr_len arr_digit bin_statval ->
  arr_digit <> "o" -> bin_statval <> "average" ->
  Bins_array_create Program_Msg module_file (array1 x1) base = Ok edges ->
  np_digitize x edges = Ok digits ->
  length y = length x ->
  (forall ii : nat, (1 <= ii < length edges)%nat ->
     (arr_len <= Z.of_nat (occupancy digits ii))%Z) ->
  exists (x_stat y_mean y_median errs : list float)
         (pending : list bin_entry) (rest_mean rest_median : list pyobj),
    Stats_one_arr Program_Msg module_file sqrt (bound_globals x1 return_perc)
                  x y base arr_len arr_digit NanMean bin_statval failval
    = Ok ([RArray x_stat; RArray y_mean; RGenerator0d pending; RArray errs]
          ++ rest_mean)%list /\
    Stats_one_arr Program_Msg module_file sqrt (bound_globals x1 return_perc)
                  x y base arr_len arr_digit NanMedian bin_statval failval
    = Ok ([RArray x_stat; RArray y_median; RGenerator0d pending;
           RArray (map (fun v => fmul v (Fin (1253 # 1000))) errs)]
          ++ rest_median)%list.
Proof.
  intros Hc Ho Havg Hedges Hdigits Hlen Hfull.
  rewrite !(Stats_one_arr_checked _ _ _ _ _ _ _ _ _ _ _ _ Hc).
  destruct Hc as (Hd & _ & _ & Hpos & Hmode).
  set (x_full := if String.eqb bin_statval "left" then removelast edges
                 else tail edges).
  assert (Hx : forall statfunc,
            bin_statval = "average" /\
            x_full = map (fun ii => apply_reducer statfunc
                                      (bin_values x digits ii))
                         (seq 1 (length edges - 1)) \/
            bin_statval = "left" /\ x_full = removelast edges \/
            bin_statval = "right" /\ x_full = tail edges).
  { intros statfunc. unfold x_full.
    destruct Hmode as [-> | [-> | ->]]; [congruence | auto | auto]. }
  destruct (Stats_body_full_bins Program_Msg module_file sqrt x1 x y
              return_perc base arr_len arr_digit NanMean bin_statval failval
              edges digits x_full Hpos Hd Hedges Hdigits (fun _ => Hlen)
              Hfull (Hx NanMean)) as (perc1 & _ & ->).
  destruct (Stats_body_full_bins Program_Msg module_file sqrt x1 x y
              return_perc base arr_len arr_digit NanMedian bin_statval failval
              edges digits x_full Hpos Hd Hedges Hdigits (fun _ => Hlen)
              Hfull (Hx NanMedian)) as (perc2 & _ & ->).
  cbn [is_nanmedian].
  apply String.eqb_neq in Ho. rewrite Ho.
  destruct (String.eqb arr_digit "y"); do 7 eexists; split; reflexivity.
Qed.

End FullBinsTheorems.

Lemma np_digitize_nondecreasing (x bins : list float) :
  nondecreasing bins = true ->
  np_digitize x bins = Ok (map (count_le bins) x).
Proof. intros H. unfold np_digitize. now rewrite H. Qed.

Lemma forallb_false_elem {A : Type} (f : A -> bool) (l : list A) :
  forallb f l = false -> exists a : A, a ∈ l /\ f a = false.
Proof.
  induction l as [|a l IH]; [discriminate|]. cbn [forallb].
  destruct (f a) eqn:E.
  - intros H. destruct (IH H) as (a' & Ha' & Hf). exists a'.
    split; [now apply list_elem_of_further | exact Hf].
  - intros _. exists a. split; [apply list_elem_of_here | exact E].
Qed.

Section Dichotomy.
Variable Program_Msg : string -> string.
Variable module_file : string.
Variable sqrt : Q -> Q.

(** X20: the intended use, with [x1] bound to [x] itself.  In exact
    arithmetic, for finite [x], a finite base [> 0], [y] as long as [x]
    and parameters that pass the checks, the edges and the digits are
    always computed, and the call has one of three outcomes: it returns,
    and then every bin of [range(1, len(x_bins))] holds at least
    [arr_len] values of [x]; or some bin holds fewer and some bin does
    not, and the call raises [TypeError] ("object of type 'float' has no
    len()"); or there is a bin and every bin holds fewer, and the call
    raises [TypeError] ("object of type 'numpy.float64' has no len()").
    Nothing else can happen. *)
Theorem Stats_one_arr_dichotomy (x y : list float) (return_perc : bool)
    (b : Q) (arr_len : Z) (arr_digit : string) (statfunc : reducer)
    (bin_statval : string) (failval : float) :
  checks_pass x y arr_len arr_digit bin_statval ->
  all_finite x -> (0 < b)%Q -> length y = length x ->
  let call :=
    Stats_one_arr Program_Msg module_file sqrt (bound_globals x return_perc)
                  x y (Fin b) arr_len arr_digit statfunc bin_statval failval in
  exists (edges : list float) (digits : list nat),
    Bins_array_create Program_Msg module_file (array1 x) (Fin b) = Ok edges /\
    np_digitize x edges = Ok digits /\
    ((exists out : list pyobj, call = Ok out) /\
     (forall ii : nat, (1 <= ii < length edges)%nat ->
        (arr_len <= Z.of_nat (occupancy digits ii))%Z)
     \/
     call = Raise (TypeError "object of type 'float' has no len()") /\
     (exists ii : nat, (1 <= ii < length edges)%nat /\
        (Z.of_nat (occupancy digits ii) < arr_len)%Z) /\
     (exists jj : nat, (1 <= jj < length edges)%nat /\
        (arr_len <= Z.of_nat (occupancy digits jj))%Z)
     \/
     call = Raise (TypeError "object of type 'numpy.float64' has no len()") /\
     (2 <= length edges)%nat /\
     (forall ii : nat, (1 <= ii < length edges)%nat ->
        (Z.of_nat (occupancy digits ii) < arr_len)%Z)).
Proof.
  intros Hc Hfin Hb Hlen call. unfold call.
  rewrite (Stats_one_arr_checked _ _ _ _ _ _ _ _ _ _ _ _ Hc).
  destruct Hc as (Hd & Hx & _ & Hpos & Hmode).
  destruct (Bins_array_create_places Program_Msg module_file (array1 x) b
              eq_refl Hx Hfin Hb)
    as (mn & mx & f & c & _ & _ & _ & _ & _ & Hedges & _).
  set (edges := map (fun i : nat =>
                       Fin (b * inject_Z f + inject_Z (Z.of_nat i) * b))
                    (seq 0 (Z.to_nat (c - f + 1)))) in *.
  assert (Hdigits : np_digitize x edges = Ok (map (count_le edges) x)).
  { apply np_digitize_nondecreasing. unfold edges.
    apply arange_nondecreasing. lra. }
  set (digits := map (count_le edges) x) in *.
  exists edges, digits. split; [exact Hedges|]. split; [exact Hdigits|].
  destruct (forallb (fun ii => (arr_len <=? Z.of_nat (occupancy digits ii))%Z)
                    (seq 1 (length edges - 1))) eqn:E.
  - left.
    assert (Hfull : forall ii : nat, (1 <= ii < length edges)%nat ->
              (arr_len <= Z.of_nat (occupancy digits ii))%Z).
    { intros ii Hii. rewrite forallb_forall in E.
      apply Z.leb_le. apply E. apply in_seq. lia. }
    split; [|exact Hfull].
    set (x_full :=
           if String.eqb bin_statval "average"
           then map (fun ii => apply_reducer statfunc (bin_values x digits ii))
                    (seq 1 (length edges - 1))
           else if String.eqb bin_statval "left" then removelast edges
           else tail edges).
    destruct (Stats_body_full_bins Program_Msg module_file sqrt x x y
                return_perc (Fin b) arr_len arr_digit statfunc bin_statval
                failval edges digits x_full Hpos Hd Hedges Hdigits
                (fun _ => Hlen) Hfull) as (perc & _ & Hbody).
    { unfold x_full. destruct Hmode as [-> | [-> | ->]]; auto. }
    rewrite Hbody. eauto.
  - right. apply forallb_false_elem in E. destruct E as (ii & Hin & Hlt).
    apply elem_of_seq in Hin. apply Z.leb_gt in Hlt.
    assert (Hii : (1 <= ii < length edges)%nat) by lia.
    rewrite (Stats_body_sparse_bin Program_Msg module_file sqrt x x y
               return_perc (Fin b) arr_len arr_digit statfunc bin_statval
               failval edges digits ii Hpos Hmode Hedges Hdigits Hlen Hii Hlt).
    destruct (forallb (fun k => (Z.of_nat (occupancy digits k) <? arr_len)%Z)
                      (seq 1 (length edges - 1))) eqn:E2.
    + right. split; [reflexivity|]. split; [lia|].
      intros k Hk. rewrite forallb_forall in E2.
      apply Z.ltb_lt. apply E2. apply in_seq. lia.
    + left. split; [reflexivity|]. split.
      * exists ii. split; [exact Hii | exact Hlt].
      * apply forallb_false_elem in E2. destruct E2 as (jj & Hjn & Hge).
        apply elem_of_seq in Hjn. apply Z.ltb_ge in Hge.
        exists jj. split; [lia | exact Hge].
Qed.

End Dichotomy.

Lemma Stats_one_arr_dichotomy_witness :
  (exists out : list pyobj,
     Stats_one_arr sample_Program_Msg sample_file sqrt_approx
       (bound_globals [Fin (1 # 2); Fin (3 # 2)] false)
       [Fin (1 # 2); Fin (3 # 2)] [Fin 1; Fin 2] (Fin 1) 1 "n" NanMean
       "average" NaN
     = Ok out) /\
  (exists (edges : list float) (digits : list nat),
     Bins_array_create sample_Program_Msg sample_file
       (array1 [Fin (1 # 2); Fin (5 # 2)]) (Fin 1) = Ok edges /\
     np_digitize [Fin (1 # 2); Fin (5 # 2)] edges = Ok digits /\
     Stats_one_arr sample_Program_Msg sample_file sqrt_approx
       (bound_globals [Fin (1 # 2); Fin (5 # 2)] false)
       [Fin (1 # 2); Fin (5 # 2)] [Fin 1; Fin 2] (Fin 1) 1 "n" NanMean
       "average" NaN
     = Raise (TypeError "object of type 'float' has no len()") /\
     (exists ii : nat, (1 <= ii < length edges)%nat /\
        (Z.of_nat (occupancy digits ii) < 1)%Z) /\
     (exists jj : nat, (1 <= jj < length edges)%nat /\
        (1 <= Z.of_nat (occupancy digits jj))%Z)) /\
  (exists (edges : list float) (digits : list nat),
     Bins_array_create sample_Program_Msg sample_file
       (array1 [Fin (1 # 2); Fin (3 # 2)]) (Fin 1) = Ok edges /\
     np_digitize [Fin (1 # 2); Fin (3 # 2)] edges = Ok digits /\
     Stats_one_arr sample_Program_Msg sample_file sqrt_approx
       (bound_globals [Fin (1 # 2); Fin (3 # 2)] false)
       [Fin (1 # 2); Fin (3 # 2)] [Fin 1; Fin 2] (Fin 1) 2 "n" NanMean
       "average" NaN
     = Raise (TypeError "object of type 'numpy.float64' has no len()") /\
     (2 <= length edges)%nat /\
     (forall ii : nat, (1 <= ii < length edges)%nat ->
        (Z.of_nat (occupancy digits ii) < 2)%Z)).
Proof.
  assert (Hchecks : forall (x y : list float) (n : Z),
            x <> [] -> y <> [] -> (0 < n)%Z ->
            checks_pass x y n "n" "average").
  { intros x y n Hx Hy Hn.
    unfold checks_pass, valid_arr_digit, valid_bin_statval.
    repeat split; auto. }
  split; [|split].
  - destruct (Stats_one_arr_dichotomy sample_Program_Msg sample_file
                sqrt_approx [Fin (1 # 2); Fin (3 # 2)] [Fin 1; Fin 2] false
                1 1 "n" NanMean "average" NaN)
      as (edges & digits & He & Hd & [[Hout _] | [[Hcall _] | [Hcall _]]]).
    + apply Hchecks; [discriminate | discriminate | lia].
    + repeat constructor.
    + reflexivity.
    + reflexivity.
    + exact Hout.
    + vm_compute in Hcall. discriminate Hcall.
    + vm_compute in Hcall. discriminate Hcall.
  - destruct (Stats_one_arr_dichotomy sample_Program_Msg sample_file
                sqrt_approx [Fin (1 # 2); Fin (5 # 2)] [Fin 1; Fin 2] false
                1 1 "n" NanMean "average" NaN)
      as (edges & digits & He & Hd
          & [[[out Hout] _] | [[Hcall Hii] | [Hcall _]]]).
    + apply Hchecks; [discriminate | discriminate | lia].
    + repeat constructor.
    + reflexivity.
    + reflexivity.
    + vm_compute in Hout. discriminate Hout.
    + exists edges, digits. repeat (split; [assumption|]). exact Hii.
    + vm_compute in Hcall. discriminate Hcall.
  - destruct (Stats_one_arr_dichotomy sample_Program_Msg sample_file
                sqrt_approx [Fin (1 # 2); Fin (3 # 2)] [Fin 1; Fin 2] false
                1 2 "n" NanMean "average" NaN)
      as (edges & digits & He & Hd
          & [[[out Hout] _] | [[Hcall _] | [Hcall Hii]]]).
    + apply Hchecks; [discriminate | discriminate | lia].
    + repeat constructor.
    + reflexivity.
    + reflexivity.
    + vm_compute in Hout. discriminate Hout.
    + vm_compute in Hcall. discriminate Hcall.
    + exists edges, digits. repeat (split; [assumption|]). exact Hii.
Defined.

Section DefaultThreshold.
Variable Program_Msg : string -> string.
Variable module_file : string.
Variable sqrt : Q -> Q.

(** X19: the default [arr_len = 0] of the signature is rejected by the
    function's own check: a call that leaves [arr_len] out, with a valid
    [arr_digit] and non-empty [x] and [y], raises [LSSUtils_Error]
    ("`arr_len` (0) must be greated than zero!"), whatever the other
    arguments and the globals are. *)
Theorem Stats_one_arr_default_arr_len (G : gmap string pyval)
    (x y : list float) (base : float) (arr_digit : string)
    (statfunc : reducer) (bin_statval : string) (failval : float) :
  valid_arr_digit arr_digit -> x <> [] -> y <> [] ->
  Stats_one_arr Program_Msg module_file sqrt G x y base default_arr_len
                arr_digit statfunc bin_statval failval
  = Raise (LSSUtils_Error
             (Program_Msg module_file
              +:+ " `arr_len` (0) must be greated than zero!")).
Proof.
  intros Hd Hx Hy. unfold Stats_one_arr.
  rewrite (proj2 (arr_digit_check_iff _) Hd),
    (proj2 (length_check_iff _ _) (conj Hx Hy)).
  reflexivity.
Qed.

End DefaultThreshold.

Lemma Stats_one_arr_returns_full_bins_witness :
  checks_pass [Fin (-1 # 2); Fin (1 # 2)] [Fin 1; Fin 2] 1 "n" "left" /\
  exists (a : ndarray) (return_perc : pyval) (edges : list float)
         (digits : list nat),
    bound_globals [Fin (-1 # 2); Fin (1 # 2)] false !! "x1"
    = Some (VArray a) /\
    bound_globals [Fin (-1 # 2); Fin (1 # 2)] false !! "return_perc"
    = Some return_perc /\
    Bins_array_create sample_Program_Msg sample_file a (Fin 2) = Ok edges /\
    np_digitize [Fin (-1 # 2); Fin (1 # 2)] edges = Ok digits /\
    ((2 <= length edges)%nat ->
     length [Fin 1; Fin 2] = length [Fin (-1 # 2); Fin (1 # 2)]) /\
    forall ii : nat, (1 <= ii < length edges)%nat ->
      (1 <= Z.of_nat (occupancy digits ii))%Z.
Proof.
  refine (Stats_one_arr_returns_full_bins sample_Program_Msg sample_file
            sqrt_approx (bound_globals [Fin (-1 # 2); Fin (1 # 2)] false)
            [Fin (-1 # 2); Fin (1 # 2)] [Fin 1; Fin 2] (Fin 2) 1 "n"
            NanMean "left" (Fin 0) _ _).
  vm_compute. reflexivity.
Defined.

Lemma Stats_one_arr_sparse_bin_witness :
  Stats_one_arr sample_Program_Msg sample_file sqrt_approx
    (bound_globals [Fin (1 # 2); Fin (5 # 2)] true)
    [Fin (1 # 2); Fin (5 # 2)] [Fin 1; Fin 2] (Fin 1) 1 "y" NanMedian
    "right" NaN
  = Raise (TypeError "object of type 'float' has no len()") /\
  Stats_one_arr sample_Program_Msg sample_file sqrt_approx
    (bound_globals [Fin (1 # 2); Fin (3 # 2)] true)
    [Fin (1 # 2); Fin (3 # 2)] [Fin 1; Fin 2] (Fin 1) 2 "y" NanMedian
    "left" NaN
  = Raise (TypeError "object of type 'numpy.float64' has no len()").
Proof.
  split.
  - apply (Stats_one_arr_sparse_bin sample_Program_Msg sample_file sqrt_approx
             [Fin (1 # 2); Fin (5 # 2)] [Fin (1 # 2); Fin (5 # 2)]
             [Fin 1; Fin 2] true (Fin 1) 1 "y" NanMedian "right" NaN
             [Fin 0; Fin 1; Fin 2; Fin 3] [1; 3]%nat 2%nat).
    + unfold checks_pass, valid_arr_digit, valid_bin_statval.
      repeat split; try discriminate; try lia; auto.
    + reflexivity.
    + reflexivity.
    + reflexivity.
    + simpl. lia.
    + reflexivity.
  - apply (Stats_one_arr_sparse_bin sample_Program_Msg sample_file sqrt_approx
             [Fin (1 # 2); Fin (3 # 2)] [Fin (1 # 2); Fin (3 # 2)]
             [Fin 1; Fin 2] true (Fin 1) 2 "y" NanMedian "left" NaN
             [Fin 0; Fin 1; Fin 2] [1; 2]%nat 1%nat).
    + unfold checks_pass, valid_arr_digit, valid_bin_statval.
      repeat split; try discriminate; try lia; auto.
    + reflexivity.
    + reflexivity.
    + reflexivity.
    + simpl. lia.
    + reflexivity.
Defined.

Lemma Stats_one_arr_full_bins_witness :
  Stats_one_arr sample_Program_Msg sample_file sqrt_approx
    (bound_globals [Fin (-1 # 2); Fin (1 # 2)] false)
    [Fin (-1 # 2); Fin (1 # 2)] [Fin 1; Fin 2] (Fin 2) 1 "n" NanMean
    "left" (Fin 0)
  = Ok [RArray [Fin (-2)]; RArray [Fin 1];
        RGenerator0d [BinArr [Fin 1]; BinArr [Fin 2]];
        RArray [std_err sqrt_approx [Fin 1]]].
Proof.
  destruct (Stats_one_arr_full_bins sample_Program_Msg sample_file sqrt_approx
              [Fin (-1 # 2); Fin (1 # 2)] [Fin (-1 # 2); Fin (1 # 2)]
              [Fin 1; Fin 2] false (Fin 2) 1 "n" NanMean "left" (Fin 0)
              [Fin (-2); Fin 0; Fin 2] [1; 2]%nat [Fin (-2); Fin 0])
    as (perc & Hperc & Hcall).
  - unfold checks_pass, valid_arr_digit, valid_bin_statval.
    repeat split; try discriminate; try lia; auto.
  - reflexivity.
  - reflexivity.
  - reflexivity.
  - intros ii Hii. simpl in Hii.
    assert (Hc : ii = 1%nat \/ ii = 2%nat) by lia.
    destruct Hc as [-> | ->]; vm_compute; discriminate.
  - right. left. split; reflexivity.
  - cbv iota in Hperc. subst perc. rewrite Hcall. reflexivity.
Defined.


Lemma Stats_one_arr_median_error_witness :
  exists (x_stat y_mean y_median errs : list float)
         (pending : list bin_entry) (rest_mean rest_median : list pyobj),
    Stats_one_arr sample_Program_Msg sample_file sqrt_approx
      (bound_globals [Fin (-1 # 2); Fin (1 # 2)] false)
      [Fin (-1 # 2); Fin (1 # 2)] [Fin 1; Fin 2] (Fin 2) 1 "n" NanMean
      "left" NaN
    = Ok ([RArray x_stat; RArray y_mean; RGenerator0d pending; RArray errs]
          ++ rest_mean)%list /\
    Stats_one_arr sample_Program_Msg sample_file sqrt_approx
      (bound_globals [Fin (-1 # 2); Fin (1 # 2)] false)
      [Fin (-1 # 2); Fin (1 # 2)] [Fin 1; Fin 2] (Fin 2) 1 "n" NanMedian
      "left" NaN
    = Ok ([RArray x_stat; RArray y_median; RGenerator0d pending;
           RArray (map (fun v => fmul v (Fin (1253 # 1000))) errs)]
          ++ rest_median)%list.
Proof.
  apply (Stats_one_arr_median_error sample_Program_Msg sample_file sqrt_approx
           [Fin (-1 # 2); Fin (1 # 2)] [Fin (-1 # 2); Fin (1 # 2)]
           [Fin 1; Fin 2] false (Fin 2) 1 "n" "left" NaN
           [Fin (-2); Fin 0; Fin 2] [1; 2]%nat).
  - unfold checks_pass, valid_arr_digit, valid_bin_statval.
    repeat split; try discriminate; try lia; auto.
  - discriminate.
  - discriminate.
  - reflexivity.
  - reflexivity.
  - reflexivity.
  - intros ii Hii. simpl in Hii.
    assert (Hc : ii = 1%nat \/ ii = 2%nat) by lia.
    destruct Hc as [-> | ->]; vm_compute; discriminate.
Defined.

Lemma Stats_one_arr_default_arr_len_witness :
  Stats_one_arr sample_Program_Msg sample_file sqrt_approx module_globals
    [Fin 1; Fin 2] [Fin 3; Fin 4] (Fin 1) default_arr_len "n" NanMean
    "average" NaN
  = Raise (LSSUtils_Error
             (sample_Program_Msg sample_file
              +:+ " `arr_len` (0) must be greated than zero!")).
Proof.
  apply (Stats_one_arr_default_arr_len sample_Program_Msg sample_file
           sqrt_approx module_globals [Fin 1; Fin 2] [Fin 3; Fin 4] (Fin 1)
           "n" NanMean "average" NaN).
  - left. reflexivity.
  - discriminate.
  - discriminate.
Defined.
